(** * cc_worker: command builder, result interpreter, session store and
    commands

    A shallow embedding of [cc-worker/scripts/cc_worker.py].

    Conventions of the embedding:
    - a Python [str] is a [string]; a character stands for the code point
      of the same number (the code points below 256);
    - a JSON-shaped Python object is a [value]; a [dict] keeps its keys in
      insertion order, as an association list without duplicate keys;
    - an exception is the [Raise] outcome of a [res];
    - everything outside the script (the host's PATH and file tests, the
      child process, the wall clock, the session directory) is a field of
      the [World] the script runs in; the session directory is a finite
      map from file names to file contents;
    - the library functions whose results the script only passes on
      ([json.loads], [json.dumps], [str] on non-strings, the enumeration
      order of a directory, the order [list.sort] gives keys that are
      not all [str]) are variables of the sections below; module
      [PyJson] gives an executable codec for the closed examples;
    - what a command writes to the standard error stream is kept beside
      the world, in a [Console]. *)

From Stdlib Require Import ZArith Ascii String List Lia Bool Sorted.
From stdpp Require Import base option list gmap strings pretty.

Local Open Scope Z_scope.

(** ** Python string primitives *)

Module PyStr.

Definition chr (n : nat) : ascii := ascii_of_nat n.
Definition ord (c : ascii) : nat := nat_of_ascii c.

(** [str.isspace] on one character, which is also the class [\s] of a
    [str] pattern: TAB..CR, FS..US, SPACE, NEL and NBSP. *)
Definition is_space (c : ascii) : bool :=
  let n := ord c in
  ((9 <=? n) && (n <=? 13) || (28 <=? n) && (n <=? 31)
   || (n =? 32) || (n =? 133) || (n =? 160))%nat.

(** The class [\d] of a [str] pattern: the decimal digits. *)
Definition is_digit (c : ascii) : bool :=
  let n := ord c in ((48 <=? n) && (n <=? 57))%nat.

(** The line boundaries of [str.splitlines]: LF, VT, FF, CR, FS, GS, RS
    and NEL (CR LF counts once). *)
Definition is_linebreak (c : ascii) : bool :=
  let n := ord c in
  ((10 <=? n) && (n <=? 13) || (28 <=? n) && (n <=? 30) || (n =? 133))%nat.

Definition len (s : string) : Z := Z.of_nat (String.length s).

Definition truthy (s : string) : bool :=
  match s with EmptyString => false | _ => true end.

Fixpoint lstrip (s : string) : string :=
  match s with
  | String c s' => if is_space c then lstrip s' else s
  | EmptyString => EmptyString
  end.

Definition rstrip (s : string) : string := String.rev (lstrip (String.rev s)).

Definition strip (s : string) : string := rstrip (lstrip s).

Definition startswith (s p : string) : bool := String.prefix p s.

Definition endswith (s p : string) : bool :=
  String.prefix (String.rev p) (String.rev s).

(** [s[:n]] for a non-negative [n]. *)
Definition take (n : nat) (s : string) : string := String.substring 0 n s.

Definition join (sep : string) (l : list string) : string := String.concat sep l.

(** [str.splitlines()]: [cur] is the line being read, reversed; [lf]
    tells that the previous character was a CR, whose LF is skipped. *)
Fixpoint splitlines_go (cur : string) (lf : bool) (s : string) : list string :=
  match s with
  | EmptyString =>
      match cur with EmptyString => [] | _ => [String.rev cur] end
  | String c s' =>
      if lf && Ascii.eqb c (chr 10) then splitlines_go cur false s'
      else if is_linebreak c
           then String.rev cur :: splitlines_go EmptyString (Ascii.eqb c (chr 13)) s'
           else splitlines_go (String c cur) false s'
  end.

Definition splitlines (s : string) : list string :=
  splitlines_go EmptyString false s.

(** [s.split(sep)] for a one-character separator. *)
Fixpoint split_go (sep : ascii) (cur : string) (s : string) : list string :=
  match s with
  | EmptyString => [String.rev cur]
  | String c s' =>
      if Ascii.eqb c sep then String.rev cur :: split_go sep EmptyString s'
      else split_go sep (String c cur) s'
  end.

Definition split (sep : ascii) (s : string) : list string :=
  split_go sep EmptyString s.

(** The longest run of decimal digits at the head of [s], and the rest. *)
Fixpoint span_digits (s : string) : string * string :=
  match s with
  | String c s' =>
      if is_digit c
      then let '(d, r) := span_digits s' in (String c d, r)
      else (EmptyString, s)
  | EmptyString => (EmptyString, EmptyString)
  end.

(** [s[n:]] *)
Definition drop (n : nat) (s : string) : string :=
  String.substring n (String.length s - n) s.

(** The value of [s < t] on two [str]: code point by code point. *)
Definition lt (s t : string) : Prop := String.ltb s t = true.

End PyStr.

(** ** Python values, dictionaries and exceptions *)

#[warnings="-register-all"]
Inductive value : Type :=
| VNone : value
| VBool : bool -> value
| VInt : Z -> value
| VFloat : string -> value          (* a float, kept as the literal that denotes it *)
| VStr : string -> value
| VList : list value -> value
| VDict : list (string * value) -> value.

Abbreviation dict := (list (string * value)).

Inductive exn : Type :=
| TypeError | AttributeError | KeyError | JSONDecodeError | FileNotFoundError.

Inductive res (A : Type) : Type :=
| Ok : A -> res A
| Raise : exn -> res A.
Arguments Ok {A} _.
Arguments Raise {A} _.

Definition exn_eqb (e1 e2 : exn) : bool :=
  match e1, e2 with
  | TypeError, TypeError | AttributeError, AttributeError | KeyError, KeyError
  | JSONDecodeError, JSONDecodeError | FileNotFoundError, FileNotFoundError => true
  | _, _ => false
  end.

Module Py.

(** A float literal denotes zero when its mantissa has no digit other
    than 0 (a literal that underflows to zero is not told apart). *)
Fixpoint float_nonzero (lit : string) : bool :=
  match lit with
  | EmptyString => false
  | String c lit' =>
      if Ascii.eqb c "e" || Ascii.eqb c "E" then false
      else if PyStr.is_digit c && negb (Ascii.eqb c "0") then true
      else if Ascii.eqb c "N" || Ascii.eqb c "I" then true
      else float_nonzero lit'
  end.

(** [d.get(k)] on an association list. *)
Fixpoint lookup (k : string) (d : dict) : option value :=
  match d with
  | [] => None
  | (k', v) :: d' => if String.eqb k k' then Some v else lookup k d'
  end.

(** [k in d] *)
Definition contains (k : string) (d : dict) : bool :=
  match lookup k d with Some _ => true | None => false end.

(** [d.get(k, dflt)] *)
Definition get (d : dict) (k : string) (dflt : value) : value :=
  match lookup k d with Some v => v | None => dflt end.

(** [d[k] = v]: an existing key keeps its place, a new one goes last. *)
Fixpoint set (k : string) (v : value) (d : dict) : dict :=
  match d with
  | [] => [(k, v)]
  | (k', v') :: d' =>
      if String.eqb k k' then (k', v) :: d' else (k', v') :: set k v d'
  end.

(** Truth value of an object, as [if x:] and [x or y] test it. *)
Definition truthy (v : value) : bool :=
  match v with
  | VNone => false
  | VBool b => b
  | VInt n => negb (n =? 0)
  | VFloat lit => float_nonzero lit
  | VStr s => PyStr.truthy s
  | VList l => match l with [] => false | _ => true end
  | VDict d => match d with [] => false | _ => true end
  end.

(** [x.get(k, dflt)] on any object: only a dict has [get]. *)
Definition getattr_get (x : value) (k : string) (dflt : value) : res value :=
  match x with
  | VDict d => Ok (get d k dflt)
  | _ => Raise AttributeError
  end.

(** [x == s] for a [str] literal [s]. *)
Definition eq_str (x : value) (s : string) : bool :=
  match x with VStr t => String.eqb t s | _ => false end.

Definition bind {A B} (x : res A) (f : A -> res B) : res B :=
  match x with Ok a => f a | Raise e => Raise e end.

(** [try: body except (handled): handler] *)
Definition try_except {A} (body : res A) (handled : list exn) (handler : res A) : res A :=
  match body with
  | Ok a => Ok a
  | Raise e => if existsb (exn_eqb e) handled then handler else Raise e
  end.

End Py.

#[global] Instance res_ret : MRet res := @Ok.
#[global] Instance res_bind : MBind res := fun A B f x => Py.bind x f.

(** ** An executable JSON codec

    [PyJson.loads] follows the scanner of Python's [json] module (objects,
    arrays, strings with their escapes, numbers, the five constants);
    [PyJson.dumps] follows [json.dumps(obj, indent=2, ensure_ascii=False)].
    A float is read and written as its literal. An escape [\uXXXX] above
    code point 255 is outside the strings of this embedding and is refused. *)

Module PyJson.

Definition DQ : ascii := PyStr.chr 34.
Definition BS : ascii := PyStr.chr 92.

Definition is_ws (c : ascii) : bool :=
  Ascii.eqb c " " || Ascii.eqb c (PyStr.chr 9)
  || Ascii.eqb c (PyStr.chr 10) || Ascii.eqb c (PyStr.chr 13).

Fixpoint skip_ws (s : string) : string :=
  match s with
  | String c s' => if is_ws c then skip_ws s' else s
  | EmptyString => EmptyString
  end.

Definition hex_val (c : ascii) : option nat :=
  let n := PyStr.ord c in
  if ((48 <=? n) && (n <=? 57))%nat then Some (n - 48)%nat
  else if ((97 <=? n) && (n <=? 102))%nat then Some (n - 87)%nat
  else if ((65 <=? n) && (n <=? 70))%nat then Some (n - 55)%nat
  else None.

(** The four hex digits of a [\u] escape. *)
Definition hex4 (s : string) : option (nat * string) :=
  match s with
  | String a (String b (String c (String d s'))) =>
      match hex_val a, hex_val b, hex_val c, hex_val d with
      | Some x, Some y, Some z, Some w =>
          Some (((x * 16 + y) * 16 + z) * 16 + w, s')%nat
      | _, _, _, _ => None
      end
  | _ => None
  end.

Definition unescape (c : ascii) : option ascii :=
  if Ascii.eqb c DQ then Some DQ
  else if Ascii.eqb c BS then Some BS
  else if Ascii.eqb c "/" then Some "/"%char
  else if Ascii.eqb c "b" then Some (PyStr.chr 8)
  else if Ascii.eqb c "f" then Some (PyStr.chr 12)
  else if Ascii.eqb c "n" then Some (PyStr.chr 10)
  else if Ascii.eqb c "r" then Some (PyStr.chr 13)
  else if Ascii.eqb c "t" then Some (PyStr.chr 9)
  else None.

(** The body of a string literal, after its opening quote ([strict]
    mode: a raw control character ends the scan with an error). *)
Fixpoint scanstring (fuel : nat) (acc : string) (s : string) : option (string * string) :=
  match fuel with
  | O => None
  | S fuel' =>
      match s with
      | EmptyString => None
      | String c s' =>
          if Ascii.eqb c DQ then Some (String.rev acc, s')
          else if Ascii.eqb c BS then
            match s' with
            | EmptyString => None
            | String e s'' =>
                if Ascii.eqb e "u" then
                  match hex4 s'' with
                  | Some (n, rest) =>
                      if (n <? 256)%nat
                      then scanstring fuel' (String (PyStr.chr n) acc) rest
                      else None
                  | None => None
                  end
                else
                  match unescape e with
                  | Some x => scanstring fuel' (String x acc) s''
                  | None => None
                  end
            end
          else if (PyStr.ord c <? 32)%nat then None
          else scanstring fuel' (String c acc) s'
      end
  end.

Fixpoint digits_val (acc : Z) (s : string) : Z :=
  match s with
  | String c s' => digits_val (10 * acc + Z.of_nat (PyStr.ord c - 48)) s'
  | EmptyString => acc
  end.

(** The integer part [0|[1-9][0-9]*] at the head of [s]. *)
Definition int_part (s : string) : option (string * string) :=
  match s with
  | String c s' =>
      if Ascii.eqb c "0" then Some ("0", s')
      else if PyStr.is_digit c then Some (PyStr.span_digits s)
      else None
  | EmptyString => None
  end.

(** The optional fraction [\.[0-9]+] at the head of [s]. *)
Definition frac_part (s : string) : string * string :=
  match s with
  | String c s' =>
      if Ascii.eqb c "." then
        match PyStr.span_digits s' with
        | (EmptyString, _) => (EmptyString, s)
        | (d, r) => (String c d, r)
        end
      else (EmptyString, s)
  | EmptyString => (EmptyString, s)
  end.

(** The optional exponent [[eE][-+]?[0-9]+] at the head of [s]. *)
Definition exp_part (s : string) : string * string :=
  match s with
  | String c s' =>
      if Ascii.eqb c "e" || Ascii.eqb c "E" then
        let '(sign, s'') :=
          match s' with
          | String g t =>
              if Ascii.eqb g "-" || Ascii.eqb g "+"
              then (String g EmptyString, t) else (EmptyString, s')
          | EmptyString => (EmptyString, s')
          end in
        match PyStr.span_digits s'' with
        | (EmptyString, _) => (EmptyString, s)
        | (d, r) => (String c (sign +:+ d), r)
        end
      else (EmptyString, s)
  | EmptyString => (EmptyString, s)
  end.

Definition scan_number (s : string) : option (value * string) :=
  let '(neg, s1) :=
    match s with
    | String c s' => if Ascii.eqb c "-" then (true, s') else (false, s)
    | EmptyString => (false, s)
    end in
  match int_part s1 with
  | None => None
  | Some (i, s2) =>
      let '(f, s3) := frac_part s2 in
      let '(e, s4) := exp_part s3 in
      match f, e with
      | EmptyString, EmptyString =>
          Some (VInt (if neg then - digits_val 0 i else digits_val 0 i), s4)
      | _, _ => Some (VFloat ((if neg then "-" else "") +:+ i +:+ f +:+ e), s4)
      end
  end.

Definition scan_constant (s : string) : option (value * string) :=
  if String.prefix "null" s then Some (VNone, PyStr.drop 4 s)
  else if String.prefix "true" s then Some (VBool true, PyStr.drop 4 s)
  else if String.prefix "false" s then Some (VBool false, PyStr.drop 5 s)
  else if String.prefix "NaN" s then Some (VFloat "NaN", PyStr.drop 3 s)
  else if String.prefix "Infinity" s then Some (VFloat "Infinity", PyStr.drop 8 s)
  else if String.prefix "-Infinity" s then Some (VFloat "-Infinity", PyStr.drop 9 s)
  else None.

(** [scan_once]: one value at the head of [s]. [scan_items] reads the
    items of an array from the first one on, [scan_pairs] the pairs of
    an object from the opening quote of the first key on. *)
Fixpoint scan_once (fuel : nat) (s : string) : option (value * string) :=
  match fuel with
  | O => None
  | S fuel' =>
      match s with
      | EmptyString => None
      | String c s' =>
          if Ascii.eqb c DQ then
            match scanstring (String.length s') EmptyString s' with
            | Some (str, r) => Some (VStr str, r)
            | None => None
            end
          else if Ascii.eqb c "{" then
            match skip_ws s' with
            | String c1 s1 =>
                if Ascii.eqb c1 "}" then Some (VDict [], s1)
                else match scan_pairs fuel' [] (String c1 s1) with
                     | Some (d, r) => Some (VDict d, r)
                     | None => None
                     end
            | EmptyString => None
            end
          else if Ascii.eqb c "[" then
            match skip_ws s' with
            | String c1 s1 =>
                if Ascii.eqb c1 "]" then Some (VList [], s1)
                else match scan_items fuel' [] (String c1 s1) with
                     | Some (l, r) => Some (VList l, r)
                     | None => None
                     end
            | EmptyString => None
            end
          else match scan_constant s with
               | Some x => Some x
               | None => scan_number s
               end
      end
  end
with scan_items (fuel : nat) (acc : list value) (s : string) : option (list value * string) :=
  match fuel with
  | O => None
  | S fuel' =>
      match scan_once fuel' s with
      | None => None
      | Some (v, r) =>
          match skip_ws r with
          | String c r' =>
              if Ascii.eqb c "]" then Some (acc ++ [v], r')
              else if Ascii.eqb c "," then scan_items fuel' (acc ++ [v]) (skip_ws r')
              else None
          | EmptyString => None
          end
      end
  end
with scan_pairs (fuel : nat) (acc : dict) (s : string) : option (dict * string) :=
  match fuel with
  | O => None
  | S fuel' =>
      match s with
      | EmptyString => None
      | String q s0 =>
          if negb (Ascii.eqb q DQ) then None else
          match scanstring (String.length s0) EmptyString s0 with
          | None => None
          | Some (k, r0) =>
              match skip_ws r0 with
              | EmptyString => None
              | String c r1 =>
                  if negb (Ascii.eqb c ":") then None else
                  match scan_once fuel' (skip_ws r1) with
                  | None => None
                  | Some (v, r2) =>
                      match skip_ws r2 with
                      | String c2 r3 =>
                          if Ascii.eqb c2 "}" then Some (Py.set k v acc, r3)
                          else if Ascii.eqb c2 ","
                               then scan_pairs fuel' (Py.set k v acc) (skip_ws r3)
                               else None
                      | EmptyString => None
                      end
                  end
              end
          end
      end
  end.

(** [json.loads(s)]; [None] stands for [JSONDecodeError]. *)
Definition loads (s : string) : option value :=
  let s0 := skip_ws s in
  match scan_once (2 * String.length s0 + 2) s0 with
  | Some (v, r) =>
      match skip_ws r with EmptyString => Some v | _ => None end
  | None => None
  end.

Definition hex_digit (n : nat) : ascii :=
  if (n <? 10)%nat then PyStr.chr (48 + n) else PyStr.chr (87 + n).

Definition escape_char (c : ascii) : string :=
  let b := String BS EmptyString in
  if Ascii.eqb c DQ then b +:+ String DQ EmptyString
  else if Ascii.eqb c BS then b +:+ b
  else if Ascii.eqb c (PyStr.chr 10) then b +:+ "n"
  else if Ascii.eqb c (PyStr.chr 13) then b +:+ "r"
  else if Ascii.eqb c (PyStr.chr 9) then b +:+ "t"
  else if Ascii.eqb c (PyStr.chr 8) then b +:+ "b"
  else if Ascii.eqb c (PyStr.chr 12) then b +:+ "f"
  else if (PyStr.ord c <? 32)%nat
       then b +:+ "u00" +:+ String (hex_digit (PyStr.ord c / 16))
                            (String (hex_digit (PyStr.ord c mod 16)) EmptyString)
       else String c EmptyString.

Fixpoint escape (s : string) : string :=
  match s with
  | String c s' => escape_char c +:+ escape s'
  | EmptyString => EmptyString
  end.

Definition encode_str (s : string) : string :=
  String DQ (escape s) +:+ String DQ EmptyString.

Fixpoint spaces (n : nat) : string :=
  match n with O => EmptyString | S n' => String " " (spaces n') end.

(** A line break followed by the indentation of nesting level [lvl]. *)
Definition newline_indent (lvl : nat) : string :=
  String (PyStr.chr 10) (spaces (2 * lvl)).

Fixpoint dumps_at (lvl : nat) (v : value) : string :=
  match v with
  | VNone => "null"
  | VBool true => "true"
  | VBool false => "false"
  | VInt n => pretty n
  | VFloat lit => lit
  | VStr s => encode_str s
  | VList [] => "[]"
  | VList l =>
      "[" +:+ newline_indent (S lvl)
      +:+ PyStr.join ("," +:+ newline_indent (S lvl)) (List.map (dumps_at (S lvl)) l)
      +:+ newline_indent lvl +:+ "]"
  | VDict [] => "{}"
  | VDict d =>
      "{" +:+ newline_indent (S lvl)
      +:+ PyStr.join ("," +:+ newline_indent (S lvl))
            (List.map (fun kv => encode_str (fst kv) +:+ ": " +:+ dumps_at (S lvl) (snd kv)) d)
      +:+ newline_indent lvl +:+ "}"
  end.

(** [json.dumps(v, indent=2, ensure_ascii=False)] *)
Definition dumps (v : value) : string := dumps_at 0 v.

(** For writing JSON text in examples: every apostrophe of [s] becomes
    a double quote. *)
Fixpoint q (s : string) : string :=
  match s with
  | String c s' => String (if Ascii.eqb c "'" then DQ else c) (q s')
  | EmptyString => EmptyString
  end.

End PyJson.

(** ** The three regular expressions of the script *)

Module PyRe.

Definition LF : ascii := PyStr.chr 10.
Definition fence : string := "```".

(** [(.*?)\n```] under DOTALL: the shortest text up to the first line
    feed that a fence follows; the group and the characters consumed. *)
Fixpoint lazy_to_close (s : string) : option (string * nat) :=
  match s with
  | EmptyString => None
  | String c s' =>
      if Ascii.eqb c LF && String.prefix fence s' then Some (EmptyString, 4%nat)
      else match lazy_to_close s' with
           | Some (g, n) => Some (String c g, S n)
           | None => None
           end
  end.

(** [\s*\n(.*?)\n```]: the greedy [\s*] first takes a blank, and gives
    it back to [\n] only when the rest cannot match otherwise. *)
Fixpoint blanks_then_body (s : string) : option (string * nat) :=
  match s with
  | EmptyString => None
  | String c s' =>
      if PyStr.is_space c then
        match blanks_then_body s' with
        | Some (g, n) => Some (g, S n)
        | None =>
            if Ascii.eqb c LF then
              match lazy_to_close s' with
              | Some (g, n) => Some (g, S n)
              | None => None
              end
            else None
        end
      else None
  end.

(** The pattern [```(?:json)?\s*\n(.*?)\n```] at the head of [s]. *)
Definition match_fence (s : string) : option (string * nat) :=
  if String.prefix fence s then
    let r := PyStr.drop 3 s in
    match (if String.prefix "json" r then blanks_then_body (PyStr.drop 4 r) else None) with
    | Some (g, n) => Some (g, (7 + n)%nat)
    | None =>
        match blanks_then_body r with
        | Some (g, n) => Some (g, (3 + n)%nat)
        | None => None
        end
    end
  else None.

(** [re.findall]: the groups of the leftmost matches, none overlapping;
    [skip] counts the characters of the last match still to pass. *)
Fixpoint findall_go (skip : nat) (s : string) : list string :=
  match s with
  | EmptyString => []
  | String c s' =>
      match skip with
      | S k => findall_go k s'
      | O =>
          match match_fence s with
          | Some (g, n) => g :: findall_go (n - 1) s'
          | None => findall_go 0 s'
          end
      end
  end.

(** [re.findall(r"```(?:json)?\s*\n(.*?)\n```", s, re.DOTALL)] *)
Definition findall_fence (s : string) : list string := findall_go 0 s.

(** [re.sub(r"^[\d]+[.)]\s*", "", s)] *)
Definition sub_ordinal (s : string) : string :=
  match PyStr.span_digits s with
  | (String _ _, String c r) =>
      if Ascii.eqb c "." || Ascii.eqb c ")" then PyStr.lstrip r else s
  | _ => s
  end.

(** [re.sub(r"^[-*]\s*", "", s)] *)
Definition sub_bullet (s : string) : string :=
  match s with
  | String c r =>
      if Ascii.eqb c "-" || Ascii.eqb c "*" then PyStr.lstrip r else s
  | EmptyString => s
  end.

End PyRe.

(** ** The world the script runs in *)

(** What [subprocess.run] does with the child process: it raises one
    of the two exceptions that [_run] handles, or it returns the
    completed process. Any other exception of the call ([OSError] and
    its other subclasses, [ValueError], [UnicodeDecodeError]) is passed
    on by [_run] unhandled and is not among these outcomes: a statement
    about [_run] holds for the outcome it names. *)
Inductive proc_outcome : Type :=
| ProcNotFound                                        (* raises FileNotFoundError *)
| ProcTimeout                                         (* raises TimeoutExpired *)
| ProcCompleted (returncode : Z) (stdout stderr : string).

(** A path outside the session directory is the list of its parts. *)
Abbreviation path := (list string).

Record World : Type := {
  w_platform : string;                       (* platform.system() *)
  w_which : string -> option string;         (* shutil.which *)
  w_home : path;                             (* Path.home() *)
  w_scripts_dir : path;                      (* SCRIPTS_DIR *)
  w_path_exists : path -> bool;              (* Path.exists *)
  w_path_str : path -> string;               (* str(Path) *)
  w_environ : gmap string string;            (* os.environ *)
  w_subprocess_run :
    list string -> option string -> gmap string string -> Z -> proc_outcome;
  w_clock : nat -> string;                   (* successive readings of the clock *)
  w_ticks : nat;                             (* readings taken so far *)
  w_sessions : option (gmap string string);  (* SESSION_DIR, None when absent *)
  w_stdout : list string                     (* what was printed, oldest first *)
}.

Definition session_files (w : World) : gmap string string :=
  default ∅ (w_sessions w).

Definition with_sessions (fs : option (gmap string string)) (w : World) : World :=
  {| w_platform := w_platform w; w_which := w_which w; w_home := w_home w;
     w_scripts_dir := w_scripts_dir w; w_path_exists := w_path_exists w;
     w_path_str := w_path_str w; w_environ := w_environ w;
     w_subprocess_run := w_subprocess_run w; w_clock := w_clock w;
     w_ticks := w_ticks w; w_sessions := fs; w_stdout := w_stdout w |}.

Definition with_ticks (n : nat) (w : World) : World :=
  {| w_platform := w_platform w; w_which := w_which w; w_home := w_home w;
     w_scripts_dir := w_scripts_dir w; w_path_exists := w_path_exists w;
     w_path_str := w_path_str w; w_environ := w_environ w;
     w_subprocess_run := w_subprocess_run w; w_clock := w_clock w;
     w_ticks := n; w_sessions := w_sessions w; w_stdout := w_stdout w |}.

Definition with_stdout (out : list string) (w : World) : World :=
  {| w_platform := w_platform w; w_which := w_which w; w_home := w_home w;
     w_scripts_dir := w_scripts_dir w; w_path_exists := w_path_exists w;
     w_path_str := w_path_str w; w_environ := w_environ w;
     w_subprocess_run := w_subprocess_run w; w_clock := w_clock w;
     w_ticks := w_ticks w; w_sessions := w_sessions w; w_stdout := out |}.

(** A computation that may read and change the world and may raise; what
    it changed before raising stays changed. *)
Definition M (A : Type) : Type := World -> res A * World.

Definition m_ret {A} (a : A) : M A := fun w => (Ok a, w).

Definition m_bind {A B} (c : M A) (f : A -> M B) : M B :=
  fun w => match c w with
           | (Ok a, w') => f a w'
           | (Raise e, w') => (Raise e, w')
           end.

Definition m_lift {A} (r : res A) : M A := fun w => (r, w).

Notation "'do' x <- c1 ; c2" := (m_bind c1 (fun x => c2))
  (at level 10, x name, c1 at level 100, c2 at level 200,
   format "'[v' 'do'  x  <-  c1 ; '/' c2 ']'").

(** ** Client: the wrapper around the external command-line tool *)

Definition DEFAULT_ALLOWED_TOOLS : list string :=
  ["Read"; "Grep"; "Glob"; "Task"; "WebSearch";
   "mcp__contextweaver__codebase-retrieval"].

Definition DISALLOWED_TOOLS : list string :=
  ["Edit"; "Write"; "Bash"; "NotebookEdit"].

Definition WORKER_PROMPT_FILE (w : World) : path :=
  w_scripts_dir w ++ ["worker_system.md"].

(** [x or None] on an optional string: an empty string counts as absent. *)
Definition nonempty (o : option string) : option string :=
  match o with
  | Some s => if PyStr.truthy s then Some s else None
  | None => None
  end.

Definition _find_claude_bin (w : World) : string :=
  let is_windows := String.eqb (w_platform w) "Windows" in
  match (if is_windows then nonempty (w_which w "claude.cmd") else None) with
  | Some cmd_path => cmd_path
  | None =>
      match nonempty (w_which w "claude") with
      | Some p => p
      | None =>
          let candidates :=
            [ w_home w ++ ["AppData"; "Roaming"; "npm"; "claude.cmd"];
              w_home w ++ [".claude"; "local"; "claude.exe"];
              w_home w ++ [".claude"; "local"; "claude"];
              ["/"; "usr"; "local"; "bin"; "claude"] ] in
          match List.find (w_path_exists w) candidates with
          | Some c => w_path_str w c
          | None => "claude"
          end
      end
  end.

Definition _build_exec_cmd (w : World) (task : string) (model : option string)
    (max_turns : Z) (allowed_tools : option (list string)) : list string :=
  let tools :=
    match allowed_tools with
    | Some (t :: ts) => t :: ts
    | _ => DEFAULT_ALLOWED_TOOLS
    end in
  let cmd :=
    [ _find_claude_bin w; "-p"; task;
      "--output-format"; "json";
      "--max-turns"; pretty max_turns;
      "--append-system-prompt-file"; w_path_str w (WORKER_PROMPT_FILE w);
      "--allowedTools"; PyStr.join "," tools;
      "--disallowedTools"; PyStr.join "," DISALLOWED_TOOLS ] in
  match nonempty model with
  | Some m => cmd ++ ["--model"; m]
  | None => cmd
  end.

Definition _build_continue_cmd (w : World) (session_id message : string)
    (model : option string) (max_turns : Z) : list string :=
  let cmd :=
    [ _find_claude_bin w; "-p"; message;
      "--resume"; session_id;
      "--output-format"; "json";
      "--max-turns"; pretty max_turns;
      "--disallowedTools"; PyStr.join "," DISALLOWED_TOOLS ] in
  match nonempty model with
  | Some m => cmd ++ ["--model"; m]
  | None => cmd
  end.

Definition _clean_env (w : World) : gmap string string :=
  delete "CLAUDECODE" (w_environ w).

Definition _fallback_extract_questions (text : string) : list string :=
  fold_left
    (fun questions line =>
       let line := PyStr.strip line in
       if (PyStr.len line <? 10) || PyStr.startswith line "#" then questions
       else
         let cleaned := PyRe.sub_ordinal line in
         let cleaned := PyRe.sub_bullet cleaned in
         if PyStr.endswith cleaned "?" && (10 <? PyStr.len cleaned)
         then questions ++ [cleaned]
         else questions)
    (PyStr.splitlines text) [].

(** ** Result interpreter and process runner *)

Section Client.

(** [json.loads] on a [str]; [None] stands for [JSONDecodeError]. *)
Variable json_loads : string -> option value.

(** [json.loads(x)] on any object: a [str] is decoded, anything else
    of JSON shape is a [TypeError]. *)
Definition py_json_loads (x : value) : res value :=
  match x with
  | VStr s =>
      match json_loads s with
      | Some v => Ok v
      | None => Raise JSONDecodeError
      end
  | _ => Raise TypeError
  end.

(** [re.findall(pattern, x, re.DOTALL)] on any object. *)
Definition re_findall (x : value) : res (list string) :=
  match x with
  | VStr s => Ok (PyRe.findall_fence s)
  | _ => Raise TypeError
  end.

(** [isinstance(data, dict) and "status" in data] *)
Definition has_status (data : value) : bool :=
  match data with
  | VDict d => Py.contains "status" d
  | _ => false
  end.

(** The loop over the fenced blocks; [VNone] when it runs out. *)
Fixpoint first_status_block (matches : list string) : value :=
  match matches with
  | [] => VNone
  | m :: rest =>
      match json_loads m with
      | Some data => if has_status data then data else first_status_block rest
      | None => first_status_block rest
      end
  end.

Definition _extract_worker_json (text : value) : res value :=
  direct ← Py.try_except
             (data ← py_json_loads text;
              Ok (if has_status data then Some data else None))
             [JSONDecodeError; TypeError]
             (Ok None);
  match direct with
  | Some data => Ok data
  | None =>
      matches ← re_findall text;
      Ok (first_status_block matches)
  end.

(** [text.splitlines()] inside [_fallback_extract_questions], on any object. *)
Definition fallback_questions_of (raw_result : value) : res (list string) :=
  match raw_result with
  | VStr s => Ok (_fallback_extract_questions s)
  | _ => Raise AttributeError
  end.

(** The part of [_run] after the child's output was decoded: from the
    raw response to the normalized result. *)
Definition interpret (raw : value) : res dict :=
  session_id ← Py.getattr_get raw "session_id" (VStr "");
  model ← Py.getattr_get raw "model" (VStr "");
  cost_usd ← Py.getattr_get raw "total_cost_usd" (VInt 0);
  duration_ms ← Py.getattr_get raw "duration_ms" (VInt 0);
  num_turns ← Py.getattr_get raw "num_turns" (VInt 0);
  is_error ← Py.getattr_get raw "is_error" (VBool false);
  subtype ← Py.getattr_get raw "subtype" (VStr "");
  let result : dict :=
    [ ("session_id", session_id); ("model", model); ("cost_usd", cost_usd);
      ("duration_ms", duration_ms); ("num_turns", num_turns);
      ("is_error", is_error); ("subtype", subtype) ] in
  raw_result ← Py.getattr_get raw "result" (VStr "");
  worker_data ← _extract_worker_json raw_result;
  if Py.truthy worker_data then
    status ← Py.getattr_get worker_data "status" (VStr "completed");
    summary ← Py.getattr_get worker_data "summary" (VStr "");
    analysis ← Py.getattr_get worker_data "analysis" (VStr "");
    questions ← Py.getattr_get worker_data "questions" (VList []);
    files_analyzed ← Py.getattr_get worker_data "files_analyzed" (VList []);
    let result := Py.set "status" status result in
    let result := Py.set "summary" summary result in
    let result := Py.set "analysis" analysis result in
    let result := Py.set "questions" questions result in
    let result := Py.set "files_analyzed" files_analyzed result in
    Ok result
  else
    raw_subtype ← Py.getattr_get raw "subtype" VNone;
    let is_truncated := Py.eq_str raw_subtype "error_max_turns" in
    questions ← fallback_questions_of raw_result;
    let result :=
      Py.set "status"
        (VStr (if is_truncated then "incomplete"
               else match questions with
                    | _ :: _ => "needs_clarification"
                    | [] => "completed"
                    end)) result in
    let result := Py.set "summary" (VStr "") result in
    let result := Py.set "analysis" raw_result result in
    let result := Py.set "questions" (VList (VStr <$> questions)) result in
    let result := Py.set "files_analyzed" (VList []) result in
    Ok result.

Definition _run (w : World) (cmd : list string) (cwd : option string)
    (timeout : Z) : res dict :=
  match w_subprocess_run w cmd cwd (_clean_env w) timeout with
  | ProcNotFound =>
      Ok [ ("error", VStr "claude CLI not found. Install Claude Code first.");
           ("exit_code", VInt (-1)) ]
  | ProcTimeout =>
      Ok [ ("error", VStr ("Task timed out after " +:+ pretty timeout +:+ " seconds"));
           ("exit_code", VInt (-2)) ]
  | ProcCompleted returncode stdout stderr =>
      if negb (returncode =? 0) && negb (PyStr.truthy (PyStr.strip stdout)) then
        Ok [ ("error",
              VStr (if PyStr.truthy (PyStr.strip stderr) then PyStr.strip stderr
                    else "claude exited with code " +:+ pretty returncode));
             ("exit_code", VInt returncode) ]
      else
        match json_loads stdout with
        | None =>
            Ok [ ("error", VStr "Failed to parse claude output as JSON");
                 ("raw_output", VStr (PyStr.take 2000 stdout));
                 ("exit_code", VInt returncode) ]
        | Some raw => interpret raw
        end
  end.

Definition exec_task (w : World) (task : string) (cwd model : option string)
    (max_turns : Z) (allowed_tools : option (list string)) (timeout : Z) : res dict :=
  let cmd := _build_exec_cmd w task model max_turns allowed_tools in
  _run w cmd cwd timeout.

Definition continue_session (w : World) (session_id message : string)
    (cwd model : option string) (max_turns : Z) (timeout : Z) : res dict :=
  let cmd := _build_continue_cmd w session_id message model max_turns in
  _run w cmd cwd timeout.

End Client.

(** ** Session store *)

(** [name.rfind(".")] *)
Fixpoint rfind_dot (name : string) : option nat :=
  match name with
  | EmptyString => None
  | String c name' =>
      match rfind_dot name' with
      | Some i => Some (S i)
      | None => if Ascii.eqb c "." then Some O else None
      end
  end.

(** [Path.stem] of a file name: the name without its last suffix; a
    leading or a final dot starts no suffix. *)
Definition stem (name : string) : string :=
  match rfind_dot name with
  | Some i =>
      if ((0 <? i) && (i <? String.length name - 1))%nat
      then PyStr.take i name
      else name
  | None => name
  end.

(** [x[k]] on any object, for a string key. *)
Definition getitem (x : value) (k : string) : res value :=
  match x with
  | VDict d =>
      match Py.lookup k d with
      | Some v => Ok v
      | None => Raise KeyError
      end
  | _ => Raise TypeError
  end.

(** [x.append(item)] on any object; the list is updated in place, which
    the caller writes back where the list lives. *)
Definition list_append (x item : value) : res value :=
  match x with
  | VList l => Ok (VList (l ++ [item]))
  | _ => Raise AttributeError
  end.

(** [x[k] = v] on any object, for a string key. *)
Definition setitem (x : value) (k : string) (v : value) : res value :=
  match x with
  | VDict d => Ok (VDict (Py.set k v d))
  | _ => Raise TypeError
  end.

Definition _ensure_session_dir : M unit :=
  fun w => (Ok tt, with_sessions (Some (session_files w)) w).

Definition _now_iso : M string :=
  fun w => (Ok (w_clock w (w_ticks w)), with_ticks (S (w_ticks w)) w).

(** [Path.exists], [read_text], [write_text] and [unlink] on a file of
    the session directory, given by its name. *)
Definition path_exists (name : string) : M bool :=
  fun w => (Ok (bool_decide (is_Some (session_files w !! name))), w).

Definition read_text (name : string) : M string :=
  fun w => match session_files w !! name with
           | Some text => (Ok text, w)
           | None => (Raise FileNotFoundError, w)
           end.

Definition write_text (name text : string) : M unit :=
  fun w => match w_sessions w with
           | Some fs => (Ok tt, with_sessions (Some (<[name := text]> fs)) w)
           | None => (Raise FileNotFoundError, w)
           end.

Definition unlink (name : string) : M unit :=
  fun w => match session_files w !! name with
           | Some _ => (Ok tt, with_sessions (Some (delete name (session_files w))) w)
           | None => (Raise FileNotFoundError, w)
           end.

(** The process-level failures of the specification. *)
Inductive failure : Type :=
| ExecutableNotFound | Timeout | ProcessError | MalformedOutput.

Section Store.

Variable json_loads : string -> option value.

(** [json.dumps(obj, indent=2, ensure_ascii=False)] *)
Variable json_dumps : value -> string.

(** [str(x)] for an object that is not a [str]. *)
Variable py_str : value -> string.

(** The names of the directory's entries, in the order in which the
    file system enumerates them. *)
Variable listdir : gmap string string -> list string.

(** [f"{x}"] *)
Definition format (x : value) : string :=
  match x with
  | VStr s => s
  | _ => py_str x
  end.

(** The file of a session, as a name inside SESSION_DIR. *)
Definition _session_path (session_id : value) : string :=
  format session_id +:+ ".json".

(** [SESSION_DIR.glob("*.json")] *)
Definition glob_json : M (list string) :=
  fun w => (Ok (List.filter (fun name => PyStr.endswith name ".json")
                            (listdir (session_files w))), w).

Definition read_json (name : string) : M value :=
  do text <- read_text name;
  m_lift (py_json_loads json_loads (VStr text)).

Definition session_save (session_id : value) (task : string) (result : dict)
    (cwd : string) (model : value) : M dict :=
  do _ <- _ensure_session_dir;
  do created_at <- _now_iso;
  do updated_at <- _now_iso;
  do user_ts <- _now_iso;
  do assistant_ts <- _now_iso;
  let data : dict :=
    [ ("session_id", session_id);
      ("task", VStr task);
      ("cwd", VStr cwd);
      ("model", model);
      ("created_at", VStr created_at);
      ("updated_at", VStr updated_at);
      ("turns",
       VList
         [ VDict [ ("role", VStr "user"); ("content", VStr task);
                   ("timestamp", VStr user_ts) ];
           VDict [ ("role", VStr "assistant");
                   ("content", Py.get result "result" (VStr ""));
                   ("status", Py.get result "status" VNone);
                   ("timestamp", VStr assistant_ts) ] ]);
      ("last_status", Py.get result "status" (VStr "completed"));
      ("last_summary", Py.get result "summary" (VStr "")) ] in
  do _ <- write_text (_session_path session_id) (json_dumps (VDict data));
  m_ret data.

Definition session_update (session_id message : string) (result : dict) : M value :=
  let path := _session_path (VStr session_id) in
  do data <- read_json path;
  do now <- _now_iso;
  do turns <- m_lift (getitem data "turns");
  do turns <- m_lift
      (list_append turns
         (VDict [ ("role", VStr "user"); ("content", VStr message);
                  ("timestamp", VStr now) ]));
  do turns <- m_lift
      (list_append turns
         (VDict [ ("role", VStr "assistant");
                  ("content", Py.get result "result" (VStr ""));
                  ("status", Py.get result "status" VNone);
                  ("timestamp", VStr now) ]));
  do data <- m_lift (setitem data "turns" turns);
  do data <- m_lift (setitem data "updated_at" (VStr now));
  do data <- m_lift (setitem data "last_status" (Py.get result "status" (VStr "completed")));
  do data <- m_lift (setitem data "last_summary" (Py.get result "summary" (VStr "")));
  do _ <- write_text path (json_dumps data);
  m_ret data.

Definition session_get (session_id : string) : M value :=
  do _ <- _ensure_session_dir;
  let path := _session_path (VStr session_id) in
  do found <- path_exists path;
  if found then read_json path
  else
    do names <- glob_json;
    match List.find (fun p => PyStr.startswith (stem p) session_id) names with
    | Some p => read_json p
    | None => m_ret VNone
    end.

Definition session_delete (session_id : string) : M bool :=
  let path := _session_path (VStr session_id) in
  do found <- path_exists path;
  if found then
    do _ <- unlink path;
    m_ret true
  else m_ret false.

(** ** Command-line driver: [exec] and [continue] *)

Definition _print_json (data : dict) : M unit :=
  fun w => (Ok tt, with_stdout (w_stdout w ++ [json_dumps (VDict data)]) w).

Record exec_args : Type := {
  ea_task : string;
  ea_cwd : option string;
  ea_model : option string;
  ea_max_turns : Z;
  ea_allowed_tools : option string
}.

Record continue_args : Type := {
  ca_session_id : string;
  ca_message : string;
  ca_model : option string;
  ca_max_turns : Z
}.

(** Reading the world without changing it. *)
Definition m_read {A} (f : World -> res A) : M A := fun w => (f w, w).

(** The [--allowed-tools] option, split at its commas. *)
Definition allowed_tools_of (args : exec_args) : option (list string) :=
  match nonempty (ea_allowed_tools args) with
  | Some s => Some (PyStr.strip <$> PyStr.split "," s)
  | None => None
  end.

Definition cmd_exec (args : exec_args) : M Z :=
  let allowed_tools := allowed_tools_of args in
  do result <- m_read (fun w =>
      exec_task json_loads w (ea_task args) (ea_cwd args) (nonempty (ea_model args))
        (ea_max_turns args) allowed_tools 600);
  if Py.contains "error" result then
    do _ <- _print_json result;
    m_ret 1
  else
    let session_id := Py.get result "session_id" (VStr "") in
    do _ <- (if Py.truthy session_id then
               do _ <- session_save session_id (ea_task args) result
                         (default "." (nonempty (ea_cwd args)))
                         (Py.get result "model" (VStr (default "" (nonempty (ea_model args)))));
               m_ret tt
             else m_ret tt);
    do _ <- _print_json result;
    m_ret 0.

(** An element of the argument vector handed to [subprocess.run] has to
    be a [str]. *)
Definition argv_str (x : value) : res string :=
  match x with
  | VStr s => Ok s
  | _ => Raise TypeError
  end.

(** The [cwd] handed to [subprocess.run]: [None] or a [str]. *)
Definition cwd_arg (x : value) : res (option string) :=
  match x with
  | VNone => Ok None
  | VStr s => Ok (Some s)
  | _ => Raise TypeError
  end.

Definition cmd_continue (args : continue_args) : M Z :=
  do session <- session_get (ca_session_id args);
  do full_id <- m_lift (if Py.truthy session then getitem session "session_id"
                        else Ok (VStr (ca_session_id args)));
  do cwd <- m_lift (if Py.truthy session then Py.getattr_get session "cwd" (VStr ".")
                    else Ok (VStr "."));
  do result <- m_read (fun w =>
      id_str ← argv_str full_id;
      cwd_opt ← cwd_arg cwd;
      continue_session json_loads w id_str (ca_message args) cwd_opt
        (nonempty (ca_model args)) (ca_max_turns args) 600);
  if Py.contains "error" result then
    do _ <- _print_json result;
    m_ret 1
  else
    do _ <- (if Py.truthy session then
               do id_str <- m_lift (argv_str full_id);
               do _ <- session_update id_str (ca_message args) result;
               m_ret tt
             else m_ret tt);
    do _ <- _print_json result;
    m_ret 0.

(** ** Failures of the child process *)

(** How the specification classifies what the child did: not found,
    timed out, a non-zero exit with no usable output, or an output
    that is not JSON; [None] when the output decodes. *)
Definition failure_of (p : proc_outcome) : option failure :=
  match p with
  | ProcNotFound => Some ExecutableNotFound
  | ProcTimeout => Some Timeout
  | ProcCompleted returncode stdout _ =>
      if negb (returncode =? 0) && negb (PyStr.truthy (PyStr.strip stdout))
      then Some ProcessError
      else match json_loads stdout with
           | None => Some MalformedOutput
           | Some _ => None
           end
  end.

(** What the child of an [exec] invocation does. *)
Definition exec_outcome (w : World) (args : exec_args) : proc_outcome :=
  w_subprocess_run w
    (_build_exec_cmd w (ea_task args) (nonempty (ea_model args))
       (ea_max_turns args) (allowed_tools_of args))
    (ea_cwd args) (_clean_env w) 600.

(** What the child of a [continue] invocation does, once the session id
    and the working directory are settled. *)
Definition continue_outcome (w : World) (args : continue_args)
    (session_id : string) (cwd : option string) : proc_outcome :=
  w_subprocess_run w
    (_build_continue_cmd w session_id (ca_message args) (nonempty (ca_model args))
       (ca_max_turns args))
    cwd (_clean_env w) 600.

End Store.

(** ** Session listing and the remaining commands *)

(** [len(x)] on any object. *)
Definition py_len (x : value) : res Z :=
  match x with
  | VStr s => Ok (PyStr.len s)
  | VList l => Ok (Z.of_nat (length l))
  | VDict d => Ok (Z.of_nat (length d))
  | _ => Raise TypeError
  end.

(** [l[:n]]: a negative [n] counts from the end. *)
Definition slice_to {A} (n : Z) (l : list A) : list A :=
  if 0 <=? n then take (Z.to_nat n) l
  else take (length l - Z.to_nat (- n)) l.

(** [try: body except (handled): handler] around a computation. *)
Definition m_try_except {A} (body : M A) (handled : list exn) (handler : M A) : M A :=
  fun w => match body w with
           | (Ok a, w') => (Ok a, w')
           | (Raise e, w') =>
               if existsb (exn_eqb e) handled then handler w' else (Raise e, w')
           end.

(** The entry that [session_list] builds from a decoded record; the
    values of the dict display are evaluated in the order written. *)
Definition session_summary (data : value) : res dict :=
  session_id ← getitem data "session_id";
  task ← getitem data "task";
  cwd ← Py.getattr_get data "cwd" (VStr "");
  model ← Py.getattr_get data "model" (VStr "");
  created_at ← getitem data "created_at";
  fallback ← getitem data "created_at";
  updated_at ← Py.getattr_get data "updated_at" fallback;
  turns ← Py.getattr_get data "turns" (VList []);
  n_turns ← py_len turns;
  last_status ← Py.getattr_get data "last_status" (VStr "");
  last_summary ← Py.getattr_get data "last_summary" (VStr "");
  Ok [ ("session_id", session_id); ("task", task); ("cwd", cwd); ("model", model);
       ("created_at", created_at); ("updated_at", updated_at);
       ("turns", VInt n_turns);
       ("last_status", last_status); ("last_summary", last_summary) ].

(** The keys of [list.sort(key=lambda s: s["updated_at"])], computed
    for every entry before any comparison. *)
Fixpoint sort_keys (sessions : list dict) : res (list (value * dict)) :=
  match sessions with
  | [] => Ok []
  | s :: rest =>
      k ← getitem (VDict s) "updated_at";
      keyed ← sort_keys rest;
      Ok ((k, s) :: keyed)
  end.

(** The keyed entries when every key is a [str]. *)
Fixpoint str_keys (keyed : list (value * dict)) : option (list (string * dict)) :=
  match keyed with
  | [] => Some []
  | (VStr k, s) :: rest =>
      match str_keys rest with
      | Some ks => Some ((k, s) :: ks)
      | None => None
      end
  | _ :: _ => None
  end.

(** A stable sort on [str] keys, greatest first: an entry goes before
    the entries that followed it and whose key is not greater. *)
Fixpoint insert_desc {A} (x : string * A) (l : list (string * A)) : list (string * A) :=
  match l with
  | [] => [x]
  | y :: l' => if String.ltb x.1 y.1 then y :: insert_desc x l' else x :: l
  end.

Definition sort_desc {A} (l : list (string * A)) : list (string * A) :=
  foldr insert_desc [] l.

(** The world together with what was written to the standard error
    stream. *)
Record Console : Type := {
  c_world : World;
  c_stderr : list string
}.

Definition MC (A : Type) : Type := Console -> res A * Console.

Definition c_ret {A} (a : A) : MC A := fun c => (Ok a, c).

Definition c_bind {A B} (m : MC A) (f : A -> MC B) : MC B :=
  fun c => match m c with
           | (Ok a, c') => f a c'
           | (Raise e, c') => (Raise e, c')
           end.

Definition c_lift {A} (m : M A) : MC A :=
  fun c => let '(r, w) := m (c_world c) in
           (r, {| c_world := w; c_stderr := c_stderr c |}).

Record sessions_args : Type := { sa_limit : option Z }.

Record status_args : Type := { sta_session_id : string }.

Record delete_args : Type := { da_session_id : string }.

Section Commands.

Variable json_loads : string -> option value.
Variable json_dumps : value -> string.

(** [json.dumps(obj, indent=2)], which escapes what is not ASCII. *)
Variable json_dumps_ascii : value -> string.

Variable py_str : value -> string.
Variable listdir : gmap string string -> list string.

(** [list.sort(key=..., reverse=True)] on two entries or more whose keys
    are not all [str]: the order of numbers, of lists and across types,
    and the errors of its comparisons, are Python's own. *)
Variable sort_other : list (value * dict) -> res (list dict).

(** [sessions.sort(key=lambda s: s["updated_at"], reverse=True)] *)
Definition sort_sessions (sessions : list dict) : res (list dict) :=
  keyed ← sort_keys sessions;
  match str_keys keyed with
  | Some ks => Ok (snd <$> sort_desc ks)
  | None =>
      match sessions with
      | [] | [_] => Ok sessions
      | _ => sort_other keyed
      end
  end.

(** One turn of the loop of [session_list]: the entry of a file, or
    nothing when its text does not decode or its record lacks a key. *)
Definition session_entry (path : string) : M (option dict) :=
  m_try_except
    (do text <- read_text path;
     m_lift (data ← py_json_loads json_loads (VStr text);
             entry ← session_summary data;
             Ok (Some entry)))
    [JSONDecodeError; KeyError]
    (m_ret None).

Fixpoint session_list_loop (paths : list string) (sessions : list dict) : M (list dict) :=
  match paths with
  | [] => m_ret sessions
  | path :: rest =>
      do entry <- session_entry path;
      session_list_loop rest
        (match entry with Some e => sessions ++ [e] | None => sessions end)
  end.

Definition session_list : M (list dict) :=
  do _ <- _ensure_session_dir;
  do paths <- glob_json listdir;
  do sessions <- session_list_loop paths [];
  m_lift (sort_sessions sessions).

(** [_print_json] on any object: [cmd_status] prints what [session_get]
    returned. *)
Definition print_json_value (data : value) : M unit :=
  fun w => (Ok tt, with_stdout (w_stdout w ++ [json_dumps data]) w).

Definition _print_error (message : string) : MC unit :=
  fun c => (Ok tt,
            {| c_world := c_world c;
               c_stderr := c_stderr c
                           ++ [json_dumps_ascii (VDict [("error", VStr message)])] |}).

Definition cmd_sessions (args : sessions_args) : M Z :=
  do sessions <- session_list;
  let sessions :=
    match sa_limit args with
    | Some n => if negb (n =? 0) then slice_to n sessions else sessions
    | None => sessions
    end in
  do _ <- _print_json json_dumps
            [ ("sessions", VList (VDict <$> sessions));
              ("count", VInt (Z.of_nat (length sessions))) ];
  m_ret 0.

Definition cmd_status (args : status_args) : MC Z :=
  c_bind (c_lift (session_get json_loads py_str listdir (sta_session_id args)))
    (fun session =>
       if negb (Py.truthy session) then
         c_bind (_print_error ("Session not found: " +:+ sta_session_id args))
           (fun _ => c_ret 1)
       else
         c_bind (c_lift (print_json_value session)) (fun _ => c_ret 0)).

Definition cmd_delete (args : delete_args) : MC Z :=
  c_bind (c_lift (session_delete py_str (da_session_id args)))
    (fun deleted =>
       if deleted : bool then
         c_bind (c_lift (_print_json json_dumps
                           [("deleted", VStr (da_session_id args))]))
           (fun _ => c_ret 0)
       else
         c_bind (_print_error ("Session not found: " +:+ da_session_id args))
           (fun _ => c_ret 1)).

End Commands.

(** ** The properties, in the specification's words *)

(** [argv] holds [flag] immediately followed by [arg]. *)
Definition passes (flag arg : string) (argv : list string) : Prop :=
  ∃ pre post, argv = pre ++ flag :: arg :: post.

Definition disallowed_arg : string := "Edit,Write,Bash,NotebookEdit".

(** The positions of a continuation's argument vector that hold what the
    host and the caller supplied: the executable, the message, the
    session id and the model name. *)
Definition continue_input_positions : list nat := [0; 2; 4; 12]%nat.

(** What follows a leading ordinal marker, when the line starts with
    one: digits, at least one ([seen] tells that one was read), followed
    by [.] or [)]. *)
Fixpoint after_digits (seen : bool) (s : string) : option string :=
  match s with
  | String c s' =>
      if PyStr.is_digit c then after_digits true s'
      else if seen && (Ascii.eqb c "." || Ascii.eqb c ")") then Some s'
      else None
  | EmptyString => None
  end.

Definition after_ordinal (line : string) : option string :=
  after_digits false line.

(** What follows a leading bullet marker, when the line starts with
    one: [-] or [*]. *)
Definition after_bullet (line : string) : option string :=
  match line with
  | String c s' => if Ascii.eqb c "-" || Ascii.eqb c "*" then Some s' else None
  | EmptyString => None
  end.

(** The blanks at the head of [s] removed. *)
Fixpoint skip_blanks (s : string) : string :=
  match s with
  | String c s' => if PyStr.is_space c then skip_blanks s' else s
  | EmptyString => EmptyString
  end.

(** A line without its leading marker, which goes with the blanks that
    follow it; a line that starts with no marker is left as it is. *)
Definition strip_marker (after : string -> option string) (line : string) : string :=
  match after line with
  | Some rest => skip_blanks rest
  | None => line
  end.

(** A line without its leading ordinal marker and then without its
    leading bullet marker, as the specification words them: digits
    followed by [.] or [)], then [-] or [*]. *)
Definition strip_markers (line : string) : string :=
  strip_marker after_bullet (strip_marker after_ordinal line).

(** The test the specification puts on a line already stripped of its
    surrounding blanks. *)
Definition is_question_line (line : string) : bool :=
  (10 <=? PyStr.len line)
  && negb (PyStr.startswith line "#")
  && PyStr.endswith (strip_markers line) "?"
  && (10 <? PyStr.len (strip_markers line)).

(** The candidate questions as the specification words them: the lines
    that pass the test, in order, each without its markers. *)
Definition candidate_questions (text : string) : list string :=
  strip_markers <$> List.filter is_question_line (PyStr.strip <$> PyStr.splitlines text).

Fixpoint all_digits (s : string) : bool :=
  match s with
  | String c s' => PyStr.is_digit c && all_digits s'
  | EmptyString => true
  end.

Definition valid_status (v : value) : Prop :=
  v = VStr "completed" ∨ v = VStr "incomplete" ∨ v = VStr "needs_clarification".

Definition nonempty_list (v : value) : Prop :=
  ∃ x l, v = VList (x :: l).

(** The invariant the specification states of a normalized result. *)
Definition status_invariant (result : dict) : Prop :=
  (∃ s, Py.lookup "status" result = Some s ∧ valid_status s)
  ∧ (∀ q, Py.lookup "questions" result = Some q → nonempty_list q →
          Py.lookup "status" result = Some (VStr "needs_clarification")).

(** The child exited with status zero or printed something: [_run] goes
    on to decode its output. *)
Definition output_usable (returncode : Z) (stdout : string) : Prop :=
  returncode = 0 ∨ PyStr.strip stdout ≠ "".

(** ** JSON-shaped values *)

(** The values that [json.dumps] writes and [json.loads] reads back as
    they are: no float, and no key twice in a dict. *)
#[warnings="-register-all"]
Inductive jsonable : value → Prop :=
| jsonable_none : jsonable VNone
| jsonable_bool b : jsonable (VBool b)
| jsonable_int n : jsonable (VInt n)
| jsonable_str s : jsonable (VStr s)
| jsonable_list l : Forall jsonable l → jsonable (VList l)
| jsonable_dict d :
    NoDup d.*1 → Forall (λ kv, jsonable kv.2) d → jsonable (VDict d).

(** What follows a value in a text written by [dumps]: nothing, a comma
    or a line feed. *)
Definition val_end (rest : string) : Prop :=
  match rest with
  | EmptyString => True
  | String c _ => c = ","%char ∨ c = PyStr.chr 10
  end.

(** Fuel that [scan_once] needs for a value. *)
Fixpoint cost (v : value) : nat :=
  match v with
  | VList l => S (list_sum (List.map (λ x, S (cost x)) l))
  | VDict d => S (list_sum (List.map (λ kv, S (cost (snd kv))) d))
  | _ => 1
  end.

(** [scan_once] reads [v] back from its text at any nesting level,
    whatever follows the text. *)
Definition parses (v : value) : Prop :=
  ∀ lvl rest fuel, val_end rest → (cost v ≤ fuel)%nat →
    PyJson.scan_once fuel (PyJson.dumps_at lvl v +:+ rest) = Some (v, rest).

(** ** Further properties of the code *)

(** The fixed locations that [_find_claude_bin] tries, in order. *)
Definition claude_candidates (w : World) : list path :=
  [ w_home w ++ ["AppData"; "Roaming"; "npm"; "claude.cmd"];
    w_home w ++ [".claude"; "local"; "claude.exe"];
    w_home w ++ [".claude"; "local"; "claude"];
    ["/"; "usr"; "local"; "bin"; "claude"] ].

(** The default tool list, joined as [_build_exec_cmd] passes it. *)
Definition default_allowed_arg : string :=
  "Read,Grep,Glob,Task,WebSearch,mcp__contextweaver__codebase-retrieval".

(** The argument vector that [cmd_exec] hands to the child. *)
Definition exec_argv (w : World) (args : exec_args) : list string :=
  _build_exec_cmd w (ea_task args) (nonempty (ea_model args))
    (ea_max_turns args) (allowed_tools_of args).

(** Some character of [s] is a blank. *)
Fixpoint has_space (s : string) : bool :=
  match s with
  | String c s' => PyStr.is_space c || has_space s'
  | EmptyString => false
  end.

(** Every character of [s] is a blank. *)
Fixpoint all_space (s : string) : bool :=
  match s with
  | String c s' => PyStr.is_space c && all_space s'
  | EmptyString => true
  end.

(** [p in s] on two [str]. *)
Fixpoint occurs (p s : string) : bool :=
  String.prefix p s
  || match s with
     | String _ s' => occurs p s'
     | EmptyString => false
     end.

(** The line that ends a fenced block: a line feed and a fence. *)
Definition close_fence : string := String PyRe.LF PyRe.fence.

(** The keys of a normalized result, in the order [_run] sets them. *)
Definition normalized_keys : list string :=
  [ "session_id"; "model"; "cost_usd"; "duration_ms"; "num_turns"; "is_error";
    "subtype"; "status"; "summary"; "analysis"; "questions"; "files_analyzed" ].

(** [a] was not updated before [b], by their [updated_at] strings. *)
Definition not_older (a b : dict) : Prop :=
  ∀ ka kb, Py.lookup "updated_at" a = Some (VStr ka) →
           Py.lookup "updated_at" b = Some (VStr kb) →
           ¬ PyStr.lt ka kb.

Section ListingSpec.

Variable json_loads : string -> option value.

(** The entry of a session file, when its text decodes to a record from
    which [session_summary] builds one. *)
Definition summary_of_text (text : string) : option dict :=
  match json_loads text with
  | Some v => match session_summary v with Ok s => Some s | Raise _ => None end
  | None => None
  end.

(** A session file that [session_list] lists or passes over: its text
    does not decode, or its record lacks a required key, or the record
    gives an entry whose [updated_at] is a [str]. *)
Definition listed_or_skipped (text : string) : Prop :=
  match json_loads text with
  | None => True
  | Some v =>
      session_summary v = Raise KeyError
      ∨ ∃ s k, session_summary v = Ok s ∧ Py.lookup "updated_at" s = Some (VStr k)
  end.

End ListingSpec.

(** ** Worlds and library instances for the closed examples *)

(** A line feed, for the texts of the examples. *)
Definition newline : string := String (PyStr.chr 10) "".

(** [str(x)] for the examples: exact on [None], booleans and integers. *)
Definition py_str_ex (x : value) : string :=
  match x with
  | VNone => "None"
  | VBool true => "True"
  | VBool false => "False"
  | VInt n => pretty n
  | _ => PyJson.dumps x
  end.

(** The enumeration order of the examples: that of the finite map. *)
Definition listdir_ex (m : gmap string string) : list string :=
  elements (dom m).

(** A POSIX host on which the tool is on the PATH; [run] is what the
    child process does and [clock] what the clock reads. *)
Definition host (run : proc_outcome) (clock : nat -> string)
    (sessions : option (gmap string string)) : World :=
  {| w_platform := "Linux";
     w_which := fun name => if String.eqb name "claude" then Some "/usr/bin/claude" else None;
     w_home := ["/"; "home"; "op"];
     w_scripts_dir := ["/"; "opt"; "cc-worker"; "scripts"];
     w_path_exists := fun _ => false;
     w_path_str := fun p => match p with
                            | "/" :: rest => "/" +:+ PyStr.join "/" rest
                            | _ => PyStr.join "/" p
                            end;
     w_environ := {[ "CLAUDECODE" := "1"; "HOME" := "/home/op" ]};
     w_subprocess_run := fun _ _ _ _ => run;
     w_clock := clock;
     w_ticks := 0;
     w_sessions := sessions;
     w_stdout := [] |}.

(** The host of the examples, with a child that exits with status zero
    after printing [stdout]. *)
Definition host_printing (stdout : string) : World :=
  host (ProcCompleted 0 stdout "") (fun _ => "2026-01-05T10:00:00+00:00") None.

(** A response cut short by the turn budget whose text asks a question. *)
Definition truncated_stdout : string :=
  PyJson.q "{'subtype': 'error_max_turns', 'result': 'Which database should the service use?'}".

(** A response whose result text is a structured payload with a status
    outside the three values. *)
Definition foreign_status_stdout : string :=
  PyJson.q "{'session_id': 's1', 'result': '{\'status\': \'failed\'}'}".

(** A response whose result is [null]. *)
Definition null_result_stdout : string := PyJson.q "{'result': null}".

(** A result text that wraps a structured payload in prose and a fence. *)
Definition fenced_result : string :=
  "I need one detail first." +:+ newline
  +:+ "```json" +:+ newline
  +:+ PyJson.q "{'status':'needs_clarification','questions':['What port should the service use?']}"
  +:+ newline +:+ "```" +:+ newline +:+ "Thanks.".

(** A record as [session_save] writes it. *)
Definition stored_record : dict :=
  [ ("session_id", VStr "7c1e");
    ("task", VStr "Review the parser");
    ("cwd", VStr ".");
    ("model", VStr "m1");
    ("created_at", VStr "2026-01-05T10:00:00+00:00");
    ("updated_at", VStr "2026-01-05T10:00:00+00:00");
    ("turns",
     VList
       [ VDict [ ("role", VStr "user"); ("content", VStr "Review the parser");
                 ("timestamp", VStr "2026-01-05T10:00:00+00:00") ];
         VDict [ ("role", VStr "assistant"); ("content", VStr "");
                 ("status", VStr "completed");
                 ("timestamp", VStr "2026-01-05T10:00:00+00:00") ] ]);
    ("last_status", VStr "completed");
    ("last_summary", VStr "The parser is fine.") ].

(** The record of another session, whose id extends the first one's. *)
Definition longer_record : dict :=
  [ ("session_id", VStr "7c1e9"); ("task", VStr "Review the lexer");
    ("cwd", VStr "."); ("model", VStr "m1");
    ("created_at", VStr "2026-01-04T08:00:00+00:00");
    ("updated_at", VStr "2026-01-04T08:00:00+00:00");
    ("turns", VList []);
    ("last_status", VStr "completed"); ("last_summary", VStr "") ].

(** A normalized result, as [_run] returns it. *)
Definition a_result : dict :=
  [ ("session_id", VStr "7c1e"); ("model", VStr "m1"); ("cost_usd", VInt 0);
    ("duration_ms", VInt 1200); ("num_turns", VInt 2); ("is_error", VBool false);
    ("subtype", VStr "success"); ("status", VStr "completed");
    ("summary", VStr "The lexer is fine."); ("analysis", VStr "No issue found.");
    ("questions", VList []); ("files_analyzed", VList []) ].

(** A host whose session directory holds [stored_record], at a moment
    when the clock reads [now]. *)
Definition host_with_record (now : string) : World :=
  host ProcTimeout (fun _ => now)
       (Some {[ "7c1e.json" := PyJson.dumps (VDict stored_record) ]}).

(** A host whose session directory holds both records. *)
Definition host_with_two_records : World :=
  host ProcTimeout (fun _ => "2026-01-05T11:00:00+00:00")
       (Some {[ "7c1e.json" := PyJson.dumps (VDict stored_record);
                "7c1e9.json" := PyJson.dumps (VDict longer_record) ]}).

Definition review_args : exec_args :=
  {| ea_task := "Review the parser"; ea_cwd := None; ea_model := None;
     ea_max_turns := 15; ea_allowed_tools := None |}.

(** [json.dumps(obj, indent=2)] for the examples, whose texts are ASCII. *)
Definition dumps_ascii_ex : value -> string := PyJson.dumps.

(** The sort of the examples on keys that are not all [str]: none of
    the examples reaches it. *)
Definition sort_other_ex (keyed : list (value * dict)) : res (list dict) :=
  Raise TypeError.

(** A response that names its session. *)
Definition session_stdout : string :=
  PyJson.q "{'session_id': 'a41b', 'model': 'm1', 'result': 'All good.'}".

(** A host whose session directory holds one file. *)
Definition host_with_file (name text : string) : World :=
  host ProcTimeout (fun _ => "2026-01-05T10:02:00+00:00") (Some {[ name := text ]}).

(** A host whose session directory holds [stored_record] and whose
    child prints [session_stdout]. *)
Definition host_resuming : World :=
  host (ProcCompleted 0 session_stdout "") (fun _ => "2026-01-05T10:02:00+00:00")
       (Some {[ "7c1e.json" := PyJson.dumps (VDict stored_record) ]}).

(** Invocations of the examples. *)
Definition spaced_tools_args : exec_args :=
  {| ea_task := "Review the parser"; ea_cwd := None; ea_model := None;
     ea_max_turns := 15; ea_allowed_tools := Some " Read , Grep" |}.

Definition plain_tools_args : exec_args :=
  {| ea_task := "Review the parser"; ea_cwd := None; ea_model := None;
     ea_max_turns := 15; ea_allowed_tools := Some "Read,Grep" |}.

Definition blank_tools_args : exec_args :=
  {| ea_task := "Review the parser"; ea_cwd := None; ea_model := None;
     ea_max_turns := 15; ea_allowed_tools := Some "  " |}.

Definition resume_args : continue_args :=
  {| ca_session_id := "7c"; ca_message := "And the lexer?"; ca_model := None;
     ca_max_turns := 15 |}.

Definition one_session_args : sessions_args := {| sa_limit := Some 1 |}.

(** ** Proof automation *)

Ltac res_simpl := unfold mbind, res_bind, mret, res_ret, Py.bind in *; cbn beta iota in *.

Ltac m_simpl :=
  unfold m_bind, m_ret, m_lift, read_text, write_text, path_exists, unlink,
    _now_iso, _ensure_session_dir in *;
  cbn beta iota in *.

(** ** Command builder *)

Lemma join_disallowed : PyStr.join "," DISALLOWED_TOOLS = disallowed_arg.
Proof. reflexivity. Qed.

Lemma pretty_Z_not_flag (n : Z) (s : string) : pretty n ≠ "--" +:+ s.
Proof.
  destruct n as [|p|p]; unfold pretty, pretty_Z.
  - discriminate.
  - unfold pretty, pretty_positive, pretty, pretty_N.
    case_decide; [discriminate|].
    apply (pretty_N_go_ne_dash (N.pos p) "" ("-" +:+ s)). discriminate.
  - intros H. injection H as H. revert H.
    unfold pretty, pretty_positive, pretty, pretty_N.
    case_decide; [discriminate|].
    apply (pretty_N_go_ne_dash (N.pos p) "" s). discriminate.
Qed.

Lemma exec_cmd_passes_disallowed w task model max_turns allowed_tools :
  passes "--disallowedTools" disallowed_arg
    (_build_exec_cmd w task model max_turns allowed_tools).
Proof.
  unfold _build_exec_cmd. rewrite join_disallowed.
  destruct (nonempty model) as [m|];
    by eexists [_; _; _; _; _; _; _; _; _; _; _], _.
Qed.

Lemma continue_cmd_passes_disallowed w session_id message model max_turns :
  passes "--disallowedTools" disallowed_arg
    (_build_continue_cmd w session_id message model max_turns).
Proof.
  unfold _build_continue_cmd. rewrite join_disallowed.
  destruct (nonempty model) as [m|];
    by eexists [_; _; _; _; _; _; _; _; _], _.
Qed.

(** C1, as stated, fails: a message that is itself the string
    [--allowedTools] is passed on as an element of the argument vector. *)
Lemma continue_cmd_allowed_flag_counterexample :
  In "--allowedTools"
     (_build_continue_cmd (host ProcTimeout (fun _ => "") None)
        "3f2a" "--allowedTools" None 15).
Proof. simpl. tauto. Qed.

Lemma continue_cmd_allowed_positions w session_id message model max_turns (i : nat) :
  _build_continue_cmd w session_id message model max_turns !! i
    = Some "--allowedTools" →
  i ∈ continue_input_positions.
Proof.
  unfold _build_continue_cmd, continue_input_positions.
  destruct (nonempty model) as [m|]; simpl;
    do 13 (destruct i as [|i]; simpl;
           [first [ discriminate | set_solver
                  | intros [= H]; by apply pretty_Z_not_flag in H ] |]);
    try discriminate.
  all: rewrite ?lookup_nil; discriminate.
Qed.

(** What stands at the four positions: the executable, the message, the
    session id and, when a model is given, its name. *)
Lemma continue_cmd_inputs w session_id message model max_turns :
  let argv := _build_continue_cmd w session_id message model max_turns in
  argv !! 0%nat = Some (_find_claude_bin w)
  ∧ argv !! 2%nat = Some message
  ∧ argv !! 4%nat = Some session_id
  ∧ argv !! 12%nat = nonempty model.
Proof.
  unfold _build_continue_cmd. by destruct (nonempty model).
Qed.

(** C1 (amended): for every task, model, max-turns value and allowed-tools
    override, the argument vector of [_build_exec_cmd] holds
    [--disallowedTools] followed by the full fixed list; so does the one
    of [_build_continue_cmd] for every session id and message, and this
    one holds [--allowedTools] at no position other than those of the
    executable, the message, the session id and the model name. These
    four positions hold what the host and the caller supplied (position
    0 the executable, 2 the message, 4 the session id, 12 the model
    name when one is given), so the builder emits the flag only when
    one of them is that very string: when none is, the flag is nowhere
    in the vector. *)
Theorem build_cmds_pass_disallowed_tools
    w task model max_turns allowed_tools session_id message cmodel cmax_turns :
  passes "--disallowedTools" disallowed_arg
    (_build_exec_cmd w task model max_turns allowed_tools)
  ∧ passes "--disallowedTools" disallowed_arg
      (_build_continue_cmd w session_id message cmodel cmax_turns)
  ∧ (∀ i : nat,
       _build_continue_cmd w session_id message cmodel cmax_turns !! i
         = Some "--allowedTools" →
       i ∈ continue_input_positions)
  ∧ _build_continue_cmd w session_id message cmodel cmax_turns !! 0%nat
    = Some (_find_claude_bin w)
  ∧ _build_continue_cmd w session_id message cmodel cmax_turns !! 2%nat
    = Some message
  ∧ _build_continue_cmd w session_id message cmodel cmax_turns !! 4%nat
    = Some session_id
  ∧ _build_continue_cmd w session_id message cmodel cmax_turns !! 12%nat
    = nonempty cmodel
  ∧ (_find_claude_bin w ≠ "--allowedTools" →
     message ≠ "--allowedTools" →
     session_id ≠ "--allowedTools" →
     nonempty cmodel ≠ Some "--allowedTools" →
     "--allowedTools" ∉ _build_continue_cmd w session_id message cmodel cmax_turns).
Proof.
  destruct (continue_cmd_inputs w session_id message cmodel cmax_turns)
    as (Hbin & Hmsg & Hsid & Hmodel).
  split; [apply exec_cmd_passes_disallowed|].
  split; [apply continue_cmd_passes_disallowed|].
  split; [intros i; apply continue_cmd_allowed_positions|].
  split_and!; [exact Hbin|exact Hmsg|exact Hsid|exact Hmodel|].
  intros Hb Hm Hs Hmo [i Hi]%list_elem_of_lookup.
  pose proof (continue_cmd_allowed_positions _ _ _ _ _ _ Hi) as Hpos.
  unfold continue_input_positions in Hpos.
  rewrite !elem_of_cons, elem_of_nil in Hpos.
  destruct Hpos as [->|[->|[->|[->|[]]]]].
  - rewrite Hbin in Hi. by injection Hi.
  - rewrite Hmsg in Hi. by injection Hi.
  - rewrite Hsid in Hi. by injection Hi.
  - by rewrite Hmodel in Hi.
Qed.

(** ** Heuristic question extraction *)

Lemma span_digits_app ds c r :
  all_digits ds = true → PyStr.is_digit c = false →
  PyStr.span_digits (ds +:+ String c r) = (ds, String c r).
Proof.
  intros Hds Hc. induction ds as [|d ds IH].
  - change ("" +:+ String c r) with (String c r).
    cbn [PyStr.span_digits]. by rewrite Hc.
  - cbn [all_digits] in Hds. apply andb_prop in Hds as [Hd Hds].
    change (String d ds +:+ String c r) with (String d (ds +:+ String c r)).
    cbn [PyStr.span_digits]. by rewrite Hd, (IH Hds).
Qed.

(** An ordinal marker is a run of digits, then [.] or [)], then blanks. *)
Lemma sub_ordinal_marker ds c r :
  ds ≠ "" → all_digits ds = true → c = "."%char ∨ c = ")"%char →
  PyRe.sub_ordinal (ds +:+ String c r) = PyStr.lstrip r.
Proof.
  intros Hne Hds Hc. unfold PyRe.sub_ordinal.
  rewrite span_digits_app; [| done | by destruct Hc as [-> | ->]].
  destruct ds; [done|]. by destruct Hc as [-> | ->].
Qed.

(** A line that starts with no digit has no ordinal marker. *)
Lemma sub_ordinal_no_digit c r :
  PyStr.is_digit c = false → PyRe.sub_ordinal (String c r) = String c r.
Proof. intros Hc. unfold PyRe.sub_ordinal. simpl. by rewrite Hc. Qed.

(** The two substitutions of the code remove what the specification
    calls the markers. *)
Lemma skip_blanks_lstrip s : skip_blanks s = PyStr.lstrip s.
Proof. induction s as [|c s IH]; [done|]. cbn. by rewrite IH. Qed.

Lemma after_digits_span seen s :
  after_digits seen s
  = match PyStr.span_digits s with
    | (ds, String c r) =>
        if (seen || PyStr.truthy ds) && (Ascii.eqb c "." || Ascii.eqb c ")")
        then Some r else None
    | (_, EmptyString) => None
    end.
Proof.
  revert seen. induction s as [|c s IH]; intros seen; [done|].
  cbn [after_digits PyStr.span_digits].
  destruct (PyStr.is_digit c).
  - rewrite IH. destruct (PyStr.span_digits s) as [ds [|c' r]]; [done|].
    cbn [PyStr.truthy]. by rewrite orb_true_r.
  - cbn [PyStr.truthy]. by rewrite orb_false_r.
Qed.

Lemma sub_ordinal_strip line :
  PyRe.sub_ordinal line = strip_marker after_ordinal line.
Proof.
  unfold PyRe.sub_ordinal, strip_marker, after_ordinal.
  rewrite (after_digits_span false line).
  destruct (PyStr.span_digits line) as [[|d ds] [|c r]]; try done.
  cbn [PyStr.truthy orb andb].
  destruct (Ascii.eqb c "." || Ascii.eqb c ")"); [|done].
  symmetry. apply skip_blanks_lstrip.
Qed.

Lemma sub_bullet_strip line :
  PyRe.sub_bullet line = strip_marker after_bullet line.
Proof.
  unfold PyRe.sub_bullet, strip_marker, after_bullet.
  destruct line as [|c r]; [done|].
  destruct (Ascii.eqb c "-" || Ascii.eqb c "*"); [|done].
  symmetry. apply skip_blanks_lstrip.
Qed.

Lemma strip_markers_code line :
  PyRe.sub_bullet (PyRe.sub_ordinal line) = strip_markers line.
Proof. unfold strip_markers. by rewrite sub_ordinal_strip, sub_bullet_strip. Qed.

Lemma fallback_fold_spec lines acc :
  fold_left
    (fun questions line =>
       let line := PyStr.strip line in
       if (PyStr.len line <? 10) || PyStr.startswith line "#" then questions
       else
         let cleaned := PyRe.sub_ordinal line in
         let cleaned := PyRe.sub_bullet cleaned in
         if PyStr.endswith cleaned "?" && (10 <? PyStr.len cleaned)
         then questions ++ [cleaned]
         else questions)
    lines acc
  = acc ++ (strip_markers <$> List.filter is_question_line (PyStr.strip <$> lines)).
Proof.
  revert acc. induction lines as [|line lines IH]; intros acc; simpl.
  - by rewrite app_nil_r.
  - rewrite IH. unfold is_question_line at 2.
    rewrite (strip_markers_code (PyStr.strip line)).
    destruct (Z.ltb_spec (PyStr.len (PyStr.strip line)) 10) as [Hlt|Hge].
    + replace (10 <=? PyStr.len (PyStr.strip line)) with false
        by (symmetry; apply Z.leb_gt; lia).
      done.
    + replace (10 <=? PyStr.len (PyStr.strip line)) with true
        by (symmetry; apply Z.leb_le; lia).
      simpl. destruct (PyStr.startswith (PyStr.strip line) "#"); simpl; [done|].
      destruct (PyStr.endswith _ "?" && _); simpl; [|done].
      by rewrite <- app_assoc.
Qed.

(** C5: for every text, [_fallback_extract_questions] returns, in order
    of appearance, exactly the lines that, stripped of surrounding
    blanks, have at least 10 characters, do not start with [#] and,
    without a leading ordinal marker (digits followed by [.] or [)])
    and then without a leading bullet marker ([-] or [*]), end with a
    question mark and are longer than 10 characters; each entry is the
    line without those markers. The markers are those of
    [strip_markers], which is written from the specification's words
    and not from the code's substitutions. *)
Theorem fallback_extract_questions_spec (text : string) :
  _fallback_extract_questions text = candidate_questions text.
Proof.
  unfold _fallback_extract_questions, candidate_questions.
  by rewrite fallback_fold_spec.
Qed.

(** The markers of the specification: an ordinal marker is removed with
    the blanks after it. *)
Lemma strip_ordinal_marked ds c rest :
  ds ≠ "" → all_digits ds = true → c = "."%char ∨ c = ")"%char →
  strip_marker after_ordinal (ds +:+ String c rest) = skip_blanks rest.
Proof.
  intros Hne Hds Hc. unfold strip_marker, after_ordinal.
  assert (∀ seen, after_digits seen (ds +:+ String c rest)
            = if seen || PyStr.truthy ds then Some rest else None) as ->.
  { induction ds as [|d ds IH]; intros seen.
    - change ("" +:+ String c rest) with (String c rest). cbn.
      destruct Hc as [-> | ->]; cbn; by destruct seen.
    - cbn [all_digits] in Hds. apply andb_prop in Hds as [Hd Hds].
      change (String d ds +:+ String c rest) with (String d (ds +:+ String c rest)).
      cbn [after_digits PyStr.truthy]. rewrite Hd.
      destruct ds as [|d' ds'].
      + change ("" +:+ String c rest) with (String c rest). cbn.
        destruct Hc as [-> | ->]; cbn; by rewrite orb_true_r.
      + rewrite IH by done. cbn. by rewrite orb_true_r. }
  by destruct ds.
Qed.

(** A line that starts with no digit has no ordinal marker. *)
Lemma strip_ordinal_unmarked c rest :
  PyStr.is_digit c = false →
  strip_marker after_ordinal (String c rest) = String c rest.
Proof. intros Hc. unfold strip_marker, after_ordinal. cbn. by rewrite Hc. Qed.

(** Markers are removed at the head of the line only, the ordinal one
    first. *)
Example strip_markers_examples :
  strip_markers "12) - Why is the cache cold?" = "Why is the cache cold?"
  ∧ strip_markers "*   Is it?" = "Is it?"
  ∧ strip_markers "- 1. Is it?" = "1. Is it?"
  ∧ strip_markers ". Is it?" = ". Is it?"
  ∧ strip_markers "Is it - or not?" = "Is it - or not?".
Proof. repeat split. Qed.

(** The specification's own example, read with [candidate_questions]:
    the entries are the two question lines without their ordinal
    prefixes, blanks included. *)
Example candidate_questions_example :
  candidate_questions
    ("1. What is the deployment target?" +:+ newline +:+ "Some notes." +:+ newline
     +:+ "2. Is caching required?")
  = ["What is the deployment target?"; "Is caching required?"].
Proof. reflexivity. Qed.

(** The example of the specification: two numbered questions around a
    line of notes. *)
Example fallback_two_numbered_questions :
  _fallback_extract_questions
    ("1. What is the deployment target?" +:+ newline +:+ "Some notes." +:+ newline
     +:+ "2. Is caching required?")
  = ["What is the deployment target?"; "Is caching required?"].
Proof. reflexivity. Qed.

(** The fence pattern: the tag is optional, blanks may follow it, and
    the block ends at the first line that starts with a fence. *)
Example findall_fence_blocks :
  PyRe.findall_fence
    ("a ```json" +:+ newline +:+ "{}" +:+ newline +:+ "``` b ```  " +:+ newline
     +:+ newline +:+ "x" +:+ newline +:+ "y" +:+ newline +:+ "``` c")
  = ["{}"; "x" +:+ newline +:+ "y"].
Proof. reflexivity. Qed.

(** The example of the specification: a payload inside a fence, with
    prose around it, is recovered with its status and its question. *)
Example fenced_payload_is_recovered :
  ∃ result,
    interpret PyJson.loads (VDict [("result", VStr fenced_result)]) = Ok result
    ∧ Py.lookup "status" result = Some (VStr "needs_clarification")
    ∧ Py.lookup "questions" result
      = Some (VList [VStr "What port should the service use?"]).
Proof. eexists. split; [vm_compute; reflexivity|]. split; reflexivity. Qed.

(** ** Result interpreter *)

Section ClientFacts.

Variable json_loads : string -> option value.

Lemma first_status_block_cases matches :
  first_status_block json_loads matches = VNone
  ∨ has_status (first_status_block json_loads matches) = true.
Proof.
  induction matches as [|m rest IH]; simpl; [by left|].
  destruct (json_loads m) as [data|]; [|done].
  destruct (has_status data) eqn:Hst; [by right|done].
Qed.

(** On a [str] the extraction returns: [None] or a dict with a status. *)
Lemma extract_worker_json_str s :
  ∃ wd, _extract_worker_json json_loads (VStr s) = Ok wd
        ∧ (wd = VNone ∨ has_status wd = true).
Proof.
  unfold _extract_worker_json, py_json_loads, re_findall, Py.try_except.
  res_simpl.
  destruct (json_loads s) as [data|]; simpl.
  - destruct (has_status data) eqn:Hst; simpl; eauto.
    eexists; split; [done|]. apply first_status_block_cases.
  - eexists; split; [done|]. apply first_status_block_cases.
Qed.

(** On anything else it raises: [json.loads]'s [TypeError] is handled,
    that of [re.findall] is not. *)
Lemma extract_worker_json_non_str v :
  (∀ s, v ≠ VStr s) → _extract_worker_json json_loads v = Raise TypeError.
Proof.
  intros Hv. destruct v; try done. by destruct (Hv s).
Qed.

Lemma has_status_dict wd :
  has_status wd = true →
  ∃ p, wd = VDict p ∧ Py.contains "status" p = true ∧ Py.truthy wd = true.
Proof.
  destruct wd as [| | | | |l|p]; try discriminate. intros Hp.
  exists p. repeat split; [done|]. by destruct p.
Qed.

Lemma run_completed w cmd cwd timeout rc out err raw :
  w_subprocess_run w cmd cwd (_clean_env w) timeout = ProcCompleted rc out err →
  output_usable rc out →
  json_loads out = Some raw →
  _run json_loads w cmd cwd timeout = interpret json_loads raw.
Proof.
  intros Hrun Huse Hraw. unfold _run. rewrite Hrun, Hraw.
  destruct Huse as [-> | Hout]; [done|].
  destruct (PyStr.strip out); [done|]. simpl. by rewrite andb_false_r.
Qed.

(** The shape of [interpret] on a dict whose result is a [str] from
    which no structured payload is recovered. *)
Lemma interpret_fallback d text :
  Py.get d "result" (VStr "") = VStr text →
  _extract_worker_json json_loads (VStr text) = Ok VNone →
  interpret json_loads (VDict d) =
    Ok [ ("session_id", Py.get d "session_id" (VStr ""));
         ("model", Py.get d "model" (VStr ""));
         ("cost_usd", Py.get d "total_cost_usd" (VInt 0));
         ("duration_ms", Py.get d "duration_ms" (VInt 0));
         ("num_turns", Py.get d "num_turns" (VInt 0));
         ("is_error", Py.get d "is_error" (VBool false));
         ("subtype", Py.get d "subtype" (VStr ""));
         ("status",
          VStr (if Py.eq_str (Py.get d "subtype" VNone) "error_max_turns"
                then "incomplete"
                else match _fallback_extract_questions text with
                     | _ :: _ => "needs_clarification"
                     | [] => "completed"
                     end));
         ("summary", VStr "");
         ("analysis", VStr text);
         ("questions", VList (VStr <$> _fallback_extract_questions text));
         ("files_analyzed", VList []) ].
Proof.
  intros Hres Hext. unfold interpret. cbn [Py.getattr_get]. res_simpl.
  rewrite Hres, Hext. reflexivity.
Qed.

(** The shape of [interpret] when a structured payload is recovered. *)
Lemma interpret_structured d p :
  _extract_worker_json json_loads (Py.get d "result" (VStr "")) = Ok (VDict p) →
  p ≠ [] →
  interpret json_loads (VDict d) =
    Ok [ ("session_id", Py.get d "session_id" (VStr ""));
         ("model", Py.get d "model" (VStr ""));
         ("cost_usd", Py.get d "total_cost_usd" (VInt 0));
         ("duration_ms", Py.get d "duration_ms" (VInt 0));
         ("num_turns", Py.get d "num_turns" (VInt 0));
         ("is_error", Py.get d "is_error" (VBool false));
         ("subtype", Py.get d "subtype" (VStr ""));
         ("status", Py.get p "status" (VStr "completed"));
         ("summary", Py.get p "summary" (VStr ""));
         ("analysis", Py.get p "analysis" (VStr ""));
         ("questions", Py.get p "questions" (VList []));
         ("files_analyzed", Py.get p "files_analyzed" (VList [])) ].
Proof.
  intros Hext Hp. unfold interpret. cbn [Py.getattr_get]. res_simpl.
  rewrite Hext. destruct p; [done|]. reflexivity.
Qed.

Lemma interpret_ok_dict raw result :
  interpret json_loads raw = Ok result → ∃ d, raw = VDict d.
Proof. destruct raw; try discriminate. eauto. Qed.

End ClientFacts.

Lemma lookup_get_contains k p dflt :
  Py.contains k p = true → Py.lookup k p = Some (Py.get p k dflt).
Proof. unfold Py.contains, Py.get. by destruct (Py.lookup k p). Qed.

Lemma eq_str_get_subtype d :
  Py.eq_str (Py.get d "subtype" VNone) "error_max_turns" = true
  ↔ Py.lookup "subtype" d = Some (VStr "error_max_turns").
Proof.
  unfold Py.get, Py.eq_str.
  destruct (Py.lookup "subtype" d) as [[| | | |s| |]|]; split; try done.
  - intros H. apply String.eqb_eq in H. by subst.
  - intros [= ->]. apply String.eqb_refl.
Qed.

Section Interpreter.

Variable json_loads : string -> option value.

(** C4: when the child's output decodes to an object from whose result
    text [_extract_worker_json] recovers no structured payload, [_run]
    returns a result whose status is [incomplete] if the raw subtype is
    [error_max_turns], whatever the text; otherwise
    [needs_clarification] if the heuristic question list is not empty,
    otherwise [completed]; summary is the empty string, analysis the
    whole raw result string, files_analyzed the empty list (and
    questions the heuristic list). *)
Theorem fallback_status_and_fields w cmd cwd timeout rc out err d :
  w_subprocess_run w cmd cwd (_clean_env w) timeout = ProcCompleted rc out err →
  output_usable rc out →
  json_loads out = Some (VDict d) →
  _extract_worker_json json_loads (Py.get d "result" (VStr "")) = Ok VNone →
  ∃ result text,
    _run json_loads w cmd cwd timeout = Ok result
    ∧ Py.get d "result" (VStr "") = VStr text
    ∧ (Py.lookup "subtype" d = Some (VStr "error_max_turns") →
       Py.lookup "status" result = Some (VStr "incomplete"))
    ∧ (Py.lookup "subtype" d ≠ Some (VStr "error_max_turns") →
       _fallback_extract_questions text ≠ [] →
       Py.lookup "status" result = Some (VStr "needs_clarification"))
    ∧ (Py.lookup "subtype" d ≠ Some (VStr "error_max_turns") →
       _fallback_extract_questions text = [] →
       Py.lookup "status" result = Some (VStr "completed"))
    ∧ Py.lookup "summary" result = Some (VStr "")
    ∧ Py.lookup "analysis" result = Some (VStr text)
    ∧ Py.lookup "files_analyzed" result = Some (VList [])
    ∧ Py.lookup "questions" result
      = Some (VList (VStr <$> _fallback_extract_questions text)).
Proof.
  intros Hrun Huse Hraw Hext.
  destruct (Py.get d "result" (VStr "")) as [| | | |text| |] eqn:Hres;
    try (rewrite extract_worker_json_non_str in Hext by done; discriminate).
  eexists _, text. rewrite (run_completed _ _ _ _ _ _ _ _ _ Hrun Huse Hraw).
  rewrite (interpret_fallback _ _ _ Hres Hext).
  split; [reflexivity|]. split; [reflexivity|]. cbn.
  pose proof (eq_str_get_subtype d) as Hsub.
  destruct (Py.eq_str (Py.get d "subtype" VNone) "error_max_turns").
  - split_and!; try done; intros Hne; destruct Hne; by apply Hsub.
  - split_and!; try done.
    + intros Heq. apply Hsub in Heq. discriminate.
    + intros _ Hq. by destruct (_fallback_extract_questions text).
    + by intros _ ->.
Qed.

(** C2 (amended): for every raw response decoded from the child's
    output from which [_run] returns a normalized result, either no
    structured payload is recovered, and then status is one of the
    three values and questions is a non-empty list only when status is
    [needs_clarification], or [incomplete] under subtype
    [error_max_turns]; or a structured payload is recovered, and then
    status and questions are the payload's own, whatever they are. *)
Theorem normalized_status_contract w cmd cwd timeout rc out err raw result :
  w_subprocess_run w cmd cwd (_clean_env w) timeout = ProcCompleted rc out err →
  output_usable rc out →
  json_loads out = Some raw →
  _run json_loads w cmd cwd timeout = Ok result →
  ∃ d wd,
    raw = VDict d
    ∧ _extract_worker_json json_loads (Py.get d "result" (VStr "")) = Ok wd
    ∧ ((wd = VNone
        ∧ (∃ s, Py.lookup "status" result = Some s ∧ valid_status s)
        ∧ (∀ q, Py.lookup "questions" result = Some q → nonempty_list q →
             Py.lookup "status" result = Some (VStr "needs_clarification")
             ∨ (Py.lookup "status" result = Some (VStr "incomplete")
                ∧ Py.lookup "subtype" d = Some (VStr "error_max_turns"))))
       ∨ (∃ p, wd = VDict p
            ∧ Py.lookup "status" result = Py.lookup "status" p
            ∧ Py.lookup "questions" result
              = Some (Py.get p "questions" (VList [])))).
Proof.
  intros Hrun Huse Hraw Hres.
  rewrite (run_completed _ _ _ _ _ _ _ _ _ Hrun Huse Hraw) in Hres.
  destruct (interpret_ok_dict _ _ _ Hres) as [d ->].
  exists d.
  destruct (Py.get d "result" (VStr "")) as [| | | |text| |] eqn:Htext;
    try (unfold interpret in Hres; cbn [Py.getattr_get] in Hres; res_simpl;
         rewrite Htext in Hres;
         rewrite extract_worker_json_non_str in Hres by done; discriminate).
  destruct (extract_worker_json_str json_loads text) as (wd & Hext & [-> | Hst]).
  - exists VNone. split; [done|]. split; [done|]. left. split; [done|].
    rewrite (interpret_fallback _ _ _ Htext Hext) in Hres.
    injection Hres as <-. cbn.
    pose proof (eq_str_get_subtype d) as Hsub.
    destruct (Py.eq_str (Py.get d "subtype" VNone) "error_max_turns").
    + split; [eexists; split; [done|]; right; by left|].
      intros q _ _. right. split; [done|]. by apply Hsub.
    + destruct (_fallback_extract_questions text) as [|q0 qs].
      * split; [eexists; split; [done|]; by left|].
        intros q [= <-] (x & l & [=]).
      * split; [eexists; split; [done|]; right; by right|].
        intros q _ _. by left.
  - destruct (has_status_dict _ Hst) as (p & -> & Hp & Htr).
    exists (VDict p). split; [done|]. split; [done|].
    right. exists p. split; [done|].
    assert (p ≠ []) as Hne by (by destruct p).
    rewrite <- Htext in Hext.
    rewrite (interpret_structured _ _ _ Hext Hne) in Hres.
    injection Hres as <-. cbn.
    by rewrite (lookup_get_contains _ _ (VStr "completed") Hp).
Qed.

(** On a raw response whose result is a [str], or is missing, the
    interpretation returns. *)
Lemma interpret_returns_on_str_result d text :
  Py.get d "result" (VStr "") = VStr text →
  ∃ result, interpret json_loads (VDict d) = Ok result.
Proof.
  intros Htext.
  destruct (extract_worker_json_str json_loads text) as (wd & Hext & [-> | Hst]).
  - rewrite (interpret_fallback _ _ _ Htext Hext). eauto.
  - destruct (has_status_dict _ Hst) as (p & -> & Hp & _).
    assert (p ≠ []) as Hne by (by destruct p).
    rewrite <- Htext in Hext.
    rewrite (interpret_structured _ _ _ Hext Hne). eauto.
Qed.

(** C3 (the defect): when the raw response holds under [result]
    anything but a [str], [json.loads]'s [TypeError] is handled but
    that of [re.findall] is not, and [_run] raises it. *)
Theorem run_raises_on_non_string_result w cmd cwd timeout rc out err d v :
  w_subprocess_run w cmd cwd (_clean_env w) timeout = ProcCompleted rc out err →
  output_usable rc out →
  json_loads out = Some (VDict d) →
  Py.lookup "result" d = Some v →
  (∀ s, v ≠ VStr s) →
  _run json_loads w cmd cwd timeout = Raise TypeError.
Proof.
  intros Hrun Huse Hraw Hv Hns.
  rewrite (run_completed _ _ _ _ _ _ _ _ _ Hrun Huse Hraw).
  assert (Py.get d "result" (VStr "") = v) as Hget
    by (unfold Py.get; by rewrite Hv).
  unfold interpret. cbn [Py.getattr_get]. res_simpl.
  rewrite Hget. by rewrite extract_worker_json_non_str.
Qed.

End Interpreter.

Lemma fallback_status_and_fields_witness :
  ∃ result,
    _run PyJson.loads (host_printing truncated_stdout) [] None 600 = Ok result
    ∧ Py.lookup "status" result = Some (VStr "incomplete")
    ∧ Py.lookup "summary" result = Some (VStr "")
    ∧ Py.lookup "files_analyzed" result = Some (VList []).
Proof.
  destruct (fallback_status_and_fields PyJson.loads
              (host_printing truncated_stdout) [] None 600 0 truncated_stdout ""
              [ ("subtype", VStr "error_max_turns");
                ("result", VStr "Which database should the service use?") ])
    as (result & text & Hrun & _ & Hinc & _ & _ & Hsum & _ & Hfiles & _).
  - reflexivity.
  - left. reflexivity.
  - vm_compute. reflexivity.
  - vm_compute. reflexivity.
  - exists result. split; [exact Hrun|]. split; [apply Hinc; reflexivity|].
    split; [exact Hsum | exact Hfiles].
Defined.

(** C2, as stated, fails twice: a structured payload's status is passed
    on unchecked, and a truncated response keeps its heuristic questions
    under status [incomplete]. *)
Lemma status_invariant_counterexample :
  (∃ result,
     _run PyJson.loads (host_printing foreign_status_stdout) [] None 600 = Ok result
     ∧ Py.lookup "status" result = Some (VStr "failed")
     ∧ ¬ status_invariant result)
  ∧ (∃ result,
       _run PyJson.loads (host_printing truncated_stdout) [] None 600 = Ok result
       ∧ Py.lookup "status" result = Some (VStr "incomplete")
       ∧ Py.lookup "questions" result
         = Some (VList [VStr "Which database should the service use?"])
       ∧ ¬ status_invariant result).
Proof.
  split.
  - eexists. split; [vm_compute; reflexivity|]. split; [reflexivity|].
    intros [(s & Hs & Hv) _]. vm_compute in Hs. injection Hs as <-.
    destruct Hv as [Hv | [Hv | Hv]]; discriminate Hv.
  - eexists. split; [vm_compute; reflexivity|]. split; [reflexivity|].
    split; [reflexivity|].
    intros [_ Hq]. specialize (Hq _ eq_refl). vm_compute in Hq.
    assert (Some (VStr "incomplete") = Some (VStr "needs_clarification")) as Habs
      by (apply Hq; eexists _, _; reflexivity).
    discriminate Habs.
Qed.

Lemma normalized_status_contract_witness :
  ∃ result,
    _run PyJson.loads (host_printing truncated_stdout) [] None 600 = Ok result
    ∧ ∃ s, Py.lookup "status" result = Some s ∧ valid_status s.
Proof.
  eexists. split; [vm_compute; reflexivity|].
  destruct (normalized_status_contract PyJson.loads
              (host_printing truncated_stdout) [] None 600 0 truncated_stdout ""
              (VDict [ ("subtype", VStr "error_max_turns");
                       ("result", VStr "Which database should the service use?") ])
              _ eq_refl (or_introl eq_refl) eq_refl eq_refl)
    as (d & wd & Hd & Hext & [(_ & Hs & _) | (p & -> & _)]).
  - exact Hs.
  - injection Hd as <-. vm_compute in Hext. discriminate Hext.
Defined.

Lemma run_raises_on_non_string_result_witness :
  _run PyJson.loads (host_printing null_result_stdout) [] None 600 = Raise TypeError.
Proof.
  apply (run_raises_on_non_string_result PyJson.loads
           (host_printing null_result_stdout) [] None 600 0 null_result_stdout ""
           [("result", VNone)] VNone).
  - reflexivity.
  - left. reflexivity.
  - vm_compute. reflexivity.
  - reflexivity.
  - intros s. discriminate.
Defined.

(** ** Strings and file names *)

Lemma append_cons a s t : String a s +:+ t = String a (s +:+ t).
Proof. reflexivity. Qed.

Lemma append_assoc (s t u : string) : (s +:+ t) +:+ u = s +:+ (t +:+ u).
Proof. induction s as [|a s IH]; [done|]. by rewrite !append_cons, IH. Qed.

Lemma length_append s t :
  String.length (s +:+ t) = (String.length s + String.length t)%nat.
Proof. induction s as [|a s IH]; [done|]. rewrite append_cons. cbn. by rewrite IH. Qed.

Lemma rev_app_spec s acc : String.rev_app s acc = String.rev s +:+ acc.
Proof.
  revert acc. induction s as [|a s IH]; intros acc; [done|].
  unfold String.rev. cbn [String.rev_app].
  rewrite (IH (String a acc)), (IH (String a "")). by rewrite append_assoc.
Qed.

Lemma rev_app_append s t acc :
  String.rev_app (s +:+ t) acc = String.rev_app t (String.rev_app s acc).
Proof.
  revert acc. induction s as [|a s IH]; intros acc; [done|].
  rewrite append_cons. cbn [String.rev_app]. apply IH.
Qed.

Lemma rev_append s t : String.rev (s +:+ t) = String.rev t +:+ String.rev s.
Proof.
  unfold String.rev at 1. rewrite rev_app_append. apply rev_app_spec.
Qed.

Lemma prefix_append p s : String.prefix p (p +:+ s) = true.
Proof.
  induction p as [|a p IH]; [by destruct s|].
  rewrite append_cons. cbn [String.prefix]. by destruct (ascii_dec a a).
Qed.

Lemma prefix_refl p : String.prefix p p = true.
Proof.
  induction p as [|a p IH]; [done|].
  cbn [String.prefix]. by destruct (ascii_dec a a).
Qed.

Lemma endswith_append s suf : PyStr.endswith (s +:+ suf) suf = true.
Proof. unfold PyStr.endswith. rewrite rev_append. apply prefix_append. Qed.

Lemma take_append s t : PyStr.take (String.length s) (s +:+ t) = s.
Proof. unfold PyStr.take. apply prefix_correct, prefix_append. Qed.

Lemma rfind_dot_json s : rfind_dot (s +:+ ".json") = Some (String.length s).
Proof.
  induction s as [|a s IH]; [done|].
  rewrite append_cons. cbn [rfind_dot String.length]. by rewrite IH.
Qed.

(** The stem of the file of a session is the session id. *)
Lemma stem_json s : s ≠ "" → stem (s +:+ ".json") = s.
Proof.
  intros Hs. unfold stem. rewrite rfind_dot_json, length_append.
  destruct s as [|a s]; [done|]. cbn [String.length].
  replace ((0 <? S (String.length s)) &&
           (S (String.length s) <? S (String.length s) + 5 - 1))%nat with true.
  - apply (take_append (String a s)).
  - symmetry. apply andb_true_intro. split; apply Nat.ltb_lt; lia.
Qed.

(** ** The JSON codec reads back what it writes *)

Lemma append_nil_r s : s +:+ "" = s.
Proof. induction s as [|a s IH]; [done|]. by rewrite append_cons, IH. Qed.

Lemma rev_cons c acc : String.rev (String c acc) = String.rev acc +:+ String c "".
Proof. unfold String.rev at 1. cbn [String.rev_app]. apply rev_app_spec. Qed.

Lemma escape_char_scan c fuel acc t :
  PyJson.scanstring (S fuel) acc (PyJson.escape_char c +:+ t)
  = PyJson.scanstring fuel (String c acc) t.
Proof. destruct c as [[] [] [] [] [] [] [] []]; reflexivity. Qed.

Lemma scanstring_escape s : ∀ acc rest fuel,
  (String.length s < fuel)%nat →
  PyJson.scanstring fuel acc (PyJson.escape s +:+ String PyJson.DQ rest)
  = Some (String.rev acc +:+ s, rest).
Proof.
  induction s as [|c s IH]; intros acc rest fuel Hfuel.
  - destruct fuel as [|fuel]; [cbn in Hfuel; lia|].
    cbn. by rewrite append_nil_r.
  - destruct fuel as [|fuel]; [cbn in Hfuel; lia|].
    cbn [PyJson.escape]. rewrite append_assoc, escape_char_scan.
    rewrite IH by (cbn in Hfuel; lia).
    by rewrite rev_cons, append_assoc.
Qed.

Lemma all_digits_app d1 d2 :
  all_digits d1 = true → all_digits d2 = true → all_digits (d1 +:+ d2) = true.
Proof.
  intros H1 H2. induction d1 as [|c d1 IH]; [done|].
  rewrite append_cons. cbn [all_digits] in *.
  apply andb_prop in H1 as [Hc H1]. by rewrite Hc, IH.
Qed.

Lemma digits_val_app a d1 d2 :
  PyJson.digits_val a (d1 +:+ d2) = PyJson.digits_val (PyJson.digits_val a d1) d2.
Proof.
  revert a. induction d1 as [|c d1 IH]; intros a; [done|].
  rewrite append_cons. cbn [PyJson.digits_val]. apply IH.
Qed.

Lemma pretty_N_char_digit m :
  (m < 10)%N →
  PyStr.is_digit (pretty_N_char m) = true
  ∧ Z.of_nat (PyStr.ord (pretty_N_char m) - 48) = Z.of_N m
  ∧ (m ≠ 0%N → pretty_N_char m ≠ "0"%char).
Proof.
  intros Hm.
  assert (m = 0 ∨ m = 1 ∨ m = 2 ∨ m = 3 ∨ m = 4 ∨ m = 5 ∨ m = 6 ∨ m = 7
          ∨ m = 8 ∨ m = 9)%N as Hcases by lia.
  repeat (destruct Hcases as [-> | Hcases]); try subst m; by split_and!.
Qed.

(** The digits that [pretty] writes for a natural number. *)
Lemma pretty_N_go_digits x : ∀ s,
  ∃ d, pretty_N_go x s = d +:+ s
       ∧ all_digits d = true
       ∧ (∀ a, PyJson.digits_val a d = a * 10 ^ Z.of_nat (String.length d) + Z.of_N x)
       ∧ (x = 0%N → d = "")
       ∧ ((0 < x)%N → ∃ c d', d = String c d' ∧ c ≠ "0"%char).
Proof.
  induction (N.lt_wf_0 x) as [x _ IH]; intros s.
  destruct (decide (x = 0%N)) as [->|Hx].
  - exists "". split_and!; [done|done|intros a; cbn; lia|done|intros ?; lia].
  - assert (0 < x)%N as Hpos by lia.
    rewrite pretty_N_go_step by done.
    destruct (IH (x `div` 10)%N (N.div_lt x 10 Hpos eq_refl)
                (String (pretty_N_char (x `mod` 10)) s))
      as (d' & Hgo & Hall & Hval & Hzero & Hhead).
    destruct (pretty_N_char_digit (x `mod` 10)%N) as (Hdig & Hord & Hnz);
      [by apply N.mod_lt|].
    exists (d' +:+ String (pretty_N_char (x `mod` 10)) "").
    split_and!.
    + rewrite Hgo. by rewrite append_assoc.
    + apply all_digits_app; [done|]. cbn. by rewrite Hdig.
    + intros a. rewrite digits_val_app, Hval. cbn [PyJson.digits_val].
      rewrite Hord, length_append. cbn [String.length].
      rewrite Nat2Z.inj_add, Z.pow_add_r by lia.
      pose proof (N.div_mod x 10 ltac:(done)) as Hdm.
      change (10 ^ Z.of_nat 1) with 10.
      assert (Z.of_N x = 10 * Z.of_N (x `div` 10) + Z.of_N (x `mod` 10)) as Hx10.
      { rewrite Hdm at 1. by rewrite N2Z.inj_add, N2Z.inj_mul. }
      rewrite Hx10. ring.
    + intros ?. lia.
    + intros _. destruct (decide (x `div` 10 = 0)%N) as [Hdiv|Hdiv].
      * rewrite (Hzero Hdiv). eexists _, _. split; [done|].
        apply Hnz. intros Hmod. pose proof (N.div_mod x 10 ltac:(done)). lia.
      * destruct Hhead as (c & d'' & -> & Hc); [by apply N.neq_0_lt_0|].
        eexists c, _. split; [by rewrite append_cons|done].
Qed.

Lemma span_digits_all d rest :
  all_digits d = true → val_end rest → PyStr.span_digits (d +:+ rest) = (d, rest).
Proof.
  intros Hd Hrest. induction d as [|c d IH].
  - change ("" +:+ rest) with rest.
    destruct rest as [|c r]; [done|]. by destruct Hrest as [-> | ->].
  - cbn [all_digits] in Hd. apply andb_prop in Hd as [Hc Hd].
    rewrite append_cons. cbn [PyStr.span_digits]. by rewrite Hc, (IH Hd).
Qed.

Lemma digit_char c :
  PyStr.is_digit c = true →
  Ascii.eqb c "-" = false ∧ Ascii.eqb c PyJson.DQ = false
  ∧ Ascii.eqb c "{" = false ∧ Ascii.eqb c "[" = false
  ∧ PyJson.is_ws c = false ∧ Ascii.eqb c "]" = false ∧ Ascii.eqb c "}" = false
  ∧ (∀ t, PyJson.scan_constant (String c t) = None)
  ∧ (∀ t, PyJson.scan_constant (String "-" (String c t)) = None).
Proof.
  destruct c as [[] [] [] [] [] [] [] []]; try discriminate; intros _;
    by split_and!.
Qed.

Lemma tail_parts rest :
  val_end rest →
  PyJson.frac_part rest = ("", rest) ∧ PyJson.exp_part rest = ("", rest).
Proof.
  destruct rest as [|c r]; [done|]. by intros [-> | ->].
Qed.

(** The text of an integer: an optional sign and digits without a
    leading zero. *)
Lemma pretty_Z_shape (n : Z) :
  ∃ c d',
    all_digits (String c d') = true
    ∧ (String c d' = "0" ∨ c ≠ "0"%char)
    ∧ ((0 ≤ n ∧ pretty n = String c d' ∧ PyJson.digits_val 0 (String c d') = n)
       ∨ (n < 0 ∧ pretty n = String "-" (String c d')
          ∧ PyJson.digits_val 0 (String c d') = - n)).
Proof.
  assert (∀ p : positive, ∃ c d',
            pretty (N.pos p) = String c d' ∧ all_digits (String c d') = true
            ∧ c ≠ "0"%char
            ∧ PyJson.digits_val 0 (String c d') = Z.pos p) as Hpos.
  { intros p. unfold pretty, pretty_N. rewrite decide_False by done.
    destruct (pretty_N_go_digits (N.pos p) "") as (d & Hgo & Hall & Hval & _ & Hhead).
    destruct Hhead as (c & d' & -> & Hc); [done|].
    exists c, d'. rewrite Hgo, append_nil_r. split_and!; try done.
    all: rewrite Hval; cbn; lia. }
  destruct n as [|p|p].
  - exists "0"%char, "". split_and!; [done|by left|]. left. by split_and!.
  - destruct (Hpos p) as (c & d' & Hp & Hall & Hc & Hval).
    exists c, d'. split_and!; [done|by right|]. left. split_and!; [lia|done|done].
  - destruct (Hpos p) as (c & d' & Hp & Hall & Hc & Hval).
    exists c, d'. split_and!; [done|by right|]. right. split_and!; [lia| |done].
    change (pretty (Z.neg p)) with ("-" +:+ pretty (N.pos p)). by rewrite Hp.
Qed.

Lemma int_part_digits c d' rest :
  all_digits (String c d') = true →
  String c d' = "0" ∨ c ≠ "0"%char →
  val_end rest →
  PyJson.int_part (String c d' +:+ rest) = Some (String c d', rest).
Proof.
  intros Hall Hzero Hrest. rewrite append_cons. unfold PyJson.int_part.
  destruct Hzero as [[= -> ->] | Hc]; [done|].
  destruct (Ascii.eqb_spec c "0") as [->|_]; [done|].
  pose proof Hall as Hall'. cbn [all_digits] in Hall'.
  apply andb_prop in Hall' as [Hdig _]. rewrite Hdig.
  rewrite <- append_cons. by rewrite span_digits_all.
Qed.

Lemma scan_number_pretty n rest :
  val_end rest →
  PyJson.scan_number (pretty n +:+ rest) = Some (VInt n, rest).
Proof.
  intros Hrest.
  destruct (pretty_Z_shape n) as (c & d' & Hall & Hzero & Hn).
  destruct (tail_parts rest Hrest) as [Hfrac Hexp].
  pose proof Hall as Hall'. cbn [all_digits] in Hall'.
  apply andb_prop in Hall' as [Hdig _].
  destruct (digit_char c Hdig) as (Hminus & _).
  unfold PyJson.scan_number.
  destruct Hn as [(Hsign & -> & Hval) | (Hsign & -> & Hval)].
  - rewrite append_cons, Hminus, <- append_cons.
    rewrite (int_part_digits _ _ _ Hall Hzero Hrest), Hfrac, Hexp, Hval. done.
  - rewrite append_cons. cbn [Ascii.eqb Bool.eqb].
    rewrite (int_part_digits _ _ _ Hall Hzero Hrest), Hfrac, Hexp, Hval.
    do 3 f_equal. lia.
Qed.

(** The first character of an integer's text is a digit or a minus sign
    before a digit: it starts no string, object, array or constant. *)
Lemma scan_once_int fuel n rest :
  val_end rest →
  PyJson.scan_once (S fuel) (pretty n +:+ rest) = Some (VInt n, rest).
Proof.
  intros Hrest.
  pose proof (scan_number_pretty n rest Hrest) as Hnum.
  destruct (pretty_Z_shape n) as (c & d' & Hall & _ & Hn).
  pose proof Hall as Hall'. cbn [all_digits] in Hall'.
  apply andb_prop in Hall' as [Hdig _].
  destruct (digit_char c Hdig) as (_ & Hdq & Hbrace & Hbracket & _ & _ & _ & Hc1 & Hc2).
  destruct Hn as [(_ & Hp & _) | (_ & Hp & _)]; rewrite Hp in Hnum |- *;
    rewrite !append_cons in Hnum |- *; cbn [PyJson.scan_once].
  - by rewrite Hdq, Hbrace, Hbracket, Hc1.
  - cbn [Ascii.eqb Bool.eqb]. change (Ascii.eqb "-" PyJson.DQ) with false.
    cbn iota. by rewrite Hc2.
Qed.

Lemma skip_ws_head c t :
  PyJson.is_ws c = false → PyJson.skip_ws (String c t) = String c t.
Proof. intros Hc. cbn. by rewrite Hc. Qed.

Lemma skip_ws_spaces n t :
  PyJson.skip_ws (PyJson.spaces n +:+ t) = PyJson.skip_ws t.
Proof. induction n as [|n IH]; [done|]. cbn [PyJson.spaces]. by rewrite append_cons. Qed.

Lemma skip_ws_newline_indent k t :
  PyJson.skip_ws (PyJson.newline_indent k +:+ t) = PyJson.skip_ws t.
Proof.
  unfold PyJson.newline_indent. rewrite append_cons.
  change (PyJson.skip_ws (String (PyStr.chr 10) ?s)) with (PyJson.skip_ws s).
  apply skip_ws_spaces.
Qed.

Lemma val_end_newline_indent k t : val_end (PyJson.newline_indent k +:+ t).
Proof. unfold PyJson.newline_indent. rewrite append_cons. by right. Qed.

Lemma join_cons2 sep a b l :
  PyStr.join sep (a :: b :: l) = a +:+ sep +:+ PyStr.join sep (b :: l).
Proof. reflexivity. Qed.

Lemma join_single sep a : PyStr.join sep [a] = a.
Proof. reflexivity. Qed.

Lemma length_escape s : (String.length s ≤ String.length (PyJson.escape s))%nat.
Proof.
  induction s as [|c s IH]; [done|].
  cbn [PyJson.escape]. rewrite length_append. cbn [String.length].
  assert (1 ≤ String.length (PyJson.escape_char c))%nat; [|lia].
  destruct c as [[] [] [] [] [] [] [] []]; vm_compute; lia.
Qed.

(** A string literal at the head of a text. *)
Lemma scanstring_encode k rest :
  PyJson.scanstring (String.length (PyJson.escape k +:+ String PyJson.DQ rest)) ""
    (PyJson.escape k +:+ String PyJson.DQ rest)
  = Some (k, rest).
Proof.
  rewrite scanstring_escape; [done|].
  rewrite length_append. cbn [String.length]. pose proof (length_escape k). lia.
Qed.

Lemma encode_str_app k t :
  PyJson.encode_str k +:+ t
  = String PyJson.DQ (PyJson.escape k +:+ String PyJson.DQ t).
Proof.
  unfold PyJson.encode_str. rewrite append_assoc, append_cons.
  by rewrite append_cons.
Qed.

(** The first character of a value's text is no blank and closes no
    array or object. *)
Lemma dumps_head lvl v :
  jsonable v →
  ∃ c t, PyJson.dumps_at lvl v = String c t
         ∧ PyJson.is_ws c = false
         ∧ Ascii.eqb c "]" = false ∧ Ascii.eqb c "}" = false.
Proof.
  intros Hv. destruct Hv as [|[]|n|s|l _|d _ _].
  - by eexists _, _.
  - by eexists _, _.
  - by eexists _, _.
  - destruct (pretty_Z_shape n) as (c & d' & Hall & _ & Hn).
    pose proof Hall as Hall'. cbn [all_digits] in Hall'.
    apply andb_prop in Hall' as [Hdig _].
    destruct (digit_char c Hdig) as (_ & _ & _ & _ & Hws & Hb1 & Hb2 & _).
    destruct Hn as [(_ & Hp & _) | (_ & Hp & _)]; cbn [PyJson.dumps_at];
      rewrite Hp; by eexists _, _.
  - by eexists _, _.
  - destruct l; by eexists _, _.
  - destruct d; by eexists _, _.
Qed.

Lemma set_fresh k v (acc : dict) :
  k ∉ acc.*1 → Py.set k v acc = acc ++ [(k, v)].
Proof.
  induction acc as [|[k' v'] acc IH]; intros Hk; [done|].
  cbn [Py.set]. rewrite fmap_cons in Hk. cbn in Hk.
  apply not_elem_of_cons in Hk as [Hne Hk].
  destruct (String.eqb_spec k k') as [->|_]; [done|].
  by rewrite IH.
Qed.

Lemma join_head sep (a : string) l c t0 u :
  a = String c t0 → ∃ t', PyStr.join sep (a :: l) +:+ u = String c t'.
Proof.
  intros ->. destruct l as [|b l].
  - rewrite join_single, append_cons. eauto.
  - rewrite join_cons2, append_cons. eauto.
Qed.

Lemma scan_items_dumps lvl rest : ∀ l x acc fuel,
  Forall parses (x :: l) → Forall jsonable (x :: l) →
  (list_sum (List.map (λ x, S (cost x)) (x :: l)) ≤ fuel)%nat →
  PyJson.scan_items fuel acc
    (PyStr.join ("," +:+ PyJson.newline_indent (S lvl))
       (List.map (PyJson.dumps_at (S lvl)) (x :: l))
     +:+ PyJson.newline_indent lvl +:+ "]" +:+ rest)
  = Some (acc ++ x :: l, rest).
Proof.
  induction l as [|y l IH]; intros x acc fuel Hp Hj Hfuel;
    (destruct fuel as [|fuel]; [cbn in Hfuel; lia|]);
    cbn [List.map list_sum fold_right] in Hfuel; cbn [List.map PyJson.scan_items].
  - rewrite join_single.
    rewrite (Forall_inv Hp) by (apply val_end_newline_indent || lia).
    rewrite skip_ws_newline_indent. by rewrite append_cons.
  - rewrite join_cons2, !append_assoc.
    rewrite (Forall_inv Hp) by (by left || lia).
    rewrite append_cons. rewrite skip_ws_head by done.
    cbn [Ascii.eqb Bool.eqb]. cbn iota.
    change ("" +:+ ?s) with s.
    rewrite skip_ws_newline_indent.
    apply Forall_inv_tail in Hp, Hj.
    destruct (dumps_head (S lvl) y (Forall_inv Hj)) as (c & t0 & Hy & Hws & _).
    destruct (join_head ("," +:+ PyJson.newline_indent (S lvl))
                (PyJson.dumps_at (S lvl) y) (List.map (PyJson.dumps_at (S lvl)) l)
                c t0 (PyJson.newline_indent lvl +:+ "]" +:+ rest) Hy) as [t' Ht'].
    pose proof (IH y (acc ++ [x]) fuel Hp Hj ltac:(cbn [List.map list_sum fold_right]; lia)) as Hrec.
    cbn [List.map] in Hrec.
    rewrite Ht' in Hrec |- *. rewrite skip_ws_head by done.
    rewrite Hrec. by rewrite <- app_assoc.
Qed.

Lemma scan_pairs_dumps lvl rest : ∀ (d : dict) kv acc fuel,
  Forall (λ kv, parses kv.2) (kv :: d) →
  Forall (λ kv, jsonable kv.2) (kv :: d) →
  NoDup (acc ++ kv :: d).*1 →
  (list_sum (List.map (λ kv, S (cost (snd kv))) (kv :: d)) ≤ fuel)%nat →
  PyJson.scan_pairs fuel acc
    (PyStr.join ("," +:+ PyJson.newline_indent (S lvl))
       (List.map (λ kv, PyJson.encode_str (fst kv) +:+ ": "
                        +:+ PyJson.dumps_at (S lvl) (snd kv)) (kv :: d))
     +:+ PyJson.newline_indent lvl +:+ "}" +:+ rest)
  = Some (acc ++ kv :: d, rest).
Proof.
  induction d as [|[k' v'] d IH]; intros [k v] acc fuel Hp Hj Hnd Hfuel;
    (destruct fuel as [|fuel]; [cbn in Hfuel; lia|]);
    cbn [List.map list_sum fold_right snd fst] in Hfuel;
    cbn [List.map snd fst].
  - rewrite join_single, !append_assoc, encode_str_app.
    cbn [PyJson.scan_pairs].
    change (negb (Ascii.eqb PyJson.DQ PyJson.DQ)) with false. cbn iota.
    rewrite scanstring_encode.
    rewrite append_cons, skip_ws_head by done.
    cbn [Ascii.eqb Bool.eqb negb]. cbn iota.
    rewrite append_cons. change ("" +:+ ?s) with s.
    change (PyJson.skip_ws (String " " ?s)) with (PyJson.skip_ws s).
    assert (jsonable v) as Hjv by exact (Forall_inv Hj).
    destruct (dumps_head (S lvl) v Hjv) as (c & t0 & Hv & Hws & _).
    assert (parses v) as Hpv by exact (Forall_inv Hp).
    pose proof (Hpv (S lvl) (PyJson.newline_indent lvl +:+ "}" +:+ rest) fuel
                  (val_end_newline_indent _ _) ltac:(lia)) as Hval. rewrite Hv in Hval |- *. rewrite append_cons in Hval |- *.
    rewrite skip_ws_head by done. rewrite Hval.
    rewrite skip_ws_newline_indent. rewrite append_cons.
    rewrite skip_ws_head by done. cbn [Ascii.eqb Bool.eqb]. cbn iota.
    change ("" +:+ rest) with rest.
    rewrite set_fresh; [done|].
    rewrite fmap_app, fmap_cons in Hnd. apply NoDup_app in Hnd as (_ & Hnd & _).
    intros Hin. apply (Hnd k Hin). cbn. left.
  - rewrite join_cons2, !append_assoc, encode_str_app.
    cbn [PyJson.scan_pairs].
    change (negb (Ascii.eqb PyJson.DQ PyJson.DQ)) with false. cbn iota.
    rewrite scanstring_encode.
    rewrite append_cons, skip_ws_head by done.
    cbn [Ascii.eqb Bool.eqb negb]. cbn iota.
    rewrite append_cons. change ("" +:+ ?s) with s.
    change (PyJson.skip_ws (String " " ?s)) with (PyJson.skip_ws s).
    assert (jsonable v) as Hjv by exact (Forall_inv Hj).
    destruct (dumps_head (S lvl) v Hjv) as (c & t0 & Hv & Hws & _).
    set (tail := PyStr.join _ _ +:+ _).
    assert (parses v) as Hpv by exact (Forall_inv Hp).
    pose proof (Hpv (S lvl)
                  ("," +:+ PyJson.newline_indent (S lvl) +:+ tail) fuel
                  ltac:(by left) ltac:(lia)) as Hval. rewrite Hv in Hval |- *. rewrite append_cons in Hval |- *.
    rewrite skip_ws_head by done. rewrite Hval.
    rewrite append_cons, skip_ws_head by done. cbn [Ascii.eqb Bool.eqb]. cbn iota.
    change ("" +:+ ?s) with s.
    rewrite skip_ws_newline_indent.
    assert (k ∉ acc.*1) as Hk.
    { rewrite fmap_app, fmap_cons in Hnd. apply NoDup_app in Hnd as (_ & Hnd & _).
      intros Hin. apply (Hnd k Hin). cbn. left. }
    rewrite set_fresh by done.
    apply Forall_inv_tail in Hp, Hj.
    assert (∃ t', tail = String PyJson.DQ t') as [t' Ht'].
    { unfold tail. cbn [List.map fst snd].
      destruct (join_head ("," +:+ PyJson.newline_indent (S lvl))
                  (PyJson.encode_str k' +:+ ": " +:+ PyJson.dumps_at (S lvl) v')
                  (List.map (λ kv, PyJson.encode_str (fst kv) +:+ ": "
                                   +:+ PyJson.dumps_at (S lvl) (snd kv)) d)
                  PyJson.DQ
                  (PyJson.escape k' +:+ String PyJson.DQ
                     (": " +:+ PyJson.dumps_at (S lvl) v'))
                  (PyJson.newline_indent lvl +:+ "}" +:+ rest)) as [t' Ht'].
      - by rewrite encode_str_app.
      - eauto. }
    pose proof (IH (k', v') (acc ++ [(k, v)]) fuel Hp Hj) as Hrec.
    cbn [List.map fst snd] in Hrec.
    unfold tail in Ht' |- *. rewrite Ht' in Hrec |- *.
    rewrite skip_ws_head by done.
    rewrite Hrec.
    + by rewrite <- app_assoc.
    + by rewrite <- app_assoc.
    + cbn [List.map list_sum fold_right fst snd]. lia.
Qed.

Lemma substring_all s : String.substring 0 (String.length s) s = s.
Proof. induction s as [|c s IH]; [done|]. cbn. by rewrite IH. Qed.

Lemma drop_append p rest : PyStr.drop (String.length p) (p +:+ rest) = rest.
Proof.
  unfold PyStr.drop. induction p as [|c p IH].
  - change ("" +:+ rest) with rest. cbn [String.length].
    rewrite Nat.sub_0_r. apply substring_all.
  - rewrite append_cons. cbn [String.length String.substring]. exact IH.
Qed.

Lemma cost_pos v : (1 ≤ cost v)%nat.
Proof. destruct v; cbn; lia. Qed.

Lemma cost_item (x : value) l :
  x ∈ l → (S (cost x) ≤ list_sum (List.map (λ x, S (cost x)) l))%nat.
Proof.
  induction l as [|y l IH]; intros Hin; [by apply elem_of_nil in Hin|].
  cbn [List.map list_sum fold_right].
  apply elem_of_cons in Hin as [->|Hin]; [lia|]. specialize (IH Hin).
  unfold list_sum in IH. lia.
Qed.

Lemma cost_pair (kv : string * value) (d : dict) :
  kv ∈ d → (S (cost kv.2) ≤ list_sum (List.map (λ kv, S (cost (snd kv))) d))%nat.
Proof.
  induction d as [|y d IH]; intros Hin; [by apply elem_of_nil in Hin|].
  cbn [List.map list_sum fold_right].
  apply elem_of_cons in Hin as [->|Hin]; [cbn; lia|]. specialize (IH Hin).
  unfold list_sum in IH. lia.
Qed.

Lemma scan_once_constant fuel (lit : string) v rest :
  String.prefix lit "null" || String.prefix lit "true" || String.prefix lit "false" = true →
  lit ≠ "" →
  PyJson.scan_constant (lit +:+ rest) = Some (v, PyStr.drop (String.length lit) (lit +:+ rest)) →
  PyJson.scan_once (S fuel) (lit +:+ rest) = Some (v, rest).
Proof.
  intros Hlit Hne Hc. rewrite drop_append in Hc.
  destruct lit as [|c lit]; [done|]. rewrite append_cons in Hc |- *.
  cbn [PyJson.scan_once]. rewrite Hc.
  assert (c = "n" ∨ c = "t" ∨ c = "f")%char as Hcase;
    [|by destruct Hcase as [Hc'|[Hc'|Hc']]; rewrite Hc'].
  cbn [String.prefix] in Hlit.
  destruct (ascii_dec c "n"); [by left|].
  destruct (ascii_dec c "t"); [by right; left|].
  destruct (ascii_dec c "f"); [by right; right|]. done.
Qed.

(** Every JSON-shaped value is read back from its text, whatever
    follows the text. *)
Lemma scan_once_dumps : ∀ n v, (cost v ≤ n)%nat → jsonable v → parses v.
Proof.
  induction n as [|n IH]; intros v Hn Hj.
  { pose proof (cost_pos v). lia. }
  intros lvl rest fuel Hrest Hfuel.
  destruct fuel as [|fuel]; [pose proof (cost_pos v); lia|].
  destruct Hj as [|[]|z|s|l Hl|d Hnd Hd].
  - cbn [PyJson.dumps_at]. apply scan_once_constant; [done|done|].
    unfold PyJson.scan_constant. by rewrite (prefix_append "null").
  - cbn [PyJson.dumps_at]. apply scan_once_constant; [done|done|].
    unfold PyJson.scan_constant.
    change (String.prefix "null" ("true" +:+ rest)) with false.
    by rewrite (prefix_append "true").
  - cbn [PyJson.dumps_at]. apply scan_once_constant; [done|done|].
    unfold PyJson.scan_constant.
    change (String.prefix "null" ("false" +:+ rest)) with false.
    change (String.prefix "true" ("false" +:+ rest)) with false.
    by rewrite (prefix_append "false").
  - cbn [PyJson.dumps_at]. by apply scan_once_int.
  - cbn [PyJson.dumps_at]. rewrite encode_str_app. cbn [PyJson.scan_once].
    change (Ascii.eqb PyJson.DQ PyJson.DQ) with true. cbn iota.
    by rewrite scanstring_encode.
  - destruct l as [|x l]; [reflexivity|].
    cbn [PyJson.dumps_at]. rewrite !append_assoc, append_cons.
    change ("" +:+ ?s) with s.
    cbn [PyJson.scan_once Ascii.eqb Bool.eqb].
    change (Ascii.eqb "[" PyJson.DQ) with false. cbn iota.
    rewrite skip_ws_newline_indent.
    destruct (dumps_head (S lvl) x (Forall_inv Hl)) as (c & t0 & Hx & Hws & Hb & _).
    destruct (join_head ("," +:+ PyJson.newline_indent (S lvl))
                (PyJson.dumps_at (S lvl) x) (List.map (PyJson.dumps_at (S lvl)) l)
                c t0 (PyJson.newline_indent lvl +:+ "]" +:+ rest) Hx) as [t' Ht'].
    change (PyJson.dumps_at (S lvl) x :: List.map (PyJson.dumps_at (S lvl)) l)
      with (List.map (PyJson.dumps_at (S lvl)) (x :: l)) in Ht' |- *.
    rewrite Ht', skip_ws_head, Hb by done. rewrite <- Ht'.
    cbn [cost] in Hn, Hfuel.
    rewrite scan_items_dumps; [done| |done|lia].
    apply Forall_forall. intros y Hy. apply IH.
    + pose proof (cost_item y (x :: l) Hy). lia.
    + by apply (proj1 (Forall_forall _ _) Hl).
  - destruct d as [|[k v] d]; [reflexivity|].
    cbn [PyJson.dumps_at]. rewrite !append_assoc, append_cons.
    change ("" +:+ ?s) with s.
    cbn [PyJson.scan_once Ascii.eqb Bool.eqb].
    change (Ascii.eqb "{" PyJson.DQ) with false. cbn iota.
    rewrite skip_ws_newline_indent.
    set (f := λ kv : string * value,
                PyJson.encode_str (fst kv) +:+ ": " +:+ PyJson.dumps_at (S lvl) (snd kv)).
    destruct (join_head ("," +:+ PyJson.newline_indent (S lvl))
                (f (k, v)) (List.map f d) PyJson.DQ
                (PyJson.escape k +:+ String PyJson.DQ
                   (": " +:+ PyJson.dumps_at (S lvl) v))
                (PyJson.newline_indent lvl +:+ "}" +:+ rest)) as [t' Ht'].
    { unfold f. cbn [fst snd]. by rewrite encode_str_app. }
    change (f (k, v) :: List.map f d) with (List.map f ((k, v) :: d)) in Ht' |- *.
    rewrite Ht', skip_ws_head by done.
    change (Ascii.eqb PyJson.DQ "}") with false. cbn iota. rewrite <- Ht'.
    cbn [cost] in Hn, Hfuel.
    unfold f. rewrite scan_pairs_dumps; [done| |done|done|lia].
    apply Forall_forall. intros kv Hkv. apply IH.
    + pose proof (cost_pair kv ((k, v) :: d) Hkv). lia.
    + by apply (proj1 (Forall_forall _ _) Hd).
Qed.

Lemma sum_cost_le_join {A} (cost' : A → nat) (f : A → string) sep (l : list A) :
  (∀ x, x ∈ l → (cost' x ≤ String.length (f x))%nat) →
  (1 ≤ String.length sep)%nat →
  (list_sum (List.map (λ x, S (cost' x)) l)
   ≤ String.length (PyStr.join sep (List.map f l)) + 1)%nat.
Proof.
  intros Hall Hsep. induction l as [|x l IH]; [cbn; lia|].
  assert (∀ y, y ∈ l → (cost' y ≤ String.length (f y))%nat) as Hl
    by (intros y Hy; apply Hall; by right).
  specialize (IH Hl).
  assert (cost' x ≤ String.length (f x))%nat as Hx by (apply Hall; by left).
  destruct l as [|y l].
  - cbn [List.map list_sum fold_right]. rewrite join_single. lia.
  - change (List.map f (x :: y :: l)) with (f x :: f y :: List.map f l).
    rewrite join_cons2, !length_append.
    change (f y :: List.map f l) with (List.map f (y :: l)).
    cbn [List.map list_sum fold_right] in IH |- *. lia.
Qed.

Lemma length_newline_indent k : (1 ≤ String.length (PyJson.newline_indent k))%nat.
Proof. unfold PyJson.newline_indent. cbn [String.length]. lia. Qed.

Lemma cost_le_length : ∀ n v, (cost v ≤ n)%nat → jsonable v →
  ∀ lvl, (cost v ≤ String.length (PyJson.dumps_at lvl v))%nat.
Proof.
  induction n as [|n IH]; intros v Hn Hj lvl.
  { pose proof (cost_pos v). lia. }
  destruct (dumps_head lvl v Hj) as (c & t & Hhead & _).
  destruct Hj as [|b|z|s|l Hl|d Hnd Hd];
    try (rewrite Hhead; cbn [cost String.length]; lia).
  - destruct l as [|x l]; [cbn; lia|].
    cbn [PyJson.dumps_at cost] in Hn |- *. rewrite !length_append.
    pose proof (length_newline_indent (S lvl)).
    pose proof (length_newline_indent lvl).
    pose proof (sum_cost_le_join cost (PyJson.dumps_at (S lvl))
                  ("," +:+ PyJson.newline_indent (S lvl)) (x :: l)) as Hsum.
    cbn [String.length] in *.
    assert (list_sum (List.map (λ x, S (cost x)) (x :: l))
            ≤ String.length
                (PyStr.join ("," +:+ PyJson.newline_indent (S lvl))
                   (List.map (PyJson.dumps_at (S lvl)) (x :: l))) + 1)%nat as Hs.
    { apply Hsum.
      - intros y Hy. apply IH.
        + pose proof (cost_item y (x :: l) Hy). lia.
        + by apply (proj1 (Forall_forall _ _) Hl).
      - rewrite length_append. cbn [String.length]. lia. }
    lia.
  - destruct d as [|kv d]; [cbn; lia|].
    cbn [PyJson.dumps_at cost] in Hn |- *. rewrite !length_append.
    pose proof (length_newline_indent (S lvl)).
    pose proof (length_newline_indent lvl).
    pose proof (sum_cost_le_join (λ kv : string * value, cost (snd kv))
                  (λ kv, PyJson.encode_str (fst kv) +:+ ": "
                         +:+ PyJson.dumps_at (S lvl) (snd kv))
                  ("," +:+ PyJson.newline_indent (S lvl)) (kv :: d)) as Hsum.
    cbn [String.length] in *.
    assert (list_sum (List.map (λ kv : string * value, S (cost (snd kv))) (kv :: d))
            ≤ String.length
                (PyStr.join ("," +:+ PyJson.newline_indent (S lvl))
                   (List.map (λ kv, PyJson.encode_str (fst kv) +:+ ": "
                                    +:+ PyJson.dumps_at (S lvl) (snd kv)) (kv :: d)))
              + 1)%nat as Hs.
    { apply Hsum.
      - intros y Hy. rewrite !length_append.
        assert (cost y.2 ≤ String.length (PyJson.dumps_at (S lvl) y.2))%nat; [|lia].
        apply IH.
        + pose proof (cost_pair y (kv :: d) Hy). lia.
        + by apply (proj1 (Forall_forall _ _) Hd).
      - rewrite length_append. cbn [String.length]. lia. }
    lia.
Qed.

(** The codec round-trips on every JSON-shaped value. *)
Theorem pyjson_loads_dumps v :
  jsonable v → PyJson.loads (PyJson.dumps v) = Some v.
Proof.
  intros Hj. unfold PyJson.loads, PyJson.dumps.
  destruct (dumps_head 0%nat v Hj) as (c & t & Hhead & Hws & _).
  assert (PyJson.skip_ws (PyJson.dumps_at 0 v) = PyJson.dumps_at 0 v) as ->
    by (rewrite Hhead; by apply skip_ws_head).
  pose proof (cost_le_length (cost v) v (le_n _) Hj 0%nat) as Hcost.
  rewrite <- (append_nil_r (PyJson.dumps_at 0 v)) at 2.
  rewrite (scan_once_dumps (cost v) v (le_n _) Hj 0%nat "" _ I) by lia.
  reflexivity.
Qed.

(** ** Dictionaries *)

Lemma lookup_set_eq k v d : Py.lookup k (Py.set k v d) = Some v.
Proof.
  induction d as [|[k' v'] d IH]; cbn.
  - by rewrite String.eqb_refl.
  - destruct (String.eqb_spec k k') as [->|Hne]; cbn.
    + by rewrite String.eqb_refl.
    + by destruct (String.eqb_spec k k').
Qed.

Lemma lookup_set_ne k k' v d :
  k ≠ k' → Py.lookup k' (Py.set k v d) = Py.lookup k' d.
Proof.
  intros Hne. induction d as [|[k0 v0] d IH]; cbn.
  - by destruct (String.eqb_spec k' k) as [->|].
  - destruct (String.eqb_spec k k0) as [->|Hk]; cbn.
    + by destruct (String.eqb_spec k' k0) as [->|].
    + destruct (String.eqb_spec k' k0); [done|apply IH].
Qed.

(** ** The session directory *)

Lemma with_sessions_same w fs :
  w_sessions w = Some fs → with_sessions (Some (session_files w)) w = w.
Proof.
  destruct w. unfold session_files, with_sessions. cbn. by intros ->.
Qed.

Lemma session_files_lookup_dir w name text :
  session_files w !! name = Some text → w_sessions w = Some (session_files w).
Proof.
  unfold session_files. destruct (w_sessions w); [done|].
  cbn. by rewrite lookup_empty.
Qed.

(** The first match of a search is the only entry that matches. *)
Lemma find_unique {A} (f : A → bool) (l : list A) (x : A) :
  x ∈ l → f x = true → (∀ y, y ∈ l → f y = true → y = x) →
  List.find f l = Some x.
Proof.
  induction l as [|a l IH]; intros Hin Hfx Huniq.
  - by apply elem_of_nil in Hin.
  - cbn. destruct (f a) eqn:Hfa.
    + f_equal. apply Huniq; [left|done].
    + apply IH; [|done|].
      * apply elem_of_cons in Hin as [->|Hin]; [congruence|done].
      * intros y Hy. apply Huniq. by right.
Qed.

Lemma find_none_all {A} (f : A → bool) (l : list A) :
  (∀ y, y ∈ l → f y = false) → List.find f l = None.
Proof.
  induction l as [|a l IH]; intros Hall; [done|].
  cbn. rewrite (Hall a) by left. apply IH. intros y Hy. apply Hall. by right.
Qed.

Lemma elem_of_List_filter {A} (f : A → bool) (l : list A) (x : A) :
  x ∈ List.filter f l ↔ x ∈ l ∧ f x = true.
Proof. rewrite !list_elem_of_In. apply filter_In. Qed.

(** ** Session store *)

Section StoreFacts.

Variable json_loads : string -> option value.
Variable json_dumps : value -> string.
Variable py_str : value -> string.
Variable listdir : gmap string string -> list string.

Local Abbreviation path_of sid := (_session_path py_str (VStr sid)).

Lemma read_json_ok w name text v :
  session_files w !! name = Some text →
  json_loads text = Some v →
  read_json json_loads name w = (Ok v, w).
Proof.
  intros Hfile Hload. unfold read_json, py_json_loads. m_simpl.
  by rewrite Hfile, Hload.
Qed.

(** [session_update] on a stored record that decodes to a dict with a
    list of turns: what it returns and what it leaves in the world. *)
Lemma session_update_ok w sid message result text d ts :
  session_files w !! path_of sid = Some text →
  json_loads text = Some (VDict d) →
  Py.lookup "turns" d = Some (VList ts) →
  let now := w_clock w (w_ticks w) in
  let user_turn :=
    VDict [ ("role", VStr "user"); ("content", VStr message);
            ("timestamp", VStr now) ] in
  let assistant_turn :=
    VDict [ ("role", VStr "assistant");
            ("content", Py.get result "result" (VStr ""));
            ("status", Py.get result "status" VNone);
            ("timestamp", VStr now) ] in
  let d' :=
    Py.set "last_summary" (Py.get result "summary" (VStr ""))
      (Py.set "last_status" (Py.get result "status" (VStr "completed"))
         (Py.set "updated_at" (VStr now)
            (Py.set "turns" (VList ((ts ++ [user_turn]) ++ [assistant_turn])) d))) in
  session_update json_loads json_dumps py_str sid message result w
  = (Ok (VDict d'),
     with_sessions (Some (<[path_of sid := json_dumps (VDict d')]> (session_files w)))
       (with_ticks (S (w_ticks w)) w)).
Proof.
  intros Hfile Hload Hturns now user_turn assistant_turn d'.
  unfold session_update. unfold m_bind at 1.
  rewrite (read_json_ok _ _ _ _ Hfile Hload).
  m_simpl. unfold getitem. rewrite Hturns. cbn.
  rewrite (session_files_lookup_dir _ _ _ Hfile). reflexivity.
Qed.

(** [session_save] always returns: the record it builds and the world
    it leaves. *)
Lemma session_save_ok w session_id task result cwd model :
  let t := w_clock w in
  let n := w_ticks w in
  let data : dict :=
    [ ("session_id", session_id); ("task", VStr task); ("cwd", VStr cwd);
      ("model", model);
      ("created_at", VStr (t n)); ("updated_at", VStr (t (S n)));
      ("turns",
       VList
         [ VDict [ ("role", VStr "user"); ("content", VStr task);
                   ("timestamp", VStr (t (S (S n)))) ];
           VDict [ ("role", VStr "assistant");
                   ("content", Py.get result "result" (VStr ""));
                   ("status", Py.get result "status" VNone);
                   ("timestamp", VStr (t (S (S (S n))))) ] ]);
      ("last_status", Py.get result "status" (VStr "completed"));
      ("last_summary", Py.get result "summary" (VStr "")) ] in
  session_save json_dumps py_str session_id task result cwd model w
  = (Ok data,
     with_sessions
       (Some (<[_session_path py_str session_id := json_dumps (VDict data)]>
                (session_files w)))
       (with_ticks (S (S (S (S n)))) w)).
Proof. reflexivity. Qed.

Lemma session_get_exact w fs sid text v :
  w_sessions w = Some fs →
  fs !! path_of sid = Some text →
  json_loads text = Some v →
  session_get json_loads py_str listdir sid w = (Ok v, w).
Proof.
  intros Hdir Hfile Hload. unfold session_get. m_simpl.
  assert (session_files w = fs) as Hfs by (unfold session_files; by rewrite Hdir).
  rewrite (with_sessions_same _ _ Hdir), Hfs, Hfile.
  rewrite bool_decide_true by eauto.
  apply (read_json_ok _ _ text); [by rewrite Hfs|done].
Qed.

Hypothesis listdir_spec : ∀ m name, name ∈ listdir m ↔ is_Some (m !! name).

(** The prefix scan of [session_get], when one file only matches. *)
Lemma session_get_prefix w fs p name text v :
  w_sessions w = Some fs →
  fs !! path_of p = None →
  fs !! name = Some text →
  PyStr.endswith name ".json" = true →
  PyStr.startswith (stem name) p = true →
  (∀ other, is_Some (fs !! other) → other ≠ name →
     PyStr.endswith other ".json" = true →
     PyStr.startswith (stem other) p = false) →
  json_loads text = Some v →
  session_get json_loads py_str listdir p w = (Ok v, w).
Proof.
  intros Hdir Hnone Hfile Hend Hstart Hothers Hload.
  unfold session_get, glob_json. m_simpl.
  assert (session_files w = fs) as Hfs by (unfold session_files; by rewrite Hdir).
  rewrite (with_sessions_same _ _ Hdir), Hfs, Hnone.
  rewrite bool_decide_false by (intros [? [=]]).
  rewrite (find_unique _ _ name).
  - apply (read_json_ok _ _ text); [by rewrite Hfs|done].
  - apply elem_of_List_filter. split; [|done]. apply listdir_spec.
    rewrite Hfs. eauto.
  - done.
  - intros other [Hin Hoend]%elem_of_List_filter Hostart.
    destruct (decide (other = name)) as [|Hne]; [done|].
    apply listdir_spec in Hin. rewrite Hfs in Hin.
    rewrite (Hothers other Hin Hne Hoend) in Hostart. discriminate.
Qed.

(** [session_get] finds nothing when neither the exact file nor a file
    with that prefix is there. *)
Lemma session_get_none w sid :
  session_files w !! path_of sid = None →
  (∀ name, is_Some (session_files w !! name) →
     PyStr.endswith name ".json" = true →
     PyStr.startswith (stem name) sid = false) →
  session_get json_loads py_str listdir sid w
  = (Ok VNone, with_sessions (Some (session_files w)) w).
Proof.
  intros Hnone Hothers. unfold session_get, glob_json. m_simpl.
  change (session_files (with_sessions (Some (session_files w)) w))
    with (session_files w).
  rewrite Hnone, bool_decide_false by (intros [? [=]]).
  rewrite find_none_all; [done|].
  intros name [Hin Hend]%elem_of_List_filter.
  apply Hothers; [by apply listdir_spec|done].
Qed.

End StoreFacts.

Section StoreClaims.

Variable json_loads : string -> option value.
Variable json_dumps : value -> string.
Variable py_str : value -> string.
Variable listdir : gmap string string -> list string.

Local Abbreviation path_of sid := (_session_path py_str (VStr sid)).

(** C6 (amended): for every stored session record (a file that decodes
    to a dict with a list of turns), [session_update] appends exactly
    two turns after the existing ones, a user turn with the message and
    then an assistant turn, sets updated_at to the clock reading taken
    at the update, which is strictly later than the previous
    updated_at whenever the clock reads later than it, rewrites
    last_status and last_summary from the result, and leaves every
    other key (session_id, task, cwd, model, created_at) and all
    stored turns unchanged. *)
Theorem session_update_appends_two_turns w sid message result text d ts :
  session_files w !! path_of sid = Some text →
  json_loads text = Some (VDict d) →
  Py.lookup "turns" d = Some (VList ts) →
  ∃ d' w' now,
    session_update json_loads json_dumps py_str sid message result w
      = (Ok (VDict d'), w')
    ∧ now = w_clock w (w_ticks w)
    ∧ session_files w' = <[path_of sid := json_dumps (VDict d')]> (session_files w)
    ∧ Py.lookup "turns" d'
      = Some (VList (ts ++
          [ VDict [ ("role", VStr "user"); ("content", VStr message);
                    ("timestamp", VStr now) ];
            VDict [ ("role", VStr "assistant");
                    ("content", Py.get result "result" (VStr ""));
                    ("status", Py.get result "status" VNone);
                    ("timestamp", VStr now) ] ]))
    ∧ Py.lookup "updated_at" d' = Some (VStr now)
    ∧ (∀ prev, Py.lookup "updated_at" d = Some (VStr prev) →
         PyStr.lt prev now →
         ∃ new, Py.lookup "updated_at" d' = Some (VStr new) ∧ PyStr.lt prev new)
    ∧ Py.lookup "last_status" d' = Some (Py.get result "status" (VStr "completed"))
    ∧ Py.lookup "last_summary" d' = Some (Py.get result "summary" (VStr ""))
    ∧ (∀ k, k ∉ ["turns"; "updated_at"; "last_status"; "last_summary"] →
         Py.lookup k d' = Py.lookup k d).
Proof.
  intros Hfile Hload Hturns.
  eexists _, _, (w_clock w (w_ticks w)).
  split; [apply (session_update_ok _ _ _ _ _ _ _ _ _ _ Hfile Hload Hturns)|].
  split; [done|]. split; [done|].
  assert (∀ k v d0, k ≠ "turns" → k ≠ "updated_at" → k ≠ "last_status" →
            k ≠ "last_summary" →
            Py.lookup k
              (Py.set "last_summary" (Py.get result "summary" (VStr ""))
                 (Py.set "last_status" (Py.get result "status" (VStr "completed"))
                    (Py.set "updated_at" (VStr (w_clock w (w_ticks w)))
                       (Py.set "turns" v d0))))
            = Py.lookup k d0) as Hframe.
  { intros k v d0 ? ? ? ?. by rewrite !lookup_set_ne. }
  assert (Py.lookup "updated_at"
            (Py.set "last_summary" (Py.get result "summary" (VStr ""))
               (Py.set "last_status" (Py.get result "status" (VStr "completed"))
                  (Py.set "updated_at" (VStr (w_clock w (w_ticks w)))
                     (Py.set "turns"
                        (VList ((ts ++
                           [VDict [ ("role", VStr "user"); ("content", VStr message);
                                    ("timestamp", VStr (w_clock w (w_ticks w))) ]]) ++
                           [VDict [ ("role", VStr "assistant");
                                    ("content", Py.get result "result" (VStr ""));
                                    ("status", Py.get result "status" VNone);
                                    ("timestamp", VStr (w_clock w (w_ticks w))) ]]))
                        d))))
          = Some (VStr (w_clock w (w_ticks w)))) as Hupd.
  { rewrite !lookup_set_ne by done. apply lookup_set_eq. }
  split_and!.
  - rewrite !lookup_set_ne by done. rewrite lookup_set_eq.
    by rewrite <- app_assoc.
  - exact Hupd.
  - intros prev _ Hlt. eexists. split; [exact Hupd|exact Hlt].
  - rewrite lookup_set_ne by done. apply lookup_set_eq.
  - apply lookup_set_eq.
  - intros k Hk. apply Hframe; intros ->; apply Hk; set_solver.
Qed.

(** The lookups below need the enumeration of the directory to list
    exactly the names of its files. *)
Hypothesis listdir_spec : ∀ m name, name ∈ listdir m ↔ is_Some (m !! name).

(** Looking up what was just written under a session's own file name:
    by the exact id, and by a prefix that matches no other file. *)
Lemma session_get_written w fs0 sid text v :
  w_sessions w = Some (<[path_of sid := text]> fs0) →
  json_loads text = Some v →
  session_get json_loads py_str listdir sid w = (Ok v, w)
  ∧ ∀ p, p ≠ "" → String.prefix p sid = true →
      (∀ name, is_Some (fs0 !! name) → name ≠ path_of sid →
         PyStr.endswith name ".json" = true →
         PyStr.startswith (stem name) p = false) →
      session_get json_loads py_str listdir p w = (Ok v, w).
Proof.
  intros Hdir Hload.
  set (fs := <[path_of sid := text]> fs0) in Hdir.
  assert (fs !! path_of sid = Some text) as Hfile by apply lookup_insert_eq.
  split.
  - by apply session_get_exact with (fs := fs) (text := text).
  - intros p Hp Hpre Hothers.
    destruct (fs !! path_of p) as [text'|] eqn:Hexact.
    + (* a file named after the prefix: it is the record's own file *)
      destruct (decide (path_of p = path_of sid)) as [Heq|Hne].
      * apply session_get_exact with (fs := fs) (text := text);
          [done|by rewrite Heq|done].
      * exfalso. unfold fs in Hexact. rewrite lookup_insert_ne in Hexact by done.
        assert (PyStr.startswith (stem (path_of p)) p = false) as Habs.
        { apply Hothers; [eauto|done|]. apply endswith_append. }
        unfold _session_path, format in Habs. rewrite stem_json in Habs by done.
        unfold PyStr.startswith in Habs.
        by rewrite prefix_refl in Habs.
    + assert (sid ≠ "") as Hsid.
      { intros ->. destruct p; [done|discriminate]. }
      apply session_get_prefix with (fs := fs) (name := path_of sid)
             (text := text); try done.
      * apply endswith_append.
      * unfold _session_path, format. by rewrite stem_json.
      * intros other Hin Hne Hend. apply Hothers; [|done..].
        unfold fs in Hin. by rewrite lookup_insert_ne in Hin.
Qed.

(** C7: for every session id, task, result, cwd and model,
    [session_save] writes a record that [session_get] with the same id
    returns as it was written, provided the JSON text written for it
    decodes to it; [session_get] with a non-empty prefix of the id that
    matches no other stored session returns that record too. *)
Theorem session_save_get_roundtrip w sid task result cwd model :
  ∃ data w1,
    session_save json_dumps py_str (VStr sid) task result cwd model w = (Ok data, w1)
    ∧ (json_loads (json_dumps (VDict data)) = Some (VDict data) →
       session_get json_loads py_str listdir sid w1 = (Ok (VDict data), w1)
       ∧ ∀ p, p ≠ "" → String.prefix p sid = true →
           (∀ name, is_Some (session_files w !! name) → name ≠ path_of sid →
              PyStr.endswith name ".json" = true →
              PyStr.startswith (stem name) p = false) →
           session_get json_loads py_str listdir p w1 = (Ok (VDict data), w1)).
Proof.
  eexists _, _. split; [apply session_save_ok|].
  intros Hcodec.
  eapply session_get_written; [reflexivity|exact Hcodec].
Qed.

(** C8 (amended): [session_delete] returns false, and raises nothing,
    when no file of that exact id exists, and true when one exists,
    removing it; after a successful delete, [session_get] for that id
    finds nothing provided no remaining session file has a name that
    starts with the id. *)
Theorem session_delete_contract w sid :
  (session_files w !! path_of sid = None →
   session_delete py_str sid w = (Ok false, w))
  ∧ (is_Some (session_files w !! path_of sid) →
     ∃ w',
       session_delete py_str sid w = (Ok true, w')
       ∧ session_files w' = delete (path_of sid) (session_files w)
       ∧ ((∀ name, is_Some (session_files w' !! name) →
             PyStr.endswith name ".json" = true →
             PyStr.startswith (stem name) sid = false) →
          session_get json_loads py_str listdir sid w' = (Ok VNone, w'))).
Proof.
  split.
  - intros Hnone. unfold session_delete. m_simpl. rewrite Hnone.
    by rewrite bool_decide_false by (intros [? [=]]).
  - intros [text Hfile]. eexists. split; [|split].
    + unfold session_delete. m_simpl.
      rewrite bool_decide_true by eauto. by rewrite Hfile.
    + reflexivity.
    + intros Hothers.
      rewrite session_get_none;
        [|done|apply (lookup_delete_eq (session_files w))|exact Hothers].
      reflexivity.
Qed.

End StoreClaims.

Lemma jsonable_get d k dflt :
  jsonable (VDict d) → jsonable dflt → jsonable (Py.get d k dflt).
Proof.
  intros Hd Hdflt. inversion Hd as [| | | | |d' _ Hall]; subst. clear Hd.
  unfold Py.get. induction Hall as [|[k' v'] d' Hv _ IH]; [done|].
  cbn [Py.lookup]. destruct (String.eqb k k'); [exact Hv|exact IH].
Qed.

(** With the executable codec the round trip of C7 needs no premise: it
    holds for every JSON-shaped result and model. *)
Corollary session_save_get_roundtrip_pyjson py_str listdir w sid task result cwd model :
  (∀ m name, name ∈ listdir m ↔ is_Some (m !! name)) →
  jsonable (VDict result) → jsonable model →
  ∃ data w1,
    session_save PyJson.dumps py_str (VStr sid) task result cwd model w = (Ok data, w1)
    ∧ session_get PyJson.loads py_str listdir sid w1 = (Ok (VDict data), w1)
    ∧ ∀ p, p ≠ "" → String.prefix p sid = true →
        (∀ name, is_Some (session_files w !! name) →
           name ≠ _session_path py_str (VStr sid) →
           PyStr.endswith name ".json" = true →
           PyStr.startswith (stem name) p = false) →
        session_get PyJson.loads py_str listdir p w1 = (Ok (VDict data), w1).
Proof.
  intros Hlist Hresult Hmodel.
  eexists _, _. split; [apply session_save_ok|].
  eapply session_get_written; [exact Hlist|reflexivity|].
  apply pyjson_loads_dumps.
  repeat first
    [ assumption
    | apply jsonable_get; [assumption|]
    | apply jsonable_none | apply jsonable_str
    | apply jsonable_list
    | apply jsonable_dict;
      [apply (bool_decide_eq_true_1 (NoDup _)); vm_compute; reflexivity|]
    | apply Forall_nil
    | apply Forall_cons_2; cbn [snd]
    | exact I ].
Qed.


Section Driver.

Variable json_loads : string -> option value.
Variable json_dumps : value -> string.
Variable py_str : value -> string.

Local Abbreviation path_of sid := (_session_path py_str (VStr sid)).

Lemma run_failure w cmd cwd timeout f :
  failure_of json_loads (w_subprocess_run w cmd cwd (_clean_env w) timeout) = Some f →
  ∃ err,
    _run json_loads w cmd cwd timeout = Ok err
    ∧ Py.contains "error" err = true
    ∧ (f = Timeout → Py.lookup "exit_code" err = Some (VInt (-2)))
    ∧ (f = ExecutableNotFound → Py.lookup "exit_code" err = Some (VInt (-1))).
Proof.
  unfold failure_of, _run.
  destruct (w_subprocess_run w cmd cwd (_clean_env w) timeout)
    as [| |rc out err0].
  - intros [= <-]. eexists. split_and!; done.
  - intros [= <-]. eexists. split_and!; done.
  - destruct (negb (rc =? 0) && negb (PyStr.truthy (PyStr.strip out))).
    + intros [= <-]. eexists. split_and!; done.
    + destruct (json_loads out); [done|].
      intros [= <-]. eexists. split_and!; done.
Qed.

(** C9: a timeout of the child yields the error result with exit code
    -2, which is not the -1 of a missing executable; and for every
    process-level failure the [exec] invocation ends with status 1
    after printing one error document, and the session directory is
    what it was: no session file is created or updated. *)
Theorem failed_exec_is_terminal args w f :
  failure_of json_loads (exec_outcome w args) = Some f →
  ∃ err w',
    cmd_exec json_loads json_dumps py_str args w = (Ok 1, w')
    ∧ Py.contains "error" err = true
    ∧ w_stdout w' = w_stdout w ++ [json_dumps (VDict err)]
    ∧ w_sessions w' = w_sessions w
    ∧ (f = Timeout → Py.lookup "exit_code" err = Some (VInt (-2)))
    ∧ (f = ExecutableNotFound → Py.lookup "exit_code" err = Some (VInt (-1)))
    ∧ VInt (-2) ≠ VInt (-1).
Proof.
  intros Hfail.
  destruct (run_failure _ _ _ _ _ Hfail) as (err & Hrun & Herr & Ht & Hn).
  exists err. eexists. split_and!; [|exact Herr| | |exact Ht|exact Hn|done].
  - unfold cmd_exec, m_read, exec_task, _print_json. m_simpl.
    fold (exec_outcome w args) in Hrun. unfold exec_outcome in Hrun.
    rewrite Hrun. cbn beta iota. rewrite Herr. reflexivity.
  - reflexivity.
  - reflexivity.
Qed.

Lemma interpret_no_result_key raw result :
  interpret json_loads raw = Ok result → Py.lookup "result" result = None.
Proof.
  intros Hres. destruct (interpret_ok_dict _ _ _ Hres) as [d ->].
  destruct (Py.get d "result" (VStr "")) as [| | | |text| |] eqn:Htext;
    try (unfold interpret in Hres; cbn [Py.getattr_get] in Hres; res_simpl;
         rewrite Htext in Hres;
         rewrite extract_worker_json_non_str in Hres by done; discriminate).
  destruct (extract_worker_json_str json_loads text) as (wd & Hext & [-> | Hst]).
  - rewrite (interpret_fallback _ _ _ Htext Hext) in Hres. by injection Hres as <-.
  - destruct (has_status_dict _ Hst) as (p & -> & Hp & _).
    assert (p ≠ []) as Hne by (by destruct p).
    rewrite <- Htext in Hext.
    rewrite (interpret_structured _ _ _ Hext Hne) in Hres. by injection Hres as <-.
Qed.

(** No dictionary that [_run] returns, result or error, has the key
    [result]. *)
Lemma run_no_result_key w cmd cwd timeout result :
  _run json_loads w cmd cwd timeout = Ok result →
  Py.lookup "result" result = None.
Proof.
  unfold _run.
  destruct (w_subprocess_run w cmd cwd (_clean_env w) timeout)
    as [| |rc out err0].
  - by intros [= <-].
  - by intros [= <-].
  - destruct (negb (rc =? 0) && negb (PyStr.truthy (PyStr.strip out))).
    + by intros [= <-].
    + destruct (json_loads out) as [raw|]; [|by intros [= <-]].
      apply interpret_no_result_key.
Qed.

(** C10: for every result that [_run] returns, the assistant turn that
    [session_save] stores and the one that [session_update] appends
    have the empty string as content: both read the key [result], which
    [_run] never sets (the tool's text is under [analysis]). *)
Theorem assistant_turn_content_is_empty w cmd cwd timeout result :
  _run json_loads w cmd cwd timeout = Ok result →
  Py.lookup "result" result = None
  ∧ (∀ session_id task scwd model w0,
       ∃ data user_turn assistant_turn w1,
         session_save json_dumps py_str session_id task result scwd model w0
           = (Ok data, w1)
         ∧ Py.lookup "turns" data = Some (VList [user_turn; VDict assistant_turn])
         ∧ Py.lookup "role" assistant_turn = Some (VStr "assistant")
         ∧ Py.lookup "content" assistant_turn = Some (VStr ""))
  ∧ (∀ sid message w0 text d ts,
       session_files w0 !! path_of sid = Some text →
       json_loads text = Some (VDict d) →
       Py.lookup "turns" d = Some (VList ts) →
       ∃ d' user_turn assistant_turn w1,
         session_update json_loads json_dumps py_str sid message result w0
           = (Ok (VDict d'), w1)
         ∧ Py.lookup "turns" d'
           = Some (VList (ts ++ [user_turn; VDict assistant_turn]))
         ∧ Py.lookup "role" assistant_turn = Some (VStr "assistant")
         ∧ Py.lookup "content" assistant_turn = Some (VStr "")).
Proof.
  intros Hrun. pose proof (run_no_result_key _ _ _ _ _ Hrun) as Hkey.
  assert (Py.get result "result" (VStr "") = VStr "") as Hget
    by (unfold Py.get; by rewrite Hkey).
  split_and!; [done| |].
  - intros session_id task scwd model w0.
    eexists _, _, _, _. split; [apply session_save_ok|].
    cbn. by rewrite Hget.
  - intros sid message w0 text d ts Hfile Hload Hturns.
    eexists _, _, _, _.
    split; [apply (session_update_ok _ _ _ _ _ _ _ _ _ _ Hfile Hload Hturns)|].
    split.
    { rewrite !lookup_set_ne by done. rewrite lookup_set_eq.
      by rewrite <- app_assoc. }
    split; [done|].
    change (Some (Py.get result "result" (VStr "")) = Some (VStr "")).
    by rewrite Hget.
Qed.

(** [session_get] changes nothing but the existence of the directory. *)
Lemma session_get_world listdir sid w r w1 :
  session_get json_loads py_str listdir sid w = (r, w1) →
  w1 = with_sessions (Some (session_files w)) w.
Proof.
  unfold session_get, glob_json, read_json. m_simpl.
  set (w0 := with_sessions (Some (session_files w)) w).
  destruct (bool_decide (is_Some (session_files w0 !! path_of sid))).
  - destruct (session_files w0 !! path_of sid) as [text|];
      cbn beta iota; [|by intros [= _ <-]].
    destruct (py_json_loads json_loads (VStr text)); by intros [= _ <-].
  - destruct (List.find _ _) as [p|]; [|by intros [= _ <-]].
    destruct (session_files w0 !! p) as [text|];
      cbn beta iota; [|by intros [= _ <-]].
    destruct (py_json_loads json_loads (VStr text)); by intros [= _ <-].
Qed.

(** The same for a [continue] invocation: once the session is looked up
    and the child's command is settled, a process-level failure ends the
    invocation with status 1 and one error document, before
    [session_update] is reached. *)
Lemma failed_continue_is_terminal listdir args w f session w1 full_id cwd id_str cwd_opt :
  session_get json_loads py_str listdir (ca_session_id args) w = (Ok session, w1) →
  (if Py.truthy session then getitem session "session_id"
   else Ok (VStr (ca_session_id args))) = Ok full_id →
  (if Py.truthy session then Py.getattr_get session "cwd" (VStr ".")
   else Ok (VStr ".")) = Ok cwd →
  argv_str full_id = Ok id_str →
  cwd_arg cwd = Ok cwd_opt →
  failure_of json_loads (continue_outcome w1 args id_str cwd_opt) = Some f →
  ∃ err w',
    cmd_continue json_loads json_dumps py_str listdir args w = (Ok 1, w')
    ∧ Py.contains "error" err = true
    ∧ w_stdout w' = w_stdout w ++ [json_dumps (VDict err)]
    ∧ session_files w' = session_files w.
Proof.
  intros Hget Hid Hcwd Hstr Hcwdo Hfail.
  destruct (run_failure _ _ _ _ _ Hfail) as (err & Hrun & Herr & _).
  pose proof (session_get_world _ _ _ _ _ Hget) as ->.
  exists err. eexists. split_and!; [|exact Herr| |].
  - unfold cmd_continue, m_read, continue_session, _print_json.
    unfold m_bind at 1. rewrite Hget. m_simpl. rewrite Hid, Hcwd, Hstr, Hcwdo.
    res_simpl. unfold continue_outcome in Hrun. rewrite Hrun.
    cbn beta iota. rewrite Herr. reflexivity.
  - reflexivity.
  - reflexivity.
Qed.

End Driver.

Lemma listdir_ex_spec (m : gmap string string) (name : string) :
  name ∈ listdir_ex m ↔ is_Some (m !! name).
Proof. unfold listdir_ex. by rewrite elem_of_elements, elem_of_dom. Qed.

(** C6, as stated, fails: the clock may read earlier than the stored
    updated_at (here the clock was set back by two seconds), and
    [session_update] stores what it reads. *)
Lemma updated_at_not_later_counterexample :
  ∃ d' w',
    session_update PyJson.loads PyJson.dumps py_str_ex "7c1e" "And the lexer?"
      a_result (host_with_record "2026-01-05T09:59:58+00:00")
      = (Ok (VDict d'), w')
    ∧ Py.lookup "updated_at" stored_record = Some (VStr "2026-01-05T10:00:00+00:00")
    ∧ Py.lookup "updated_at" d' = Some (VStr "2026-01-05T09:59:58+00:00")
    ∧ ¬ PyStr.lt "2026-01-05T10:00:00+00:00" "2026-01-05T09:59:58+00:00".
Proof.
  eexists _, _. split; [vm_compute; reflexivity|].
  split; [reflexivity|]. split; [reflexivity|].
  unfold PyStr.lt. vm_compute. discriminate.
Qed.

Lemma session_update_appends_two_turns_witness :
  ∃ d' w',
    session_update PyJson.loads PyJson.dumps py_str_ex "7c1e" "And the lexer?"
      a_result (host_with_record "2026-01-05T10:02:00+00:00")
      = (Ok (VDict d'), w')
    ∧ Py.lookup "updated_at" d' = Some (VStr "2026-01-05T10:02:00+00:00")
    ∧ Py.lookup "created_at" d' = Py.lookup "created_at" stored_record
    ∧ Py.lookup "last_summary" d' = Some (VStr "The lexer is fine.").
Proof.
  destruct (session_update_appends_two_turns PyJson.loads PyJson.dumps py_str_ex
              (host_with_record "2026-01-05T10:02:00+00:00") "7c1e" "And the lexer?"
              a_result (PyJson.dumps (VDict stored_record)) stored_record
              [ VDict [ ("role", VStr "user"); ("content", VStr "Review the parser");
                        ("timestamp", VStr "2026-01-05T10:00:00+00:00") ];
                VDict [ ("role", VStr "assistant"); ("content", VStr "");
                        ("status", VStr "completed");
                        ("timestamp", VStr "2026-01-05T10:00:00+00:00") ] ])
    as (d' & w' & now & Hupd & -> & _ & _ & Hat & _ & _ & Hsum & Hframe).
  - vm_compute. reflexivity.
  - vm_compute. reflexivity.
  - reflexivity.
  - exists d', w'. split; [exact Hupd|]. split; [exact Hat|].
    split; [|exact Hsum]. apply Hframe.
    rewrite !elem_of_cons, elem_of_nil. intros [H|[H|[H|[H|[]]]]]; discriminate H.
Defined.

Lemma session_save_get_roundtrip_witness :
  ∃ data w1,
    session_save PyJson.dumps py_str_ex (VStr "a41b") "Review the lexer" a_result
      "." (VStr "m1") (host_with_record "2026-01-05T10:02:00+00:00") = (Ok data, w1)
    ∧ session_get PyJson.loads py_str_ex listdir_ex "a41b" w1 = (Ok (VDict data), w1)
    ∧ session_get PyJson.loads py_str_ex listdir_ex "a4" w1 = (Ok (VDict data), w1).
Proof.
  destruct (session_save_get_roundtrip PyJson.loads PyJson.dumps py_str_ex listdir_ex
              listdir_ex_spec (host_with_record "2026-01-05T10:02:00+00:00")
              "a41b" "Review the lexer" a_result "." (VStr "m1"))
    as (data & w1 & Hsave & Hget).
  exists data, w1. split; [exact Hsave|].
  assert (PyJson.loads (PyJson.dumps (VDict data)) = Some (VDict data)) as Hcodec.
  { vm_compute in Hsave. injection Hsave as <- _. vm_compute. reflexivity. }
  destruct (Hget Hcodec) as [Hexact Hprefix]. split; [exact Hexact|].
  apply Hprefix; [discriminate|reflexivity|].
  intros name [text Hname] _ _.
  change (({[ "7c1e.json" := PyJson.dumps (VDict stored_record) ]}
             : gmap string string) !! name = Some text) in Hname.
  apply lookup_singleton_Some in Hname as [<- _]. reflexivity.
Defined.

(** C8, as stated, fails: after the file of session 7c1e is deleted, a
    lookup of 7c1e falls through to the prefix scan and returns the
    record of session 7c1e9. *)
Lemma deleted_id_still_matches_counterexample :
  ∃ w',
    session_delete py_str_ex "7c1e" host_with_two_records = (Ok true, w')
    ∧ session_get PyJson.loads py_str_ex listdir_ex "7c1e" w'
      = (Ok (VDict longer_record), w').
Proof. eexists. split; vm_compute; reflexivity. Qed.

Lemma session_delete_contract_witness :
  session_delete py_str_ex "0000" (host_with_record "2026-01-05T10:02:00+00:00")
    = (Ok false, host_with_record "2026-01-05T10:02:00+00:00")
  ∧ ∃ w',
      session_delete py_str_ex "7c1e" (host_with_record "2026-01-05T10:02:00+00:00")
        = (Ok true, w')
      ∧ session_get PyJson.loads py_str_ex listdir_ex "7c1e" w' = (Ok VNone, w').
Proof.
  split.
  - apply (session_delete_contract PyJson.loads py_str_ex listdir_ex listdir_ex_spec
             (host_with_record "2026-01-05T10:02:00+00:00") "0000").
    vm_compute. reflexivity.
  - destruct (session_delete_contract PyJson.loads py_str_ex listdir_ex listdir_ex_spec
                (host_with_record "2026-01-05T10:02:00+00:00") "7c1e")
      as [_ Hdel].
    destruct Hdel as (w' & Hdel & Hfiles & Hget).
    + eexists. vm_compute. reflexivity.
    + exists w'. split; [exact Hdel|]. apply Hget.
      intros name [text Hname]. rewrite Hfiles in Hname.
      change (delete "7c1e.json"
                ({[ "7c1e.json" := PyJson.dumps (VDict stored_record) ]}
                   : gmap string string) !! name = Some text) in Hname.
      rewrite delete_singleton_eq in Hname. by rewrite lookup_empty in Hname.
Defined.

Lemma failed_exec_is_terminal_witness :
  ∃ err w',
    cmd_exec PyJson.loads PyJson.dumps py_str_ex review_args
      (host_with_record "2026-01-05T10:02:00+00:00") = (Ok 1, w')
    ∧ Py.contains "error" err = true
    ∧ Py.lookup "exit_code" err = Some (VInt (-2))
    ∧ w_sessions w' = w_sessions (host_with_record "2026-01-05T10:02:00+00:00").
Proof.
  destruct (failed_exec_is_terminal PyJson.loads PyJson.dumps py_str_ex review_args
              (host_with_record "2026-01-05T10:02:00+00:00") Timeout)
    as (err & w' & Hcmd & Herr & _ & Hdir & Hcode & _).
  - reflexivity.
  - exists err, w'. split; [exact Hcmd|]. split; [exact Herr|].
    split; [by apply Hcode|exact Hdir].
Defined.

Lemma assistant_turn_content_is_empty_witness :
  ∃ result,
    _run PyJson.loads (host_printing truncated_stdout) [] None 600 = Ok result
    ∧ Py.lookup "analysis" result
      = Some (VStr "Which database should the service use?")
    ∧ Py.lookup "result" result = None.
Proof.
  eexists. split; [vm_compute; reflexivity|]. split; [reflexivity|].
  apply (assistant_turn_content_is_empty PyJson.loads PyJson.dumps py_str_ex
           (host_printing truncated_stdout) [] None 600).
  vm_compute. reflexivity.
Defined.

(** ** The executable and the tool lists *)

(** X1: the executable that [_find_claude_bin] returns is a non-empty
    hit of the PATH lookup ([claude.cmd] only on Windows), or, when the
    lookup of [claude] finds nothing, the first of the four fixed
    locations that exists, or, when none exists either, the bare name
    [claude]. *)
Theorem find_claude_bin_sources w :
  (∃ name,
     (name = "claude" ∨ (name = "claude.cmd" ∧ w_platform w = "Windows"))
     ∧ w_which w name = Some (_find_claude_bin w)
     ∧ _find_claude_bin w ≠ "")
  ∨ (nonempty (w_which w "claude") = None
     ∧ ∃ c, List.find (w_path_exists w) (claude_candidates w) = Some c
            ∧ w_path_exists w c = true
            ∧ _find_claude_bin w = w_path_str w c)
  ∨ (nonempty (w_which w "claude") = None
     ∧ (∀ c, c ∈ claude_candidates w → w_path_exists w c = false)
     ∧ _find_claude_bin w = "claude").
Proof.
  unfold _find_claude_bin.
  assert (∀ o p, nonempty o = Some p → o = Some p ∧ p ≠ "") as Hne.
  { intros [s|] p; cbn; [|done]. destruct s; cbn; [done|]. by intros [= <-]. }
  destruct (String.eqb_spec (w_platform w) "Windows") as [Hwin|Hwin].
  - destruct (nonempty (w_which w "claude.cmd")) as [p|] eqn:Hcmd.
    { left. exists "claude.cmd". destruct (Hne _ _ Hcmd). split_and!; auto. }
    destruct (nonempty (w_which w "claude")) as [p|] eqn:Hcl.
    { left. exists "claude". destruct (Hne _ _ Hcl). split_and!; auto. }
    right. fold (claude_candidates w).
    destruct (List.find (w_path_exists w) (claude_candidates w)) as [c|] eqn:Hfind.
    + left. split; [done|]. exists c.
      pose proof (find_some _ _ Hfind) as [_ Hex]. by split_and!.
    + right. split; [done|]. split; [|done]. intros c Hc.
      apply list_elem_of_In in Hc.
      pose proof (find_none _ _ Hfind c Hc) as H. done.
  - destruct (nonempty (w_which w "claude")) as [p|] eqn:Hcl.
    { left. exists "claude". destruct (Hne _ _ Hcl). split_and!; auto. }
    right. fold (claude_candidates w).
    destruct (List.find (w_path_exists w) (claude_candidates w)) as [c|] eqn:Hfind.
    + left. split; [done|]. exists c.
      pose proof (find_some _ _ Hfind) as [_ Hex]. by split_and!.
    + right. split; [done|]. split; [|done]. intros c Hc.
      apply list_elem_of_In in Hc.
      pose proof (find_none _ _ Hfind c Hc) as H. done.
Qed.

(** *** Splitting and trimming *)

Lemma string_rev_involutive s : String.rev (String.rev s) = s.
Proof.
  induction s as [|c s IH]; [done|].
  by rewrite rev_cons, rev_append, IH.
Qed.

Lemma split_go_nonempty sep cur s : PyStr.split_go sep cur s ≠ [].
Proof.
  revert cur. induction s as [|c s IH]; intros cur; cbn; [done|].
  destruct (Ascii.eqb c sep); [done|apply IH].
Qed.

Lemma split_go_join sep cur s :
  PyStr.join (String sep "") (PyStr.split_go sep cur s) = String.rev cur +:+ s.
Proof.
  revert cur. induction s as [|c s IH]; intros cur; cbn [PyStr.split_go].
  - by rewrite join_single, append_nil_r.
  - destruct (Ascii.eqb_spec c sep) as [->|Hne].
    + specialize (IH ""). pose proof (split_go_nonempty sep "" s) as Hnil.
      destruct (PyStr.split_go sep "" s) as [|b l]; [done|].
      rewrite join_cons2, IH. reflexivity.
    + rewrite IH, rev_cons, append_assoc. reflexivity.
Qed.

Lemma split_join sep s : PyStr.join (String sep "") (PyStr.split sep s) = s.
Proof. unfold PyStr.split. by rewrite split_go_join. Qed.

Lemma has_space_app s t : has_space (s +:+ t) = has_space s || has_space t.
Proof.
  induction s as [|c s IH]; [done|].
  rewrite append_cons. cbn [has_space]. by rewrite IH, orb_assoc.
Qed.

Lemma has_space_rev s : has_space (String.rev s) = has_space s.
Proof.
  induction s as [|c s IH]; [done|].
  rewrite rev_cons, has_space_app, IH. cbn [has_space].
  rewrite orb_false_r. apply orb_comm.
Qed.

Lemma lstrip_no_space s : has_space s = false → PyStr.lstrip s = s.
Proof.
  destruct s as [|c s]; [done|]. cbn. by intros [-> _]%orb_false_elim.
Qed.

Lemma strip_no_space s : has_space s = false → PyStr.strip s = s.
Proof.
  intros Hs. unfold PyStr.strip, PyStr.rstrip.
  rewrite (lstrip_no_space s Hs).
  rewrite lstrip_no_space by (by rewrite has_space_rev).
  apply string_rev_involutive.
Qed.

Lemma split_go_no_space sep cur s :
  has_space s = false → has_space cur = false →
  Forall (λ t, has_space t = false) (PyStr.split_go sep cur s).
Proof.
  revert cur. induction s as [|c s IH]; intros cur Hs Hcur; cbn [PyStr.split_go].
  - apply Forall_singleton. by rewrite has_space_rev.
  - cbn [has_space] in Hs. apply orb_false_elim in Hs as [Hc Hs].
    destruct (Ascii.eqb c sep).
    + apply Forall_cons. split; [by rewrite has_space_rev|by apply IH].
    + apply IH; [done|]. cbn [has_space]. by rewrite Hc.
Qed.

Lemma strip_split_no_space sep s :
  has_space s = false → PyStr.strip <$> PyStr.split sep s = PyStr.split sep s.
Proof.
  intros Hs. pose proof (split_go_no_space sep "" s Hs eq_refl) as Hall.
  unfold PyStr.split. induction Hall as [|t l Ht _ IH]; [done|].
  cbn. by rewrite (strip_no_space t Ht), IH.
Qed.

Lemma split_go_all_space cur s :
  all_space s = true → PyStr.split_go "," cur s = [String.rev cur +:+ s].
Proof.
  revert cur. induction s as [|c s IH]; intros cur Hs; cbn [PyStr.split_go].
  - by rewrite append_nil_r.
  - cbn [all_space] in Hs. apply andb_prop in Hs as [Hc Hs].
    destruct (Ascii.eqb_spec c ",") as [->|_]; [discriminate|].
    rewrite (IH _ Hs), rev_cons, append_assoc. reflexivity.
Qed.

Lemma lstrip_all_space s : all_space s = true → PyStr.lstrip s = "".
Proof.
  induction s as [|c s IH]; [done|]. cbn.
  intros [-> Hs]%andb_prop. by apply IH.
Qed.

Lemma nonempty_some s : s ≠ "" → nonempty (Some s) = Some s.
Proof. by destruct s. Qed.

(** What [cmd_exec] makes of its [--allowed-tools] option. *)
Lemma allowed_tools_of_override args s :
  ea_allowed_tools args = Some s → s ≠ "" →
  ∃ t ts, allowed_tools_of args = Some (t :: ts)
          ∧ t :: ts = PyStr.strip <$> PyStr.split "," s.
Proof.
  intros Hs Hne. unfold allowed_tools_of. rewrite Hs, (nonempty_some _ Hne).
  pose proof (split_go_nonempty "," "" s) as Hnil.
  unfold PyStr.split. destruct (PyStr.split_go "," "" s) as [|t ts]; [done|].
  by eexists _, _.
Qed.

Lemma exec_cmd_passes_allowed w task model max_turns allowed_tools :
  passes "--allowedTools"
    (PyStr.join ","
       (match allowed_tools with
        | Some (t :: ts) => t :: ts
        | _ => DEFAULT_ALLOWED_TOOLS
        end))
    (_build_exec_cmd w task model max_turns allowed_tools).
Proof.
  unfold _build_exec_cmd.
  destruct (nonempty model) as [m|];
    by eexists [_; _; _; _; _; _; _; _; _], _.
Qed.

(** X2: the child of an [exec] invocation is given [--allowedTools]
    followed by the default list when the [--allowed-tools] option is
    absent or empty, and followed by the option's value as it was typed
    when that value is not empty and holds no blank. *)
Theorem exec_allowed_tools_verbatim w args :
  (nonempty (ea_allowed_tools args) = None →
   passes "--allowedTools" default_allowed_arg (exec_argv w args))
  ∧ (∀ s, ea_allowed_tools args = Some s → s ≠ "" → has_space s = false →
       passes "--allowedTools" s (exec_argv w args)).
Proof.
  split.
  - intros Hnone.
    pose proof (exec_cmd_passes_allowed w (ea_task args) (nonempty (ea_model args))
                  (ea_max_turns args) (allowed_tools_of args)) as H.
    unfold allowed_tools_of in H at 1. rewrite Hnone in H. exact H.
  - intros s Hs Hne Hspace.
    pose proof (exec_cmd_passes_allowed w (ea_task args) (nonempty (ea_model args))
                  (ea_max_turns args) (allowed_tools_of args)) as H.
    destruct (allowed_tools_of_override args s Hs Hne) as (t & ts & Hto & Heq).
    rewrite Hto in H at 1. rewrite Heq, strip_split_no_space, split_join in H by done.
    exact H.
Qed.

(** X3: a non-empty [--allowed-tools] value is split at its commas and
    each entry is stripped of its surrounding blanks before the entries
    are joined again; a value made of blanks only therefore passes an
    empty [--allowedTools] argument, not the default list. *)
Theorem exec_allowed_tools_trimmed w args s :
  ea_allowed_tools args = Some s → s ≠ "" →
  passes "--allowedTools" (PyStr.join "," (PyStr.strip <$> PyStr.split "," s))
    (exec_argv w args)
  ∧ (all_space s = true → passes "--allowedTools" "" (exec_argv w args)).
Proof.
  intros Hs Hne.
  pose proof (exec_cmd_passes_allowed w (ea_task args) (nonempty (ea_model args))
                (ea_max_turns args) (allowed_tools_of args)) as H.
  destruct (allowed_tools_of_override args s Hs Hne) as (t & ts & Hto & Heq).
  rewrite Hto in H at 1. rewrite Heq in H.
  split; [exact H|].
  intros Hall. unfold PyStr.split in H.
  rewrite (split_go_all_space "" s Hall) in H.
  change (String.rev "" +:+ s) with s in H. cbn [fmap list_fmap] in H.
  unfold PyStr.strip in H. rewrite (lstrip_all_space s Hall) in H.
  exact H.
Qed.

(** ** Fenced blocks *)

Lemma prefix_split p s : String.prefix p s = true → ∃ post, s = p +:+ post.
Proof.
  revert s. induction p as [|a p IH]; intros s; [by exists s|].
  destruct s as [|b s]; [done|]. cbn.
  destruct (Ascii.ascii_dec a b) as [->|]; [|done].
  intros [post ->]%IH. by exists post.
Qed.

Lemma prefix_app_l p g t : String.prefix p g = true → String.prefix p (g +:+ t) = true.
Proof.
  intros [post ->]%prefix_split. rewrite append_assoc. apply prefix_append.
Qed.

Lemma occurs_app_r p pre s : occurs p s = true → occurs p (pre +:+ s) = true.
Proof.
  intros Hs. induction pre as [|c pre IH]; [done|].
  rewrite append_cons. cbn [occurs]. rewrite IH. apply orb_true_r.
Qed.

Lemma occurs_app_l p s t : occurs p s = true → occurs p (s +:+ t) = true.
Proof.
  induction s as [|c s IH].
  - destruct p; cbn; [by destruct t|done].
  - rewrite append_cons. cbn [occurs].
    intros [Hp|Hs]%orb_prop.
    + change (String c (s +:+ t)) with (String c s +:+ t).
      by rewrite (prefix_app_l _ _ t Hp).
    + rewrite (IH Hs). apply orb_true_r.
Qed.

Lemma lazy_to_close_shape s g n :
  PyRe.lazy_to_close s = Some (g, n) →
  occurs close_fence g = false
  ∧ ∃ post, s = g +:+ close_fence +:+ post.
Proof.
  revert g n. induction s as [|c s IH]; intros g n; cbn [PyRe.lazy_to_close]; [done|].
  destruct (Ascii.eqb c PyRe.LF && String.prefix PyRe.fence s) eqn:Hhere.
  - intros [= <- <-]. split; [done|].
    apply andb_prop in Hhere as [Hc Hp]. apply Ascii.eqb_eq in Hc as ->.
    destruct (prefix_split _ _ Hp) as [post ->]. by exists post.
  - destruct (PyRe.lazy_to_close s) as [[g' n']|] eqn:Hrec; [|done].
    intros [= <- <-]. destruct (IH _ _ eq_refl) as (Hno & post & ->).
    split; [|by exists post].
    cbn [occurs]. rewrite Hno, orb_false_r.
    destruct (String.prefix close_fence (String c g')) eqn:Hp; [|done].
    exfalso. unfold close_fence in Hp. cbn [String.prefix] in Hp.
    destruct (Ascii.ascii_dec PyRe.LF c) as [<-|]; [|done].
    rewrite (prefix_app_l _ _ _ Hp) in Hhere. done.
Qed.

Lemma blanks_then_body_shape s g n :
  PyRe.blanks_then_body s = Some (g, n) →
  occurs close_fence g = false
  ∧ ∃ pre post, s = pre +:+ String PyRe.LF (g +:+ close_fence +:+ post).
Proof.
  revert g n. induction s as [|c s IH]; intros g n; cbn [PyRe.blanks_then_body]; [done|].
  destruct (PyStr.is_space c); [|done].
  destruct (PyRe.blanks_then_body s) as [[g' n']|].
  - intros [= <- <-]. destruct (IH _ _ eq_refl) as (Hno & pre & post & ->).
    split; [done|]. by exists (String c pre), post.
  - destruct (Ascii.eqb_spec c PyRe.LF) as [->|]; [|done].
    destruct (PyRe.lazy_to_close s) as [[g' n']|] eqn:Hlazy; [|done].
    intros [= <- <-]. destruct (lazy_to_close_shape _ _ _ Hlazy) as (Hno & post & ->).
    split; [done|]. by exists "", post.
Qed.

Lemma match_fence_prefix s r : PyRe.match_fence s = Some r → String.prefix PyRe.fence s = true.
Proof. unfold PyRe.match_fence. by destruct (String.prefix PyRe.fence s). Qed.

Lemma match_fence_shape s g n :
  PyRe.match_fence s = Some (g, n) →
  occurs close_fence g = false
  ∧ ∃ pre post, s = PyRe.fence +:+ pre +:+ String PyRe.LF (g +:+ close_fence +:+ post).
Proof.
  unfold PyRe.match_fence.
  destruct (String.prefix PyRe.fence s) eqn:Hp; [|done].
  destruct (prefix_split _ _ Hp) as [r ->].
  rewrite (drop_append PyRe.fence r : PyStr.drop 3 (PyRe.fence +:+ r) = r).
  destruct (String.prefix "json" r) eqn:Hj.
  - destruct (prefix_split _ _ Hj) as [r' ->].
    rewrite (drop_append "json" r' : PyStr.drop 4 ("json" +:+ r') = r').
    destruct (PyRe.blanks_then_body r') as [[g' n']|] eqn:Hb.
    + intros [= <- <-].
      destruct (blanks_then_body_shape _ _ _ Hb) as (Hno & pre & post & ->).
      split; [done|]. exists ("json" +:+ pre), post. by rewrite !append_assoc.
    + destruct (PyRe.blanks_then_body ("json" +:+ r')) as [[g' n']|] eqn:Hb'; [|done].
      intros [= <- <-].
      destruct (blanks_then_body_shape _ _ _ Hb') as (Hno & pre & post & Heq).
      split; [done|]. exists pre, post. by rewrite Heq.
  - destruct (PyRe.blanks_then_body r) as [[g' n']|] eqn:Hb; [|done].
    intros [= <- <-].
    destruct (blanks_then_body_shape _ _ _ Hb) as (Hno & pre & post & ->).
    split; [done|]. by exists pre, post.
Qed.

Lemma findall_go_shape s : ∀ skip g,
  g ∈ PyRe.findall_go skip s →
  occurs close_fence g = false
  ∧ ∃ pre post, s = pre +:+ String PyRe.LF (g +:+ close_fence +:+ post)
                ∧ occurs PyRe.fence pre = true.
Proof.
  induction s as [|c s IH]; intros skip g; cbn [PyRe.findall_go].
  { by intros ?%elem_of_nil. }
  assert (∀ k, g ∈ PyRe.findall_go k s →
            occurs close_fence g = false
            ∧ ∃ pre post, String c s = pre +:+ String PyRe.LF (g +:+ close_fence +:+ post)
                          ∧ occurs PyRe.fence pre = true) as Htail.
  { intros k Hin. destruct (IH _ _ Hin) as (Hno & pre & post & -> & Hpre).
    split; [done|]. exists (String c pre), post. split; [done|].
    cbn [occurs]. rewrite Hpre. apply orb_true_r. }
  destruct skip as [|k]; [|apply Htail].
  destruct (PyRe.match_fence (String c s)) as [[g' n]|] eqn:Hm; [|apply Htail].
  intros [->|Hin]%elem_of_cons; [|by apply (Htail _ Hin)].
  destruct (match_fence_shape _ _ _ Hm) as (Hno & pre & post & Heq).
  split; [done|]. exists (PyRe.fence +:+ pre), post.
  split; [by rewrite append_assoc|].
  apply occurs_app_l. reflexivity.
Qed.

(** X6: every block that the fence pattern captures stands in the text
    between a line feed that follows an opening fence and a line feed
    followed by a fence, and holds no line feed followed by a fence: a
    block ends at the first closing fence. *)
Theorem fenced_block_shape s g :
  g ∈ PyRe.findall_fence s →
  occurs close_fence g = false
  ∧ ∃ pre post,
      s = pre +:+ String PyRe.LF (g +:+ close_fence +:+ post)
      ∧ occurs PyRe.fence pre = true.
Proof. apply findall_go_shape. Qed.

Lemma findall_go_no_fence s : ∀ skip,
  occurs PyRe.fence s = false → PyRe.findall_go skip s = [].
Proof.
  induction s as [|c s IH]; intros skip; [done|].
  cbn [occurs]. intros [Hp Hs]%orb_false_elim. cbn [PyRe.findall_go].
  destruct skip as [|k]; [|by apply IH].
  destruct (PyRe.match_fence (String c s)) as [r|] eqn:Hm; [|by apply IH].
  apply match_fence_prefix in Hm. congruence.
Qed.

Section ExtractFacts.

Variable json_loads : string -> option value.

Lemma first_status_block_spec matches :
  (∃ pre m post,
     matches = pre ++ m :: post
     ∧ json_loads m = Some (first_status_block json_loads matches)
     ∧ has_status (first_status_block json_loads matches) = true
     ∧ ∀ m' v, m' ∈ pre → json_loads m' = Some v → has_status v = false)
  ∨ (first_status_block json_loads matches = VNone
     ∧ ∀ m v, m ∈ matches → json_loads m = Some v → has_status v = false).
Proof.
  induction matches as [|m rest IH]; cbn [first_status_block].
  { right. split; [done|]. by intros m v ?%elem_of_nil. }
  destruct (json_loads m) as [data|] eqn:Hm.
  - destruct (has_status data) eqn:Hst.
    + left. exists [], m, rest. split_and!; try done. by intros m' v ?%elem_of_nil.
    + destruct IH as [(pre & m0 & post & -> & Hl & Hs & Hpre)|[Hnone Hall]].
      * left. exists (m :: pre), m0, post. split_and!; try done.
        intros m' v [->|Hin]%elem_of_cons; [congruence|by apply Hpre].
      * right. split; [done|].
        intros m' v [->|Hin]%elem_of_cons; [congruence|by apply Hall].
  - destruct IH as [(pre & m0 & post & -> & Hl & Hs & Hpre)|[Hnone Hall]].
    + left. exists (m :: pre), m0, post. split_and!; try done.
      intros m' v [->|Hin]%elem_of_cons; [congruence|by apply Hpre].
    + right. split; [done|].
      intros m' v [->|Hin]%elem_of_cons; [congruence|by apply Hall].
Qed.

Lemma extract_worker_json_unfold s :
  _extract_worker_json json_loads (VStr s)
  = Ok (match json_loads s with
        | Some v => if has_status v then v
                    else first_status_block json_loads (PyRe.findall_fence s)
        | None => first_status_block json_loads (PyRe.findall_fence s)
        end).
Proof.
  unfold _extract_worker_json, py_json_loads, re_findall, Py.try_except.
  unfold mbind, res_bind, mret, res_ret, Py.bind. cbn beta iota.
  destruct (json_loads s) as [data|]; cbn; [|done].
  by destruct (has_status data).
Qed.

(** X4: on a text, [_extract_worker_json] returns the whole text
    decoded when that is an object with a [status] key; otherwise the
    first fenced block, in order of appearance, that decodes to such an
    object, blocks that do not decode or lack the key being passed over;
    otherwise [None]. *)
Theorem extract_worker_json_first_match s :
  ∃ wd,
    _extract_worker_json json_loads (VStr s) = Ok wd
    ∧ ((json_loads s = Some wd ∧ has_status wd = true)
       ∨ ((∀ v, json_loads s = Some v → has_status v = false)
          ∧ ((∃ pre m post,
                PyRe.findall_fence s = pre ++ m :: post
                ∧ json_loads m = Some wd ∧ has_status wd = true
                ∧ ∀ m' v, m' ∈ pre → json_loads m' = Some v → has_status v = false)
             ∨ (wd = VNone
                ∧ ∀ m v, m ∈ PyRe.findall_fence s → json_loads m = Some v →
                         has_status v = false)))).
Proof.
  rewrite extract_worker_json_unfold. eexists. split; [done|].
  pose proof (first_status_block_spec (PyRe.findall_fence s)) as Hblocks.
  destruct (json_loads s) as [v|] eqn:Hs.
  - destruct (has_status v) eqn:Hst; [by left|].
    right. split; [by intros ? [= <-]|]. exact Hblocks.
  - right. split; [done|]. exact Hblocks.
Qed.

(** X5: on a text with no run of three backquotes, a payload is
    recovered only if the whole text decodes to an object with a
    [status] key. *)
Theorem extract_worker_json_without_fence s :
  occurs PyRe.fence s = false →
  _extract_worker_json json_loads (VStr s)
  = Ok (match json_loads s with
        | Some v => if has_status v then v else VNone
        | None => VNone
        end).
Proof.
  intros Hno. rewrite extract_worker_json_unfold.
  unfold PyRe.findall_fence. rewrite findall_go_no_fence by done.
  reflexivity.
Qed.

End ExtractFacts.

(** ** Heuristic questions *)

(** X7: every entry that [_fallback_extract_questions] returns ends
    with a question mark and is longer than 10 characters, and there is
    at most one entry per line of the text. *)
Theorem fallback_questions_are_questions text :
  (∀ q, q ∈ _fallback_extract_questions text →
        PyStr.endswith q "?" = true ∧ 10 < PyStr.len q)
  ∧ (length (_fallback_extract_questions text) ≤ length (PyStr.splitlines text))%nat.
Proof.
  unfold _fallback_extract_questions. rewrite fallback_fold_spec. cbn [app].
  split.
  - intros q (line & -> & Hline)%list_elem_of_fmap.
    apply elem_of_List_filter in Hline as [_ Hq].
    unfold is_question_line in Hq.
    apply andb_prop in Hq as [[_ Hend]%andb_prop Hlen].
    split; [done|]. by apply Z.ltb_lt.
  - rewrite length_fmap.
    etrans; [apply filter_length_le|]. by rewrite length_fmap.
Qed.

(** ** The process runner *)

Lemma pystr_take_prefix n s : String.prefix (PyStr.take n s) s = true.
Proof.
  unfold PyStr.take. revert s. induction n as [|n IH]; intros [|c s]; cbn; try done.
  destruct (Ascii.ascii_dec c c); [apply IH|done].
Qed.

Lemma pystr_take_length n s :
  String.length (PyStr.take n s) = Nat.min n (String.length s).
Proof.
  unfold PyStr.take. revert s. induction n as [|n IH]; intros [|c s]; cbn; try done.
  by rewrite IH.
Qed.

Section RunFacts.

Variable json_loads : string -> option value.

Lemma interpret_keys raw result :
  interpret json_loads raw = Ok result → result.*1 = normalized_keys.
Proof.
  intros Hres. destruct (interpret_ok_dict _ _ _ Hres) as [d ->].
  destruct (Py.get d "result" (VStr "")) as [| | | |text| |] eqn:Htext;
    try (unfold interpret in Hres; cbn [Py.getattr_get] in Hres; res_simpl;
         rewrite Htext in Hres;
         rewrite extract_worker_json_non_str in Hres by done; discriminate).
  destruct (extract_worker_json_str json_loads text) as (wd & Hext & [-> | Hst]).
  - rewrite (interpret_fallback _ _ _ Htext Hext) in Hres. by injection Hres as <-.
  - destruct (has_status_dict _ Hst) as (p & -> & Hp & _).
    assert (p ≠ []) as Hne by (by destruct p).
    rewrite <- Htext in Hext.
    rewrite (interpret_structured _ _ _ Hext Hne) in Hres. by injection Hres as <-.
Qed.

Lemma contains_keys k (d : dict) : Py.contains k d = true ↔ k ∈ d.*1.
Proof.
  unfold Py.contains. induction d as [|[k' v] d IH]; cbn.
  - split; [done|by intros ?%elem_of_nil].
  - destruct (String.eqb_spec k k') as [->|Hne].
    + split; [intros _; by left|done].
    + rewrite IH. split; [by right|].
      by intros [?|?]%elem_of_cons.
Qed.

(** X8: a dictionary that [_run] returns has the key [error] exactly
    when the child failed at the process level (not found, timed out,
    non-zero exit without output, output that does not decode);
    otherwise its keys are the twelve normalized keys, in order,
    whatever the exit code of the child was. *)
Theorem run_error_key_iff_failure w cmd cwd timeout result :
  _run json_loads w cmd cwd timeout = Ok result →
  (Py.contains "error" result = true
   ↔ is_Some (failure_of json_loads (w_subprocess_run w cmd cwd (_clean_env w) timeout)))
  ∧ (failure_of json_loads (w_subprocess_run w cmd cwd (_clean_env w) timeout) = None →
     result.*1 = normalized_keys).
Proof.
  unfold failure_of, _run.
  destruct (w_subprocess_run w cmd cwd (_clean_env w) timeout)
    as [| |rc out err0].
  - intros [= <-]. split; [|done]. split; [by eexists|done].
  - intros [= <-]. split; [|done]. split; [by eexists|done].
  - destruct (negb (rc =? 0) && negb (PyStr.truthy (PyStr.strip out))).
    + intros [= <-]. split; [|done]. split; [by eexists|done].
    + destruct (json_loads out) as [raw|].
      * intros Hkeys%interpret_keys. split; [|done].
        rewrite contains_keys, Hkeys. split; [|by intros [? [=]]].
        unfold normalized_keys. rewrite !elem_of_cons, elem_of_nil.
        intros H. repeat (destruct H as [H|H]; [discriminate H|]). done.
      * intros [= <-]. split; [|done]. split; [by eexists|done].
Qed.

(** X9: when the child's output decodes to a JSON value that is not an
    object, [_run] raises [AttributeError]: the first [raw.get] is
    outside any [try]. *)
Theorem run_raises_on_non_object_output w cmd cwd timeout rc out err raw :
  w_subprocess_run w cmd cwd (_clean_env w) timeout = ProcCompleted rc out err →
  output_usable rc out →
  json_loads out = Some raw →
  (∀ d, raw ≠ VDict d) →
  _run json_loads w cmd cwd timeout = Raise AttributeError.
Proof.
  intros Hrun Huse Hraw Hnd.
  rewrite (run_completed _ _ _ _ _ _ _ _ _ Hrun Huse Hraw).
  destruct raw; try done. by destruct (Hnd l).
Qed.

(** X10: when the child's output does not decode, the error result
    carries under [raw_output] the first 2000 characters of the output
    (all of it when it is shorter) and under [exit_code] the child's
    exit code, zero included. *)
Theorem run_malformed_output w cmd cwd timeout rc out err :
  w_subprocess_run w cmd cwd (_clean_env w) timeout = ProcCompleted rc out err →
  output_usable rc out →
  json_loads out = None →
  ∃ shown,
    _run json_loads w cmd cwd timeout
    = Ok [ ("error", VStr "Failed to parse claude output as JSON");
           ("raw_output", VStr shown);
           ("exit_code", VInt rc) ]
    ∧ String.prefix shown out = true
    ∧ String.length shown = Nat.min 2000 (String.length out).
Proof.
  intros Hrun Huse Hraw. exists (PyStr.take 2000 out).
  split; [|split; [apply pystr_take_prefix|apply pystr_take_length]].
  unfold _run. rewrite Hrun, Hraw.
  destruct Huse as [-> | Hout]; [done|].
  destruct (PyStr.strip out); [done|]. cbn [PyStr.truthy negb]. by rewrite andb_false_r.
Qed.

End RunFacts.

(** ** Failures and lookups of the session store *)

Lemma stem_session_path sid : PyStr.startswith (stem (sid +:+ ".json")) sid = true.
Proof.
  unfold PyStr.startswith. destruct (decide (sid = "")) as [->|Hne]; [done|].
  rewrite stem_json by done. apply prefix_refl.
Qed.

Section StoreExtras.

Variable json_loads : string -> option value.
Variable json_dumps : value -> string.
Variable py_str : value -> string.
Variable listdir : gmap string string -> list string.

Local Abbreviation path_of sid := (_session_path py_str (VStr sid)).

(** X11: [session_update] raises [FileNotFoundError] when the session
    has no file, [JSONDecodeError] when the file does not decode,
    [TypeError] when it decodes to something that is not an object,
    [KeyError] when the record has no [turns] and [AttributeError] when
    [turns] is not a list; in each case the session directory is left
    as it was. *)
Theorem session_update_failure_modes w sid message result :
  (session_files w !! path_of sid = None →
   session_update json_loads json_dumps py_str sid message result w
   = (Raise FileNotFoundError, w))
  ∧ (∀ text, session_files w !! path_of sid = Some text →
       (json_loads text = None →
        session_update json_loads json_dumps py_str sid message result w
        = (Raise JSONDecodeError, w))
       ∧ ∀ v, json_loads text = Some v →
           ∃ w1, w_sessions w1 = w_sessions w
             ∧ ((∀ d, v ≠ VDict d) →
                session_update json_loads json_dumps py_str sid message result w
                = (Raise TypeError, w1))
             ∧ (∀ d, v = VDict d → Py.lookup "turns" d = None →
                  session_update json_loads json_dumps py_str sid message result w
                  = (Raise KeyError, w1))
             ∧ (∀ d t, v = VDict d → Py.lookup "turns" d = Some t →
                  (∀ ts, t ≠ VList ts) →
                  session_update json_loads json_dumps py_str sid message result w
                  = (Raise AttributeError, w1))).
Proof.
  split; [|intros text Hfile; split].
  - intros Hnone. unfold session_update, read_json. m_simpl. by rewrite Hnone.
  - intros Hload. unfold session_update, read_json, py_json_loads. m_simpl.
    by rewrite Hfile, Hload.
  - intros v Hload. exists (with_ticks (S (w_ticks w)) w). split; [done|].
    assert (session_update json_loads json_dumps py_str sid message result w
              = (let now := w_clock w (w_ticks w) in
                 do turns <- m_lift (getitem v "turns");
                 do turns <- m_lift
                     (list_append turns
                        (VDict [ ("role", VStr "user"); ("content", VStr message);
                                 ("timestamp", VStr now) ]));
                 do turns <- m_lift
                     (list_append turns
                        (VDict [ ("role", VStr "assistant");
                                 ("content", Py.get result "result" (VStr ""));
                                 ("status", Py.get result "status" VNone);
                                 ("timestamp", VStr now) ]));
                 do data <- m_lift (setitem v "turns" turns);
                 do data <- m_lift (setitem data "updated_at" (VStr now));
                 do data <- m_lift (setitem data "last_status"
                                      (Py.get result "status" (VStr "completed")));
                 do data <- m_lift (setitem data "last_summary"
                                      (Py.get result "summary" (VStr "")));
                 do _ <- write_text (path_of sid) (json_dumps data);
                 m_ret data) (with_ticks (S (w_ticks w)) w)) as Hstep.
    { unfold session_update. unfold m_bind at 1.
      rewrite (read_json_ok json_loads w _ text v Hfile Hload). reflexivity. }
    rewrite Hstep. clear Hstep. cbn zeta.
    split_and!.
    + intros Hnd. unfold m_bind at 1, m_lift at 1.
      destruct v; try done. by destruct (Hnd l).
    + intros d -> Hturns. unfold m_bind at 1, m_lift at 1. cbn [getitem].
      by rewrite Hturns.
    + intros d t -> Hturns Hnl. unfold m_bind at 1, m_lift at 1. cbn [getitem].
      rewrite Hturns. unfold m_bind at 1, m_lift at 1.
      destruct t; try done. by destruct (Hnl l).
Qed.

(** X12: whatever [session_get] returns other than [None] is the
    decoded text of a stored [*.json] file whose stem starts with the
    id asked for; the lookup changes no file and leaves the session
    directory existing. *)
Theorem session_get_sound w sid v w1 :
  session_get json_loads py_str listdir sid w = (Ok v, w1) →
  w1 = with_sessions (Some (session_files w)) w
  ∧ (v = VNone
     ∨ ∃ name text,
         session_files w !! name = Some text
         ∧ PyStr.endswith name ".json" = true
         ∧ PyStr.startswith (stem name) sid = true
         ∧ json_loads text = Some v).
Proof.
  intros Hget. split.
  { apply (session_get_world json_loads py_str listdir sid w (Ok v)). exact Hget. }
  revert Hget. unfold session_get, glob_json, read_json, py_json_loads. m_simpl.
  change (session_files (with_sessions (Some (session_files w)) w))
    with (session_files w).
  destruct (session_files w !! path_of sid) as [text|] eqn:Hexact.
  - rewrite bool_decide_true by eauto. cbn beta iota;
    change (session_files (with_sessions (Some (session_files w)) w))
      with (session_files w).
    rewrite Hexact.
    destruct (json_loads text) as [v'|] eqn:Hload; [|done].
    intros [= <- _]. right. exists (path_of sid), text.
    split_and!; [done|apply endswith_append|apply stem_session_path|done].
  - rewrite bool_decide_false by (intros [? [=]]). cbn beta iota;
    change (session_files (with_sessions (Some (session_files w)) w))
      with (session_files w).
    destruct (List.find _ _) as [p|] eqn:Hfind; [|intros [= <- _]; by left].
    apply find_some in Hfind as [Hin Hstart].
    apply filter_In in Hin as [_ Hend]. cbn beta iota;
    change (session_files (with_sessions (Some (session_files w)) w))
      with (session_files w).
    destruct (session_files w !! p) as [text|] eqn:Hp; [|done].
    destruct (json_loads text) as [v'|] eqn:Hload; [|done].
    intros [= <- _]. right. by exists p, text.
Qed.

Hypothesis listdir_spec : ∀ m name, name ∈ listdir m ↔ is_Some (m !! name).

Lemma session_get_scan w p :
  session_files w !! path_of p = None →
  (∃ name, is_Some (session_files w !! name)
           ∧ PyStr.endswith name ".json" = true
           ∧ PyStr.startswith (stem name) p = true) →
  ∃ name text,
    session_files w !! name = Some text
    ∧ PyStr.endswith name ".json" = true
    ∧ PyStr.startswith (stem name) p = true
    ∧ session_get json_loads py_str listdir p w
      = (py_json_loads json_loads (VStr text),
         with_sessions (Some (session_files w)) w).
Proof.
  intros Hnone (name0 & Hin0 & Hend0 & Hstart0).
  unfold session_get, glob_json, read_json. m_simpl.
  change (session_files (with_sessions (Some (session_files w)) w))
    with (session_files w).
  rewrite Hnone, bool_decide_false by (intros [? [=]]). cbn beta iota;
    change (session_files (with_sessions (Some (session_files w)) w))
      with (session_files w).
  destruct (List.find _ _) as [name|] eqn:Hfind.
  - apply find_some in Hfind as [Hin Hstart].
    apply filter_In in Hin as [Hin Hend].
    apply list_elem_of_In, listdir_spec in Hin as [text Htext].
    exists name, text. cbn beta iota;
    change (session_files (with_sessions (Some (session_files w)) w))
      with (session_files w). rewrite Htext. by split_and!.
  - exfalso. pose proof (find_none _ _ Hfind name0) as Hno.
    cbn beta in Hno. rewrite Hstart0 in Hno. discriminate Hno.
    apply filter_In. split; [|done]. by apply list_elem_of_In, listdir_spec.
Qed.

(** X13: when no file is named after the id itself and some [*.json]
    file has a stem that starts with it, [session_get] decodes one of
    the files whose stem starts with the id: it returns that record, or
    raises [JSONDecodeError] when that file does not decode. *)
Theorem session_get_prefix_complete w p :
  session_files w !! path_of p = None →
  (∃ name, is_Some (session_files w !! name)
           ∧ PyStr.endswith name ".json" = true
           ∧ PyStr.startswith (stem name) p = true) →
  ∃ name text,
    session_files w !! name = Some text
    ∧ PyStr.endswith name ".json" = true
    ∧ PyStr.startswith (stem name) p = true
    ∧ session_get json_loads py_str listdir p w
      = (py_json_loads json_loads (VStr text),
         with_sessions (Some (session_files w)) w).
Proof. apply session_get_scan. Qed.

(** X14: the empty id matches every session: unless a file [.json]
    exists, [session_get] of the empty string on a directory that holds
    a [*.json] file decodes one of these files instead of returning
    [None]. *)
Theorem session_get_empty_id w :
  session_files w !! ".json" = None →
  (∃ name, is_Some (session_files w !! name) ∧ PyStr.endswith name ".json" = true) →
  ∃ name text,
    session_files w !! name = Some text
    ∧ PyStr.endswith name ".json" = true
    ∧ session_get json_loads py_str listdir "" w
      = (py_json_loads json_loads (VStr text),
         with_sessions (Some (session_files w)) w).
Proof.
  intros Hnone (name0 & Hin0 & Hend0).
  destruct (session_get_scan w "" Hnone) as (name & text & ? & ? & _ & ?).
  { exists name0. split_and!; try done. unfold PyStr.startswith. by destruct (stem name0). }
  by exists name, text.
Qed.

(** X15: a session written by [session_save] and then updated once by
    [session_update] holds four turns (the task, an assistant turn, the
    follow-up message, an assistant turn), keeps its task and its
    created_at (the first clock reading), and has as updated_at the
    fifth clock reading; the premise is that the text written for the
    first record decodes to it. *)
Theorem save_then_update_has_four_turns w sid task result cwd model message result2 :
  ∃ data w1,
    session_save json_dumps py_str (VStr sid) task result cwd model w = (Ok data, w1)
    ∧ (json_loads (json_dumps (VDict data)) = Some (VDict data) →
       ∃ d' w2 t1 t2 t3 t4,
         session_update json_loads json_dumps py_str sid message result2 w1
         = (Ok (VDict d'), w2)
         ∧ Py.lookup "turns" d' = Some (VList [VDict t1; VDict t2; VDict t3; VDict t4])
         ∧ Py.lookup "content" t1 = Some (VStr task)
         ∧ Py.lookup "role" t2 = Some (VStr "assistant")
         ∧ Py.lookup "content" t3 = Some (VStr message)
         ∧ Py.lookup "role" t4 = Some (VStr "assistant")
         ∧ Py.lookup "status" t4 = Some (Py.get result2 "status" VNone)
         ∧ Py.lookup "task" d' = Some (VStr task)
         ∧ Py.lookup "created_at" d' = Some (VStr (w_clock w (w_ticks w)))
         ∧ Py.lookup "updated_at" d' = Some (VStr (w_clock w (4 + w_ticks w)%nat))
         ∧ Py.lookup "last_status" d' = Some (Py.get result2 "status" (VStr "completed"))
         ∧ session_files w2 = <[path_of sid := json_dumps (VDict d')]> (session_files w)).
Proof.
  eexists _, _. split; [apply session_save_ok|].
  intros Hcodec.
  eexists _, _, _, _, _, _. split.
  { eapply session_update_ok; [|exact Hcodec|reflexivity].
    apply lookup_insert_eq. }
  split_and!; try reflexivity.
  cbn. by rewrite insert_insert_eq.
Qed.

End StoreExtras.

(** ** The [exec] and [continue] commands on success *)

Section DriverExtras.

Variable json_loads : string -> option value.
Variable json_dumps : value -> string.
Variable py_str : value -> string.
Variable listdir : gmap string string -> list string.

Local Abbreviation path_of sid := (_session_path py_str (VStr sid)).

(** What [interpret] keeps of a raw response whose result is a [str]. *)
Lemma interpret_str_result d text :
  Py.get d "result" (VStr "") = VStr text →
  ∃ result,
    interpret json_loads (VDict d) = Ok result
    ∧ Py.contains "error" result = false
    ∧ Py.get result "session_id" (VStr "") = Py.get d "session_id" (VStr "")
    ∧ (∀ dflt, Py.get result "model" dflt = Py.get d "model" (VStr ""))
    ∧ ∃ st, Py.lookup "status" result = Some st.
Proof.
  intros Htext.
  destruct (extract_worker_json_str json_loads text) as (wd & Hext & [-> | Hst]).
  - rewrite (interpret_fallback _ _ _ Htext Hext). eexists. split; [done|].
    split_and!; try done. by eexists.
  - destruct (has_status_dict _ Hst) as (p & -> & Hp & _).
    assert (p ≠ []) as Hne by (by destruct p).
    rewrite <- Htext in Hext.
    rewrite (interpret_structured _ _ _ Hext Hne). eexists. split; [done|].
    split_and!; try done. by eexists.
Qed.

(** X16: when the child's output decodes to an object with a [str]
    result and a non-empty [str] session id, [cmd_exec] prints the
    result, returns 0 and writes under [<id>.json] a record of two
    turns with the task, the cwd option ([.] when absent or empty) and
    the model of the response (the empty string when the response names
    none, whatever the [--model] option was); no other file changes. *)
Theorem cmd_exec_saves_session args w rc out err d text sid :
  exec_outcome w args = ProcCompleted rc out err →
  output_usable rc out →
  json_loads out = Some (VDict d) →
  Py.get d "result" (VStr "") = VStr text →
  Py.lookup "session_id" d = Some (VStr sid) →
  sid ≠ "" →
  ∃ result data t1 t2 w',
    cmd_exec json_loads json_dumps py_str args w = (Ok 0, w')
    ∧ w_stdout w' = w_stdout w ++ [json_dumps (VDict result)]
    ∧ session_files w'
      = <[sid +:+ ".json" := json_dumps (VDict data)]> (session_files w)
    ∧ Py.lookup "session_id" data = Some (VStr sid)
    ∧ Py.lookup "task" data = Some (VStr (ea_task args))
    ∧ Py.lookup "cwd" data = Some (VStr (default "." (nonempty (ea_cwd args))))
    ∧ Py.lookup "model" data = Some (Py.get d "model" (VStr ""))
    ∧ Py.lookup "last_status" data = Py.lookup "status" result
    ∧ Py.lookup "turns" data = Some (VList [VDict t1; VDict t2]).
Proof.
  intros Hrun Huse Hraw Htext Hsid Hne.
  destruct (interpret_str_result d text Htext)
    as (result & Hint & Herr & Hrsid & Hmodel & st & Hst).
  assert (Py.get d "session_id" (VStr "") = VStr sid) as Hdsid
    by (unfold Py.get; by rewrite Hsid).
  assert (Py.truthy (VStr sid) = true) as Htruthy by (by destruct sid).
  exists result. eexists _, _, _, _.
  split.
  { unfold cmd_exec, m_read, exec_task.
    unfold exec_outcome in Hrun.
    unfold m_bind at 1.
    rewrite (run_completed json_loads _ _ _ _ _ _ _ _ Hrun Huse Hraw), Hint.
    rewrite Herr, Hrsid, Hdsid, Htruthy.
    unfold m_bind at 1. unfold m_bind at 1. rewrite session_save_ok.
    unfold _print_json, m_bind, m_ret. reflexivity. }
  split; [reflexivity|]. split; [reflexivity|].
  split_and!; try reflexivity.
  - cbn. by rewrite Hmodel.
  - cbn. unfold Py.get. by rewrite Hst.
Qed.

(** X17: when the response carries no session id (the key is missing,
    or holds an empty string, null, zero or false), [cmd_exec] prints
    the result and returns 0 without touching the session directory. *)
Theorem cmd_exec_without_session_id args w rc out err d text :
  exec_outcome w args = ProcCompleted rc out err →
  output_usable rc out →
  json_loads out = Some (VDict d) →
  Py.get d "result" (VStr "") = VStr text →
  Py.truthy (Py.get d "session_id" (VStr "")) = false →
  ∃ result w',
    cmd_exec json_loads json_dumps py_str args w = (Ok 0, w')
    ∧ w_stdout w' = w_stdout w ++ [json_dumps (VDict result)]
    ∧ w_sessions w' = w_sessions w.
Proof.
  intros Hrun Huse Hraw Htext Hsid.
  destruct (interpret_str_result d text Htext)
    as (result & Hint & Herr & Hrsid & _).
  exists result. eexists. split.
  { unfold cmd_exec, m_read, exec_task.
    unfold exec_outcome in Hrun.
    unfold m_bind at 1.
    rewrite (run_completed json_loads _ _ _ _ _ _ _ _ Hrun Huse Hraw), Hint.
    rewrite Herr, Hrsid, Hsid.
    unfold _print_json, m_bind, m_ret. reflexivity. }
  split; reflexivity.
Qed.

Hypothesis listdir_spec : ∀ m name, name ∈ listdir m ↔ is_Some (m !! name).

(** X18: for an id that matches no stored session, [cmd_continue] runs
    the child with that id in the directory [.], prints what [_run]
    returned, returns 1 if that has the key [error] and 0 otherwise, and
    creates or changes no session file. *)
Theorem cmd_continue_unknown_session args w result :
  session_files w !! path_of (ca_session_id args) = None →
  (∀ name, is_Some (session_files w !! name) →
     PyStr.endswith name ".json" = true →
     PyStr.startswith (stem name) (ca_session_id args) = false) →
  continue_session json_loads w (ca_session_id args) (ca_message args) (Some ".")
    (nonempty (ca_model args)) (ca_max_turns args) 600 = Ok result →
  ∃ w',
    cmd_continue json_loads json_dumps py_str listdir args w
    = (Ok (if Py.contains "error" result then 1 else 0), w')
    ∧ w_stdout w' = w_stdout w ++ [json_dumps (VDict result)]
    ∧ session_files w' = session_files w.
Proof.
  intros Hnone Hothers Hrun.
  pose proof (session_get_none json_loads py_str listdir listdir_spec w
                (ca_session_id args) Hnone Hothers) as Hget.
  eexists. split.
  { unfold cmd_continue, m_read. unfold m_bind at 1. rewrite Hget.
    cbn [Py.truthy]. unfold m_bind at 1, m_lift at 1.
    unfold m_bind at 1, m_lift at 1.
    unfold m_bind at 1. cbn [argv_str cwd_arg]. res_simpl.
    change (continue_session json_loads (with_sessions (Some (session_files w)) w))
      with (continue_session json_loads w).
    rewrite Hrun.
    destruct (Py.contains "error" result); reflexivity. }
  destruct (Py.contains "error" result); split; reflexivity.
Qed.

(** X19: when [session_get] finds a record (by the id or by a prefix),
    the child is resumed under the record's own [session_id] in the
    record's [cwd], and on success [cmd_continue] appends the two new
    turns to the file named after that [session_id], prints the result
    and returns 0. *)
Theorem cmd_continue_updates_session args w w1 d full text d0 ts cwd result :
  session_get json_loads py_str listdir (ca_session_id args) w = (Ok (VDict d), w1) →
  Py.lookup "session_id" d = Some (VStr full) →
  Py.get d "cwd" (VStr ".") = VStr cwd →
  session_files w !! path_of full = Some text →
  json_loads text = Some (VDict d0) →
  Py.lookup "turns" d0 = Some (VList ts) →
  continue_session json_loads w full (ca_message args) (Some cwd)
    (nonempty (ca_model args)) (ca_max_turns args) 600 = Ok result →
  Py.contains "error" result = false →
  ∃ d' user_turn assistant_turn w',
    cmd_continue json_loads json_dumps py_str listdir args w = (Ok 0, w')
    ∧ w_stdout w' = w_stdout w ++ [json_dumps (VDict result)]
    ∧ session_files w' = <[path_of full := json_dumps (VDict d')]> (session_files w)
    ∧ Py.lookup "turns" d' = Some (VList (ts ++ [VDict user_turn; VDict assistant_turn]))
    ∧ Py.lookup "content" user_turn = Some (VStr (ca_message args))
    ∧ Py.lookup "status" assistant_turn = Some (Py.get result "status" VNone)
    ∧ Py.lookup "last_status" d' = Some (Py.get result "status" (VStr "completed")).
Proof.
  intros Hget Hfull Hcwd Hfile Hload Hturns Hrun Herr.
  pose proof (session_get_world json_loads py_str listdir _ _ _ _ Hget) as ->.
  assert (d ≠ []) as Hd by (intros ->; discriminate Hfull).
  eexists _, _, _, _. split.
  { unfold cmd_continue, m_read. unfold m_bind at 1. rewrite Hget.
    assert (Py.truthy (VDict d) = true) as -> by (by destruct d).
    cbn [getitem Py.getattr_get]. rewrite Hfull, Hcwd.
    unfold m_bind at 1, m_lift at 1.
    unfold m_bind at 1, m_lift at 1.
    unfold m_bind at 1. cbn [argv_str cwd_arg]. res_simpl.
    change (continue_session json_loads (with_sessions (Some (session_files w)) w))
      with (continue_session json_loads w).
    rewrite Hrun, Herr.
    unfold m_bind at 1. unfold m_bind at 1. unfold m_bind at 1, m_lift at 1.
    cbn [argv_str]. unfold m_bind at 1.
    erewrite session_update_ok; [|exact Hfile|exact Hload|exact Hturns].
    unfold _print_json, m_bind, m_ret. reflexivity. }
  split; [reflexivity|]. split; [reflexivity|].
  split_and!.
  - rewrite !lookup_set_ne by done. rewrite lookup_set_eq.
    by rewrite <- app_assoc.
  - reflexivity.
  - reflexivity.
  - rewrite lookup_set_ne by done. apply lookup_set_eq.
Qed.

(** X20: when the stored value that [session_get] finds is not an
    object (and is not empty), [cmd_continue] raises [TypeError]; when
    it is an object without [session_id], [KeyError]; in both cases
    nothing is printed and no file changes. *)
Theorem cmd_continue_rejects_malformed_record args w w1 session :
  session_get json_loads py_str listdir (ca_session_id args) w = (Ok session, w1) →
  Py.truthy session = true →
  ((∀ d, session ≠ VDict d) →
   cmd_continue json_loads json_dumps py_str listdir args w = (Raise TypeError, w1))
  ∧ (∀ d, session = VDict d → Py.lookup "session_id" d = None →
       cmd_continue json_loads json_dumps py_str listdir args w = (Raise KeyError, w1))
  ∧ w_stdout w1 = w_stdout w
  ∧ session_files w1 = session_files w.
Proof.
  intros Hget Htruthy.
  pose proof (session_get_world json_loads py_str listdir _ _ _ _ Hget) as Hw.
  split_and!.
  - intros Hnd. unfold cmd_continue. unfold m_bind at 1. rewrite Hget, Htruthy.
    unfold m_bind at 1, m_lift at 1.
    destruct session; try done. by destruct (Hnd l).
  - intros d -> Hnone. unfold cmd_continue. unfold m_bind at 1. rewrite Hget, Htruthy.
    unfold m_bind at 1, m_lift at 1. cbn [getitem]. by rewrite Hnone.
  - by rewrite Hw.
  - by rewrite Hw.
Qed.

End DriverExtras.

(** ** Session listing *)

Lemma compare_not_lt_trans a : ∀ b c,
  String.compare a b ≠ Lt → String.compare b c ≠ Lt → String.compare a c ≠ Lt.
Proof.
  induction a as [|x a IH]; intros [|y b] [|z c]; cbn; try done.
  unfold Ascii.compare.
  destruct (N.compare_spec (N_of_ascii x) (N_of_ascii y)) as [Hxy|Hxy|Hxy];
    destruct (N.compare_spec (N_of_ascii y) (N_of_ascii z)) as [Hyz|Hyz|Hyz];
    destruct (N.compare_spec (N_of_ascii x) (N_of_ascii z)) as [Hxz|Hxz|Hxz];
    try done; try lia.
  apply IH.
Qed.

Lemma ltb_false_trans a b c :
  String.ltb a b = false → String.ltb b c = false → String.ltb a c = false.
Proof.
  unfold String.ltb. intros Hab Hbc.
  pose proof (compare_not_lt_trans a b c) as H.
  destruct (String.compare a b), (String.compare b c), (String.compare a c);
    try done; exfalso; by apply H.
Qed.

Lemma ltb_false_total a b : String.ltb a b = true → String.ltb b a = false.
Proof.
  unfold String.ltb. rewrite (String.compare_antisym b a).
  by destruct (String.compare a b).
Qed.

Section SortDesc.

Context {A : Type}.

Abbreviation ge_key := (λ a b : string * A, String.ltb a.1 b.1 = false).

Lemma insert_desc_perm (x : string * A) l : insert_desc x l ≡ₚ x :: l.
Proof.
  induction l as [|y l IH]; cbn; [done|].
  destruct (String.ltb x.1 y.1); [|done].
  rewrite IH. apply Permutation_swap.
Qed.

Lemma sort_desc_perm (l : list (string * A)) : sort_desc l ≡ₚ l.
Proof.
  induction l as [|x l IH]; [done|].
  cbn. by rewrite insert_desc_perm, IH.
Qed.

Lemma insert_desc_sorted (x : string * A) l :
  StronglySorted ge_key l → StronglySorted ge_key (insert_desc x l).
Proof.
  induction 1 as [|y l Hl IH Hy]; cbn.
  - repeat constructor.
  - destruct (String.ltb x.1 y.1) eqn:Hxy.
    + constructor; [done|].
      rewrite insert_desc_perm. constructor; [|done].
      by apply ltb_false_total.
    + constructor; [by constructor|].
      constructor; [done|].
      eapply Forall_impl; [exact Hy|]. cbn. intros z Hyz.
      by apply ltb_false_trans with y.1.
Qed.

Lemma sort_desc_sorted (l : list (string * A)) : StronglySorted ge_key (sort_desc l).
Proof.
  induction l as [|x l IH]; [constructor|]. cbn. by apply insert_desc_sorted.
Qed.

End SortDesc.

Lemma StronglySorted_fmap {A B} (R : A → A → Prop) (R' : B → B → Prop)
    (P : A → Prop) (f : A → B) (l : list A) :
  (∀ a b, P a → P b → R a b → R' (f a) (f b)) →
  Forall P l → StronglySorted R l → StronglySorted R' (f <$> l).
Proof.
  intros HR HP Hs. induction Hs as [|a l Hl IH Ha]; cbn; [constructor|].
  apply Forall_cons in HP as [HPa HPl].
  constructor; [by apply IH|].
  apply Forall_fmap. apply Forall_forall. intros b Hb. cbn.
  apply HR; [done| |].
  - by apply (proj1 (Forall_forall _ _) HPl).
  - by apply (proj1 (Forall_forall _ _) Ha).
Qed.

Lemma session_summary_raises v e :
  session_summary v = Raise e → e = KeyError ∨ e = TypeError.
Proof.
  destruct v as [| | | | | |d]; try (intros [= <-]; by right).
  unfold session_summary. cbn [getitem Py.getattr_get]. res_simpl.
  destruct (Py.lookup "session_id" d); [|intros [= <-]; by left].
  destruct (Py.lookup "task" d); [|intros [= <-]; by left].
  destruct (Py.lookup "created_at" d); [|intros [= <-]; by left].
  destruct (py_len _) eqn:Hlen; [done|].
  intros [= <-]. right.
  destruct (Py.get d "turns" (VList [])); cbn in Hlen; congruence.
Qed.

Lemma session_summary_non_object v :
  (∀ d, v ≠ VDict d) → session_summary v = Raise TypeError.
Proof. intros Hnd. destruct v; try done. by destruct (Hnd l). Qed.

Section ListingFacts.

Variable json_loads : string -> option value.
Variable listdir : gmap string string -> list string.
Variable sort_other : list (value * dict) -> res (list dict).

Lemma session_entry_spec w path text :
  session_files w !! path = Some text →
  session_entry json_loads path w
  = (match json_loads text with
     | None => Ok None
     | Some v =>
         match session_summary v with
         | Ok s => Ok (Some s)
         | Raise e =>
             if existsb (exn_eqb e) [JSONDecodeError; KeyError] then Ok None
             else Raise e
         end
     end, w).
Proof.
  intros Hfile. unfold session_entry, m_try_except, py_json_loads. m_simpl.
  rewrite Hfile. res_simpl.
  destruct (json_loads text) as [v|]; [|done].
  destruct (session_summary v) as [s|e]; [done|].
  by destruct (existsb _ _).
Qed.

Lemma session_list_loop_ok w : ∀ names acc,
  (∀ name, name ∈ names →
     ∃ text, session_files w !! name = Some text
             ∧ listed_or_skipped json_loads text) →
  session_list_loop json_loads names acc w
  = (Ok (acc ++ omap (λ name, session_files w !! name
                              ≫= summary_of_text json_loads) names), w).
Proof.
  induction names as [|name names IH]; intros acc Hall; cbn [session_list_loop omap list_omap].
  { unfold m_ret. by rewrite app_nil_r. }
  destruct (Hall name) as (text & Hfile & Hok); [by left|].
  unfold m_bind. rewrite (session_entry_spec _ _ _ Hfile).
  rewrite Hfile. cbn [mbind option_bind]. unfold summary_of_text at 1.
  unfold listed_or_skipped in Hok.
  assert (∀ acc', session_list_loop json_loads names acc' w
            = (Ok (acc' ++ omap (λ name, session_files w !! name
                                   ≫= summary_of_text json_loads) names), w)) as IH'.
  { intros acc'. apply IH. intros n Hn. apply Hall. by right. }
  destruct (json_loads text) as [v|]; [|apply IH'].
  destruct Hok as [Hkey|(s & k & Hs & _)].
  - rewrite Hkey. cbn. apply IH'.
  - rewrite Hs. rewrite IH'. by rewrite <- app_assoc.
Qed.

Lemma session_list_loop_raises w : ∀ names acc,
  (∀ name, name ∈ names → is_Some (session_files w !! name)) →
  (∃ name text v, name ∈ names ∧ session_files w !! name = Some text
                  ∧ json_loads text = Some v ∧ ∀ d, v ≠ VDict d) →
  session_list_loop json_loads names acc w = (Raise TypeError, w).
Proof.
  induction names as [|name names IH]; intros acc Hall Hbad.
  { destruct Hbad as (? & ? & ? & []%elem_of_nil & _). }
  cbn [session_list_loop].
  destruct (Hall name) as [text Hfile]; [by left|].
  unfold m_bind. rewrite (session_entry_spec _ _ _ Hfile).
  assert (∀ acc', (∃ v, json_loads text = Some v ∧ ∀ d, v ≠ VDict d) ∨
            session_list_loop json_loads names acc' w = (Raise TypeError, w)) as Hrest.
  { intros acc'. destruct Hbad as (bad & btext & bv & Hin & Hbfile & Hbload & Hnd).
    apply elem_of_cons in Hin as [->|Hin].
    - left. rewrite Hfile in Hbfile. injection Hbfile as <-. eauto.
    - right. apply IH; [intros n Hn; apply Hall; by right|].
      by exists bad, btext, bv. }
  destruct (json_loads text) as [v|] eqn:Hload.
  - destruct (session_summary v) as [s|e] eqn:Hsum.
    + destruct (Hrest (acc ++ [s])) as [(v' & [= <-] & Hnd)|Hr]; [|done].
      rewrite session_summary_non_object in Hsum by done. discriminate.
    + destruct (session_summary_raises _ _ Hsum) as [->| ->]; [|done].
      cbn. destruct (Hrest acc) as [(v' & [= <-] & Hnd)|Hr]; [|done].
      rewrite session_summary_non_object in Hsum by done. discriminate.
  - destruct (Hrest acc) as [(v' & [=] & _)|Hr]. done.
Qed.

Lemma sort_sessions_str (sessions : list dict) :
  (∀ s, s ∈ sessions → ∃ k, Py.lookup "updated_at" s = Some (VStr k)) →
  ∃ l, sort_sessions sort_other sessions = Ok l
       ∧ l ≡ₚ sessions
       ∧ StronglySorted not_older l.
Proof.
  intros Hkeys.
  assert (∃ ks : list (string * dict),
            sort_keys sessions = Ok ((λ p, (VStr p.1, p.2)) <$> ks)
            ∧ str_keys ((λ p, (VStr p.1, p.2)) <$> ks) = Some ks
            ∧ snd <$> ks = sessions
            ∧ Forall (λ p, Py.lookup "updated_at" p.2 = Some (VStr p.1)) ks)
    as (ks & Hsk & Hstr & Hsnd & Hall).
  { induction sessions as [|s sessions IH].
    - by exists [].
    - destruct IH as (ks & Hsk & Hstr & Hsnd & Hall).
      { intros s' Hs'. apply Hkeys. by right. }
      destruct (Hkeys s) as [k Hk]; [by left|].
      exists ((k, s) :: ks). cbn [sort_keys getitem fmap list_fmap].
      rewrite Hk. res_simpl. fold (@fmap list _ _ _ (λ p : string * dict, (VStr p.1, p.2)) ks).
      rewrite Hsk. cbn [str_keys fst snd]. rewrite Hstr.
      split_and!; try done.
      + cbn. by rewrite Hsnd.
      + by constructor. }
  exists (snd <$> sort_desc ks). split_and!.
  - unfold sort_sessions. rewrite Hsk. res_simpl. by rewrite Hstr.
  - by rewrite sort_desc_perm, Hsnd.
  - apply (StronglySorted_fmap (λ a b : string * dict, String.ltb a.1 b.1 = false) _
             (λ p, Py.lookup "updated_at" p.2 = Some (VStr p.1))).
    + intros a b Ha Hb Hab ka kb Hka Hkb. rewrite Ha in Hka. rewrite Hb in Hkb.
      injection Hka as <-. injection Hkb as <-.
      unfold PyStr.lt. by rewrite Hab.
    + by rewrite sort_desc_perm.
    + apply sort_desc_sorted.
Qed.

Hypothesis listdir_spec : ∀ m name, name ∈ listdir m ↔ is_Some (m !! name).

(** [session_list] on a directory whose session files are all listed or
    passed over. *)
Lemma session_list_ok w :
  (∀ name text, session_files w !! name = Some text →
     PyStr.endswith name ".json" = true → listed_or_skipped json_loads text) →
  ∃ l,
    session_list json_loads listdir sort_other w
    = (Ok l, with_sessions (Some (session_files w)) w)
    ∧ (∀ s, s ∈ l ↔
         ∃ name text v,
           session_files w !! name = Some text
           ∧ PyStr.endswith name ".json" = true
           ∧ json_loads text = Some v
           ∧ session_summary v = Ok s)
    ∧ StronglySorted not_older l.
Proof.
  intros Hfiles.
  set (w0 := with_sessions (Some (session_files w)) w).
  set (names := List.filter (λ name, PyStr.endswith name ".json")
                  (listdir (session_files w))).
  set (sessions := omap (λ name, session_files w !! name
                                 ≫= summary_of_text json_loads) names).
  assert (∀ s, s ∈ sessions ↔
            ∃ name text v,
              session_files w !! name = Some text
              ∧ PyStr.endswith name ".json" = true
              ∧ json_loads text = Some v
              ∧ session_summary v = Ok s) as Hmem.
  { intros s. unfold sessions. rewrite list_elem_of_omap. split.
    - intros (name & Hin & Hs).
      apply elem_of_List_filter in Hin as [_ Hend].
      destruct (session_files w !! name) as [text|] eqn:Hfile; [|done].
      cbn in Hs. unfold summary_of_text in Hs.
      destruct (json_loads text) as [v|] eqn:Hload; [|done].
      destruct (session_summary v) as [s'|] eqn:Hsum; [|done].
      injection Hs as ->. by exists name, text, v.
    - intros (name & text & v & Hfile & Hend & Hload & Hsum).
      exists name. split.
      + apply elem_of_List_filter. split; [|done]. apply listdir_spec. eauto.
      + rewrite Hfile. cbn. unfold summary_of_text. by rewrite Hload, Hsum. }
  destruct (sort_sessions_str sessions) as (l & Hsort & Hperm & Hsorted).
  { intros s (name & text & v & Hfile & Hend & Hload & Hsum)%Hmem.
    specialize (Hfiles _ _ Hfile Hend). unfold listed_or_skipped in Hfiles.
    rewrite Hload in Hfiles. destruct Hfiles as [Hkey|(s' & k & Hs' & Hk)].
    - rewrite Hkey in Hsum. discriminate.
    - rewrite Hs' in Hsum. injection Hsum as ->. eauto. }
  exists l. split_and!; [|intros s; by rewrite Hperm|done].
  unfold session_list, glob_json. m_simpl. fold w0.
  change (session_files w0) with (session_files w). fold names.
  rewrite (session_list_loop_ok w0 names []).
  - cbn [app]. change (session_files w0) with (session_files w). fold sessions.
    by rewrite Hsort.
  - intros name [Hin Hend]%elem_of_List_filter.
    apply listdir_spec in Hin as [text Hfile].
    exists text. split; [done|]. by apply (Hfiles name).
Qed.

(** X21: on a directory each of whose [*.json] files fails to decode,
    or lacks one of the keys [session_id], [task], [created_at], or
    gives an entry with a [str] updated_at, [session_list] returns and
    lists exactly the entries of the files that decode to a record with
    those keys: the other files are passed over, and no file changes. *)
Theorem session_list_members w :
  (∀ name text, session_files w !! name = Some text →
     PyStr.endswith name ".json" = true → listed_or_skipped json_loads text) →
  ∃ l w',
    session_list json_loads listdir sort_other w = (Ok l, w')
    ∧ session_files w' = session_files w
    ∧ ∀ s, s ∈ l ↔
        ∃ name text v,
          session_files w !! name = Some text
          ∧ PyStr.endswith name ".json" = true
          ∧ json_loads text = Some v
          ∧ session_summary v = Ok s.
Proof.
  intros Hfiles. destruct (session_list_ok w Hfiles) as (l & Hl & Hmem & _).
  by exists l, (with_sessions (Some (session_files w)) w).
Qed.

(** X22: on such a directory the list that [session_list] returns is
    in descending order of updated_at: no entry is followed by one with
    a greater updated_at string. *)
Theorem session_list_newest_first w :
  (∀ name text, session_files w !! name = Some text →
     PyStr.endswith name ".json" = true → listed_or_skipped json_loads text) →
  ∃ l w',
    session_list json_loads listdir sort_other w = (Ok l, w')
    ∧ StronglySorted not_older l.
Proof.
  intros Hfiles. destruct (session_list_ok w Hfiles) as (l & Hl & _ & Hsorted).
  by exists l, (with_sessions (Some (session_files w)) w).
Qed.

(** X23: a [*.json] file that holds JSON other than an object makes
    [session_list] raise [TypeError]: only [JSONDecodeError] and
    [KeyError] are handled in its loop. *)
Theorem session_list_raises_on_non_object w name text v :
  session_files w !! name = Some text →
  PyStr.endswith name ".json" = true →
  json_loads text = Some v →
  (∀ d, v ≠ VDict d) →
  session_list json_loads listdir sort_other w
  = (Raise TypeError, with_sessions (Some (session_files w)) w).
Proof.
  intros Hfile Hend Hload Hnd.
  unfold session_list, glob_json. m_simpl.
  set (w0 := with_sessions (Some (session_files w)) w).
  change (session_files w0) with (session_files w).
  rewrite session_list_loop_raises; [done| |].
  - intros n [Hin _]%elem_of_List_filter. by apply listdir_spec.
  - exists name, text, v. split_and!; try done.
    apply elem_of_List_filter. split; [|done]. apply listdir_spec. eauto.
Qed.

End ListingFacts.

Section CommandFacts.

Variable json_loads : string -> option value.
Variable json_dumps : value -> string.
Variable json_dumps_ascii : value -> string.
Variable py_str : value -> string.
Variable listdir : gmap string string -> list string.
Variable sort_other : list (value * dict) -> res (list dict).

Local Abbreviation path_of sid := (_session_path py_str (VStr sid)).

(** X25: [cmd_sessions] prints one document whose [count] is the
    number of entries it shows and returns 0; with a positive limit [n]
    it shows the first [n] entries of [session_list] (all of them when
    there are fewer), with no limit or the limit 0 it shows them all,
    and with a negative limit [-k] all but the last [k]. *)
Theorem cmd_sessions_limit args w l w1 :
  session_list json_loads listdir sort_other w = (Ok l, w1) →
  ∃ shown w',
    cmd_sessions json_loads json_dumps listdir sort_other args w = (Ok 0, w')
    ∧ w_stdout w'
      = w_stdout w1
        ++ [json_dumps (VDict [ ("sessions", VList (VDict <$> shown));
                                ("count", VInt (Z.of_nat (length shown))) ])]
    ∧ session_files w' = session_files w1
    ∧ (sa_limit args = None ∨ sa_limit args = Some 0 → shown = l)
    ∧ (∀ n, sa_limit args = Some n → 0 < n →
         shown = take (Z.to_nat n) l
         ∧ Z.of_nat (length shown) = Z.min n (Z.of_nat (length l)))
    ∧ (∀ n, sa_limit args = Some n → n < 0 →
         shown = take (length l - Z.to_nat (- n)) l).
Proof.
  intros Hlist.
  exists (match sa_limit args with
          | Some n => if negb (n =? 0) then slice_to n l else l
          | None => l
          end).
  eexists. split.
  { unfold cmd_sessions. unfold m_bind at 1. rewrite Hlist.
    unfold _print_json, m_bind, m_ret. reflexivity. }
  split; [reflexivity|]. split; [reflexivity|].
  split_and!.
  - by intros [-> | ->].
  - intros n -> Hn. unfold slice_to.
    destruct (Z.eqb_spec n 0) as [->|_]; [lia|]. cbn [negb].
    destruct (Z.leb_spec 0 n); [|lia].
    split; [done|]. rewrite length_take. lia.
  - intros n -> Hn. unfold slice_to.
    destruct (Z.eqb_spec n 0) as [->|_]; [lia|]. cbn [negb].
    by destruct (Z.leb_spec 0 n); [lia|].
Qed.

(** X27: [cmd_delete] removes the file named after the exact id,
    prints the id under [deleted] and returns 0; when no file has that
    exact name, a prefix of a stored id included, it deletes nothing,
    writes one error document to the standard error stream and returns
    1. *)
Theorem cmd_delete_outcomes args c :
  (is_Some (session_files (c_world c) !! path_of (da_session_id args)) →
   ∃ w',
     cmd_delete json_dumps json_dumps_ascii py_str args c
     = (Ok 0, {| c_world := w'; c_stderr := c_stderr c |})
     ∧ session_files w'
       = delete (path_of (da_session_id args)) (session_files (c_world c))
     ∧ w_stdout w'
       = w_stdout (c_world c)
         ++ [json_dumps (VDict [("deleted", VStr (da_session_id args))])])
  ∧ (session_files (c_world c) !! path_of (da_session_id args) = None →
     cmd_delete json_dumps json_dumps_ascii py_str args c
     = (Ok 1,
        {| c_world := c_world c;
           c_stderr :=
             c_stderr c
             ++ [json_dumps_ascii
                   (VDict [("error",
                            VStr ("Session not found: " +:+ da_session_id args))])] |})).
Proof.
  split.
  - intros [text Hfile]. eexists. split; [|split].
    + unfold cmd_delete, c_bind, c_lift, session_delete. m_simpl.
      rewrite bool_decide_true by eauto. rewrite Hfile.
      unfold _print_json, c_ret. reflexivity.
    + reflexivity.
    + reflexivity.
  - intros Hnone. unfold cmd_delete, c_bind, c_lift, session_delete. m_simpl.
    rewrite Hnone, bool_decide_false by (intros [? [=]]).
    reflexivity.
Qed.

Hypothesis listdir_spec : ∀ m name, name ∈ listdir m ↔ is_Some (m !! name).

(** X26: for an id that has a file, [cmd_status] prints the decoded
    record and returns 0, unless the record is empty or null, which it
    reports as not found; for an id that matches no file it writes one
    error document to the standard error stream, prints nothing and
    returns 1; no file changes. *)
Theorem cmd_status_outcomes args c :
  (∀ text v,
     session_files (c_world c) !! path_of (sta_session_id args) = Some text →
     json_loads text = Some v →
     cmd_status json_loads json_dumps json_dumps_ascii py_str listdir args c
     = if Py.truthy v
       then (Ok 0,
             {| c_world := with_stdout (w_stdout (c_world c) ++ [json_dumps v])
                             (c_world c);
                c_stderr := c_stderr c |})
       else (Ok 1,
             {| c_world := c_world c;
                c_stderr :=
                  c_stderr c
                  ++ [json_dumps_ascii
                        (VDict [("error",
                                 VStr ("Session not found: "
                                       +:+ sta_session_id args))])] |}))
  ∧ (session_files (c_world c) !! path_of (sta_session_id args) = None →
     (∀ name, is_Some (session_files (c_world c) !! name) →
        PyStr.endswith name ".json" = true →
        PyStr.startswith (stem name) (sta_session_id args) = false) →
     ∃ w',
       cmd_status json_loads json_dumps json_dumps_ascii py_str listdir args c
       = (Ok 1,
          {| c_world := w';
             c_stderr :=
               c_stderr c
               ++ [json_dumps_ascii
                     (VDict [("error",
                              VStr ("Session not found: "
                                    +:+ sta_session_id args))])] |})
       ∧ session_files w' = session_files (c_world c)
       ∧ w_stdout w' = w_stdout (c_world c)).
Proof.
  split.
  - intros text v Hfile Hload.
    pose proof (session_files_lookup_dir _ _ _ Hfile) as Hdir.
    unfold cmd_status, c_bind, c_lift.
    rewrite (session_get_exact json_loads py_str listdir (c_world c) _
               (sta_session_id args) text v Hdir Hfile Hload).
    destruct (Py.truthy v); reflexivity.
  - intros Hnone Hothers. eexists. split; [|split].
    + unfold cmd_status, c_bind, c_lift.
      rewrite (session_get_none json_loads py_str listdir listdir_spec (c_world c)
                 (sta_session_id args) Hnone Hothers).
      reflexivity.
    + reflexivity.
    + reflexivity.
Qed.

(** X24: a session written by [session_save] appears in
    [session_list] with its id, task, cwd, model, created_at (the first
    clock reading), updated_at (the second), a turn count of 2, and its
    last status and summary; the premises are that the text written
    decodes to the record and that the other files are listed or passed
    over. *)
Theorem saved_session_is_listed w sid task result cwd model :
  (∀ name text, session_files w !! name = Some text → name ≠ path_of sid →
     PyStr.endswith name ".json" = true → listed_or_skipped json_loads text) →
  ∃ data w1,
    session_save json_dumps py_str (VStr sid) task result cwd model w = (Ok data, w1)
    ∧ (json_loads (json_dumps (VDict data)) = Some (VDict data) →
       ∃ l w2,
         session_list json_loads listdir sort_other w1 = (Ok l, w2)
         ∧ [ ("session_id", VStr sid); ("task", VStr task); ("cwd", VStr cwd);
             ("model", model);
             ("created_at", VStr (w_clock w (w_ticks w)));
             ("updated_at", VStr (w_clock w (S (w_ticks w))));
             ("turns", VInt 2);
             ("last_status", Py.get result "status" (VStr "completed"));
             ("last_summary", Py.get result "summary" (VStr "")) ] ∈ l).
Proof.
  intros Hothers. eexists _, _. split; [apply session_save_ok|].
  intros Hcodec.
  match goal with
  | |- ∃ l w2, session_list _ _ _ ?w1 = _ ∧ _ =>
      destruct (session_list_ok json_loads listdir sort_other listdir_spec w1)
        as (l & Hl & Hmem & _)
  end.
  - intros name text Hfile Hend.
    match type of Hfile with
    | session_files (with_sessions (Some ?fs) ?w') !! _ = _ =>
        change (session_files (with_sessions (Some fs) w')) with fs in Hfile
    end.
    destruct (decide (name = path_of sid)) as [->|Hne].
    + rewrite lookup_insert_eq in Hfile. injection Hfile as <-.
      unfold listed_or_skipped. rewrite Hcodec. right.
      eexists _, _. split; reflexivity.
    + rewrite lookup_insert_ne in Hfile by done. by apply (Hothers name).
  - eexists l, _. split; [exact Hl|].
    apply Hmem. eexists (path_of sid), _, _.
    split_and!; [apply lookup_insert_eq|apply endswith_append|exact Hcodec|reflexivity].
Qed.

End CommandFacts.

(** ** [_run] on a decoded output, and a failed continuation *)

Section RunRaises.

Variable json_loads : string -> option value.

(** X29: when [subprocess.run] returns a completed process whose output
    [_run] goes on to decode, and the output decodes, [_run] returns a
    dictionary if the decoded value is an object whose [result] is a
    [str] or is missing, raises [AttributeError] if the value is not an
    object, and raises [TypeError] if it is an object whose [result]
    is not a [str]. *)
Theorem run_on_decoded_output w cmd cwd timeout rc out err raw :
  w_subprocess_run w cmd cwd (_clean_env w) timeout = ProcCompleted rc out err →
  output_usable rc out →
  json_loads out = Some raw →
  (∃ d text result,
     raw = VDict d ∧ Py.get d "result" (VStr "") = VStr text
     ∧ _run json_loads w cmd cwd timeout = Ok result)
  ∨ ((∀ d, raw ≠ VDict d)
     ∧ _run json_loads w cmd cwd timeout = Raise AttributeError)
  ∨ (∃ d v,
       raw = VDict d ∧ Py.lookup "result" d = Some v ∧ (∀ s, v ≠ VStr s)
       ∧ _run json_loads w cmd cwd timeout = Raise TypeError).
Proof.
  intros Hrun Huse Hraw.
  rewrite (run_completed json_loads _ _ _ _ _ _ _ _ Hrun Huse Hraw).
  destruct raw as [| | | | | |d];
    try (right; left; split; [by intros ?|reflexivity]).
  destruct (Py.lookup "result" d) as [v|] eqn:Hv.
  - assert (Py.get d "result" (VStr "") = v) as Hget
      by (unfold Py.get; by rewrite Hv).
    destruct v as [| | | |text| |];
      try (right; right; eexists d, _; split; [done|]; split; [done|];
           split; [by intros ?|];
           unfold interpret; cbn [Py.getattr_get]; res_simpl;
           rewrite Hget; by rewrite extract_worker_json_non_str).
    left. destruct (interpret_returns_on_str_result json_loads d text Hget) as [r Hr].
    by exists d, text, r.
  - assert (Py.get d "result" (VStr "") = VStr "") as Hget
      by (unfold Py.get; by rewrite Hv).
    left. destruct (interpret_returns_on_str_result json_loads d "" Hget) as [r Hr].
    by exists d, "", r.
Qed.

End RunRaises.

Section ContinueFailure.

Variable json_loads : string -> option value.
Variable json_dumps : value -> string.
Variable py_str : value -> string.
Variable listdir : gmap string string -> list string.

(** X28: when [session_get] finds a record and the resumed child fails
    at the process level, [cmd_continue] prints one error document and
    returns 1, and the session files are what they were: the record is
    not updated. *)
Theorem cmd_continue_failure_keeps_record args w w1 d full cwd f :
  session_get json_loads py_str listdir (ca_session_id args) w = (Ok (VDict d), w1) →
  Py.lookup "session_id" d = Some (VStr full) →
  Py.get d "cwd" (VStr ".") = VStr cwd →
  failure_of json_loads (continue_outcome w args full (Some cwd)) = Some f →
  ∃ err w',
    cmd_continue json_loads json_dumps py_str listdir args w = (Ok 1, w')
    ∧ Py.contains "error" err = true
    ∧ w_stdout w' = w_stdout w ++ [json_dumps (VDict err)]
    ∧ session_files w' = session_files w.
Proof.
  intros Hget Hfull Hcwd Hfail.
  assert (Py.truthy (VDict d) = true) as Htruthy.
  { destruct d; [discriminate Hfull|done]. }
  apply (failed_continue_is_terminal json_loads json_dumps py_str listdir args w f
           (VDict d) w1 (VStr full) (VStr cwd) full (Some cwd)).
  - exact Hget.
  - rewrite Htruthy. cbn [getitem]. by rewrite Hfull.
  - rewrite Htruthy. cbn [Py.getattr_get]. by rewrite Hcwd.
  - reflexivity.
  - reflexivity.
  - pose proof (session_get_world json_loads py_str listdir _ _ _ _ Hget) as ->.
    exact Hfail.
Qed.

End ContinueFailure.

(** ** Closed instances of the further properties *)

Lemma exec_allowed_tools_trimmed_witness :
  passes "--allowedTools" "Read,Grep" (exec_argv (host_printing "") spaced_tools_args)
  ∧ passes "--allowedTools" "" (exec_argv (host_printing "") blank_tools_args).
Proof.
  split.
  - exact (proj1 (exec_allowed_tools_trimmed (host_printing "") spaced_tools_args
                    " Read , Grep" eq_refl ltac:(discriminate))).
  - apply (exec_allowed_tools_trimmed (host_printing "") blank_tools_args
             "  " eq_refl ltac:(discriminate)).
    reflexivity.
Defined.

Lemma extract_worker_json_without_fence_witness :
  _extract_worker_json PyJson.loads (VStr "No payload here.") = Ok VNone.
Proof.
  rewrite (extract_worker_json_without_fence PyJson.loads "No payload here.")
    by reflexivity.
  vm_compute. reflexivity.
Defined.

Lemma fenced_block_shape_witness :
  occurs close_fence
    (PyJson.q "{'status':'needs_clarification','questions':['What port should the service use?']}")
  = false.
Proof.
  apply (fenced_block_shape fenced_result).
  assert (PyRe.findall_fence fenced_result
          = [PyJson.q "{'status':'needs_clarification','questions':['What port should the service use?']}"])
    as -> by (vm_compute; reflexivity).
  apply list_elem_of_here.
Defined.

Lemma run_error_key_iff_failure_witness :
  ∃ result,
    _run PyJson.loads (host_printing truncated_stdout) [] None 600 = Ok result
    ∧ result.*1 = normalized_keys.
Proof.
  eexists. split; [vm_compute; reflexivity|].
  apply (run_error_key_iff_failure PyJson.loads (host_printing truncated_stdout)
           [] None 600).
  - vm_compute. reflexivity.
  - vm_compute. reflexivity.
Defined.

Lemma run_raises_on_non_object_output_witness :
  _run PyJson.loads (host_printing "[1, 2]") [] None 600 = Raise AttributeError.
Proof.
  apply (run_raises_on_non_object_output PyJson.loads (host_printing "[1, 2]")
           [] None 600 0 "[1, 2]" "" (VList [VInt 1; VInt 2])).
  - reflexivity.
  - left. reflexivity.
  - vm_compute. reflexivity.
  - intros d. discriminate.
Defined.

Lemma run_malformed_output_witness :
  ∃ shown,
    _run PyJson.loads (host_printing "Usage: claude [options]") [] None 600
    = Ok [ ("error", VStr "Failed to parse claude output as JSON");
           ("raw_output", VStr shown);
           ("exit_code", VInt 0) ]
    ∧ String.prefix shown "Usage: claude [options]" = true
    ∧ String.length shown = 23%nat.
Proof.
  apply (run_malformed_output PyJson.loads (host_printing "Usage: claude [options]")
           [] None 600 0 "Usage: claude [options]" "").
  - reflexivity.
  - left. reflexivity.
  - vm_compute. reflexivity.
Defined.

Lemma session_get_sound_witness :
  ∃ name text,
    session_files (host_with_record "2026-01-05T10:02:00+00:00") !! name = Some text
    ∧ PyStr.startswith (stem name) "7c" = true
    ∧ PyJson.loads text = Some (VDict stored_record).
Proof.
  destruct (session_get_sound PyJson.loads py_str_ex listdir_ex
              (host_with_record "2026-01-05T10:02:00+00:00") "7c"
              (VDict stored_record)
              (with_sessions
                 (Some (session_files (host_with_record "2026-01-05T10:02:00+00:00")))
                 (host_with_record "2026-01-05T10:02:00+00:00")))
    as [_ [Hnone|(name & text & Hfile & _ & Hstart & Hload)]].
  - vm_compute. reflexivity.
  - discriminate Hnone.
  - by exists name, text.
Defined.

Lemma session_get_prefix_complete_witness :
  ∃ name text w1,
    session_files (host_with_record "2026-01-05T10:02:00+00:00") !! name = Some text
    ∧ PyStr.startswith (stem name) "7c" = true
    ∧ session_get PyJson.loads py_str_ex listdir_ex "7c"
        (host_with_record "2026-01-05T10:02:00+00:00")
      = (py_json_loads PyJson.loads (VStr text), w1).
Proof.
  destruct (session_get_prefix_complete PyJson.loads py_str_ex listdir_ex
              listdir_ex_spec (host_with_record "2026-01-05T10:02:00+00:00") "7c")
    as (name & text & Hfile & _ & Hstart & Hget).
  - vm_compute. reflexivity.
  - exists "7c1e.json". split; [eexists; vm_compute; reflexivity|].
    split; reflexivity.
  - exists name, text. eexists. split; [exact Hfile|]. split; [exact Hstart|exact Hget].
Defined.

Lemma session_get_empty_id_witness :
  ∃ name text w1,
    session_files (host_with_record "2026-01-05T10:02:00+00:00") !! name = Some text
    ∧ session_get PyJson.loads py_str_ex listdir_ex ""
        (host_with_record "2026-01-05T10:02:00+00:00")
      = (py_json_loads PyJson.loads (VStr text), w1).
Proof.
  destruct (session_get_empty_id PyJson.loads py_str_ex listdir_ex
              listdir_ex_spec (host_with_record "2026-01-05T10:02:00+00:00"))
    as (name & text & Hfile & _ & Hget).
  - vm_compute. reflexivity.
  - exists "7c1e.json". split; [eexists; vm_compute; reflexivity|reflexivity].
  - exists name, text. eexists. split; [exact Hfile|exact Hget].
Defined.

Lemma save_then_update_has_four_turns_witness :
  ∃ d' w2 t1 t2 t3 t4,
    (let '(_, w1) :=
       session_save PyJson.dumps py_str_ex (VStr "a41b") "Review the lexer" a_result
         "." (VStr "m1") (host_with_record "2026-01-05T10:02:00+00:00") in
     session_update PyJson.loads PyJson.dumps py_str_ex "a41b" "And the parser?"
       a_result w1) = (Ok (VDict d'), w2)
    ∧ Py.lookup "turns" d' = Some (VList [VDict t1; VDict t2; VDict t3; VDict t4])
    ∧ Py.lookup "content" t3 = Some (VStr "And the parser?").
Proof.
  destruct (save_then_update_has_four_turns PyJson.loads PyJson.dumps py_str_ex
              (host_with_record "2026-01-05T10:02:00+00:00")
              "a41b" "Review the lexer" a_result "." (VStr "m1")
              "And the parser?" a_result)
    as (data & w1 & Hsave & Hupd).
  assert (PyJson.loads (PyJson.dumps (VDict data)) = Some (VDict data)) as Hcodec.
  { vm_compute in Hsave. injection Hsave as <- _. vm_compute. reflexivity. }
  destruct (Hupd Hcodec) as (d' & w2 & t1 & t2 & t3 & t4 & Hu & Hturns & _ & _ & Hc & _).
  exists d', w2, t1, t2, t3, t4. rewrite Hsave. by split_and!.
Defined.

Lemma exec_allowed_tools_verbatim_witness :
  passes "--allowedTools" default_allowed_arg (exec_argv (host_printing "") review_args)
  ∧ passes "--allowedTools" "Read,Grep" (exec_argv (host_printing "") plain_tools_args).
Proof.
  split.
  - apply (proj1 (exec_allowed_tools_verbatim (host_printing "") review_args)).
    reflexivity.
  - apply (proj2 (exec_allowed_tools_verbatim (host_printing "") plain_tools_args)
             "Read,Grep").
    + reflexivity.
    + discriminate.
    + reflexivity.
Defined.

Lemma session_update_failure_modes_witness :
  session_update PyJson.loads PyJson.dumps py_str_ex "0000" "And the lexer?" a_result
    (host_with_record "2026-01-05T10:02:00+00:00")
  = (Raise FileNotFoundError, host_with_record "2026-01-05T10:02:00+00:00").
Proof.
  apply (proj1 (session_update_failure_modes PyJson.loads PyJson.dumps py_str_ex
                  (host_with_record "2026-01-05T10:02:00+00:00")
                  "0000" "And the lexer?" a_result)).
  vm_compute. reflexivity.
Defined.

Lemma cmd_exec_saves_session_witness :
  ∃ data w',
    cmd_exec PyJson.loads PyJson.dumps py_str_ex review_args
      (host_printing session_stdout) = (Ok 0, w')
    ∧ session_files w' = <["a41b.json" := PyJson.dumps (VDict data)]> ∅
    ∧ Py.lookup "model" data = Some (VStr "m1").
Proof.
  destruct (cmd_exec_saves_session PyJson.loads PyJson.dumps py_str_ex review_args
              (host_printing session_stdout) 0 session_stdout ""
              [ ("session_id", VStr "a41b"); ("model", VStr "m1");
                ("result", VStr "All good.") ] "All good." "a41b")
    as (result & data & t1 & t2 & w' & Hcmd & _ & Hfiles & _ & _ & _ & Hmodel & _).
  - reflexivity.
  - left. reflexivity.
  - vm_compute. reflexivity.
  - reflexivity.
  - reflexivity.
  - discriminate.
  - exists data, w'. split; [exact Hcmd|]. split; [exact Hfiles|exact Hmodel].
Defined.

Lemma cmd_exec_without_session_id_witness :
  ∃ w',
    cmd_exec PyJson.loads PyJson.dumps py_str_ex review_args
      (host_printing truncated_stdout) = (Ok 0, w')
    ∧ w_sessions w' = None.
Proof.
  destruct (cmd_exec_without_session_id PyJson.loads PyJson.dumps py_str_ex review_args
              (host_printing truncated_stdout) 0 truncated_stdout ""
              [ ("subtype", VStr "error_max_turns");
                ("result", VStr "Which database should the service use?") ]
              "Which database should the service use?")
    as (result & w' & Hcmd & _ & Hdir).
  - reflexivity.
  - left. reflexivity.
  - vm_compute. reflexivity.
  - reflexivity.
  - reflexivity.
  - exists w'. split; [exact Hcmd|exact Hdir].
Defined.

Lemma cmd_continue_unknown_session_witness :
  ∃ w',
    cmd_continue PyJson.loads PyJson.dumps py_str_ex listdir_ex resume_args
      (host_printing session_stdout) = (Ok 0, w')
    ∧ session_files w' = ∅.
Proof.
  edestruct (cmd_continue_unknown_session PyJson.loads PyJson.dumps py_str_ex listdir_ex
               listdir_ex_spec resume_args (host_printing session_stdout))
    as (w' & Hcmd & _ & Hfiles).
  - vm_compute. reflexivity.
  - intros name [text Hname] _.
    change ((∅ : gmap string string) !! name = Some text) in Hname.
    rewrite lookup_empty in Hname. discriminate Hname.
  - vm_compute. reflexivity.
  - exists w'. split; [exact Hcmd|exact Hfiles].
Defined.

Lemma cmd_continue_updates_session_witness :
  ∃ d' w' turns,
    cmd_continue PyJson.loads PyJson.dumps py_str_ex listdir_ex resume_args
      host_resuming = (Ok 0, w')
    ∧ session_files w' !! "7c1e.json" = Some (PyJson.dumps (VDict d'))
    ∧ Py.lookup "turns" d' = Some (VList turns)
    ∧ length turns = 4%nat.
Proof.
  edestruct (cmd_continue_updates_session PyJson.loads PyJson.dumps py_str_ex listdir_ex
               resume_args host_resuming
               (with_sessions (Some (session_files host_resuming)) host_resuming)
               stored_record "7c1e"
               (PyJson.dumps (VDict stored_record)) stored_record)
    as (d' & ut & at' & w' & Hcmd & _ & Hfiles & Hturns & _).
  - vm_compute. reflexivity.
  - reflexivity.
  - reflexivity.
  - vm_compute. reflexivity.
  - vm_compute. reflexivity.
  - reflexivity.
  - vm_compute. reflexivity.
  - vm_compute. reflexivity.
  - exists d', w'. eexists. split; [exact Hcmd|]. split; [|split; [exact Hturns|reflexivity]].
    rewrite Hfiles. apply lookup_insert_eq.
Defined.

Lemma cmd_continue_rejects_malformed_record_witness :
  ∃ w1,
    cmd_continue PyJson.loads PyJson.dumps py_str_ex listdir_ex resume_args
      (host_with_file "7c1e.json" "[1]") = (Raise TypeError, w1).
Proof.
  eexists.
  apply (cmd_continue_rejects_malformed_record PyJson.loads PyJson.dumps py_str_ex
           listdir_ex resume_args (host_with_file "7c1e.json" "[1]")
           (with_sessions (Some (session_files (host_with_file "7c1e.json" "[1]")))
              (host_with_file "7c1e.json" "[1]"))
           (VList [VInt 1])).
  - vm_compute. reflexivity.
  - reflexivity.
  - intros d. discriminate.
Defined.

Lemma stored_records_listed name text :
  session_files host_with_two_records !! name = Some text →
  listed_or_skipped PyJson.loads text.
Proof.
  intros Hfile.
  change ((<["7c1e.json" := PyJson.dumps (VDict stored_record)]>
             {[ "7c1e9.json" := PyJson.dumps (VDict longer_record) ]}
             : gmap string string) !! name = Some text) in Hfile.
  apply lookup_insert_Some in Hfile as [[_ <-]|[_ Hfile]].
  - unfold listed_or_skipped.
    assert (PyJson.loads (PyJson.dumps (VDict stored_record)) = Some (VDict stored_record))
      as -> by (vm_compute; reflexivity).
    right. eexists _, _. split; reflexivity.
  - apply lookup_singleton_Some in Hfile as [_ <-].
    unfold listed_or_skipped.
    assert (PyJson.loads (PyJson.dumps (VDict longer_record)) = Some (VDict longer_record))
      as -> by (vm_compute; reflexivity).
    right. eexists _, _. split; reflexivity.
Qed.

Lemma session_list_members_witness :
  ∃ l w' s,
    session_list PyJson.loads listdir_ex sort_other_ex host_with_two_records = (Ok l, w')
    ∧ s ∈ l
    ∧ Py.lookup "session_id" s = Some (VStr "7c1e9")
    ∧ Py.lookup "turns" s = Some (VInt 0).
Proof.
  destruct (session_list_members PyJson.loads listdir_ex sort_other_ex listdir_ex_spec
              host_with_two_records)
    as (l & w' & Hl & _ & Hmem).
  - intros name text Hfile _. exact (stored_records_listed name text Hfile).
  - exists l, w'. eexists. split; [exact Hl|]. split.
    + apply Hmem. exists "7c1e9.json". eexists _, _.
      split; [vm_compute; reflexivity|]. split; [reflexivity|].
      split; [vm_compute; reflexivity|reflexivity].
    + split; reflexivity.
Defined.

Lemma session_list_newest_first_witness :
  ∃ l w',
    session_list PyJson.loads listdir_ex sort_other_ex host_with_two_records = (Ok l, w')
    ∧ StronglySorted not_older l.
Proof.
  apply (session_list_newest_first PyJson.loads listdir_ex sort_other_ex listdir_ex_spec
           host_with_two_records).
  intros name text Hfile _. exact (stored_records_listed name text Hfile).
Defined.

Lemma session_list_raises_on_non_object_witness :
  ∃ w',
    session_list PyJson.loads listdir_ex sort_other_ex (host_with_file "notes.json" "[]")
    = (Raise TypeError, w').
Proof.
  eexists.
  apply (session_list_raises_on_non_object PyJson.loads listdir_ex sort_other_ex
           listdir_ex_spec (host_with_file "notes.json" "[]") "notes.json" "[]" (VList [])).
  - vm_compute. reflexivity.
  - reflexivity.
  - vm_compute. reflexivity.
  - intros d. discriminate.
Defined.

Lemma cmd_sessions_limit_witness :
  ∃ shown w',
    cmd_sessions PyJson.loads PyJson.dumps listdir_ex sort_other_ex one_session_args
      host_with_two_records = (Ok 0, w')
    ∧ Z.of_nat (length shown) = 1
    ∧ w_stdout w'
      = [PyJson.dumps (VDict [ ("sessions", VList (VDict <$> shown));
                               ("count", VInt (Z.of_nat (length shown))) ])].
Proof.
  edestruct (cmd_sessions_limit PyJson.loads PyJson.dumps listdir_ex sort_other_ex
               one_session_args host_with_two_records)
    as (shown & w' & Hcmd & Hout & _ & _ & Hpos & _).
  - vm_compute. reflexivity.
  - exists shown, w'. split; [exact Hcmd|]. split; [|exact Hout].
    exact (proj2 (Hpos 1 eq_refl eq_refl)).
Defined.

Lemma cmd_delete_outcomes_witness :
  (∃ c',
     cmd_delete PyJson.dumps dumps_ascii_ex py_str_ex {| da_session_id := "7c" |}
       {| c_world := host_with_record "2026-01-05T10:02:00+00:00"; c_stderr := [] |}
     = (Ok 1, c')
     ∧ c_world c' = host_with_record "2026-01-05T10:02:00+00:00")
  ∧ (∃ w',
       cmd_delete PyJson.dumps dumps_ascii_ex py_str_ex {| da_session_id := "7c1e" |}
         {| c_world := host_with_record "2026-01-05T10:02:00+00:00"; c_stderr := [] |}
       = (Ok 0, {| c_world := w'; c_stderr := [] |})
       ∧ session_files w' !! "7c1e.json" = None).
Proof.
  split.
  - eexists. split.
    + apply (proj2 (cmd_delete_outcomes PyJson.dumps dumps_ascii_ex py_str_ex
                      {| da_session_id := "7c" |}
                      {| c_world := host_with_record "2026-01-05T10:02:00+00:00";
                         c_stderr := [] |})).
      vm_compute. reflexivity.
    + reflexivity.
  - destruct (proj1 (cmd_delete_outcomes PyJson.dumps dumps_ascii_ex py_str_ex
                       {| da_session_id := "7c1e" |}
                       {| c_world := host_with_record "2026-01-05T10:02:00+00:00";
                          c_stderr := [] |}))
      as (w' & Hcmd & Hfiles & _).
    + eexists. vm_compute. reflexivity.
    + exists w'. split; [exact Hcmd|]. rewrite Hfiles. apply lookup_delete_eq.
Defined.

Lemma cmd_status_outcomes_witness :
  (∃ c',
     cmd_status PyJson.loads PyJson.dumps dumps_ascii_ex py_str_ex listdir_ex
       {| sta_session_id := "7c1e" |}
       {| c_world := host_with_record "2026-01-05T10:02:00+00:00"; c_stderr := [] |}
     = (Ok 0, c'))
  ∧ (∃ c',
       cmd_status PyJson.loads PyJson.dumps dumps_ascii_ex py_str_ex listdir_ex
         {| sta_session_id := "0000" |}
         {| c_world := host_with_record "2026-01-05T10:02:00+00:00"; c_stderr := [] |}
       = (Ok 1, c')).
Proof.
  split.
  - eexists.
    apply (proj1 (cmd_status_outcomes PyJson.loads PyJson.dumps dumps_ascii_ex py_str_ex
                    listdir_ex listdir_ex_spec {| sta_session_id := "7c1e" |}
                    {| c_world := host_with_record "2026-01-05T10:02:00+00:00";
                       c_stderr := [] |})
             (PyJson.dumps (VDict stored_record)) (VDict stored_record)).
    + vm_compute. reflexivity.
    + vm_compute. reflexivity.
  - destruct (proj2 (cmd_status_outcomes PyJson.loads PyJson.dumps dumps_ascii_ex
                       py_str_ex listdir_ex listdir_ex_spec
                       {| sta_session_id := "0000" |}
                       {| c_world := host_with_record "2026-01-05T10:02:00+00:00";
                          c_stderr := [] |}))
      as (w' & Hcmd & _).
    + vm_compute. reflexivity.
    + intros name [text Hname] _.
      change (({[ "7c1e.json" := PyJson.dumps (VDict stored_record) ]}
                 : gmap string string) !! name = Some text) in Hname.
      apply lookup_singleton_Some in Hname as [<- _]. reflexivity.
    + eexists. exact Hcmd.
Defined.

Lemma saved_session_is_listed_witness :
  ∃ data w1 l w2 s,
    session_save PyJson.dumps py_str_ex (VStr "a41b") "Review the lexer" a_result
      "." (VStr "m1") (host_with_record "2026-01-05T10:02:00+00:00") = (Ok data, w1)
    ∧ session_list PyJson.loads listdir_ex sort_other_ex w1 = (Ok l, w2)
    ∧ s ∈ l
    ∧ Py.lookup "session_id" s = Some (VStr "a41b")
    ∧ Py.lookup "turns" s = Some (VInt 2).
Proof.
  destruct (saved_session_is_listed PyJson.loads PyJson.dumps py_str_ex listdir_ex
              sort_other_ex listdir_ex_spec
              (host_with_record "2026-01-05T10:02:00+00:00")
              "a41b" "Review the lexer" a_result "." (VStr "m1"))
    as (data & w1 & Hsave & Hlist).
  - intros name text Hname _ _.
    change (({[ "7c1e.json" := PyJson.dumps (VDict stored_record) ]}
               : gmap string string) !! name = Some text) in Hname.
    apply lookup_singleton_Some in Hname as [_ <-].
    unfold listed_or_skipped.
    assert (PyJson.loads (PyJson.dumps (VDict stored_record)) = Some (VDict stored_record))
      as -> by (vm_compute; reflexivity).
    right. eexists _, _. split; reflexivity.
  - assert (PyJson.loads (PyJson.dumps (VDict data)) = Some (VDict data)) as Hcodec.
    { vm_compute in Hsave. injection Hsave as <- _. vm_compute. reflexivity. }
    destruct (Hlist Hcodec) as (l & w2 & Hl & Hin).
    exists data, w1, l, w2. eexists.
    split; [exact Hsave|]. split; [exact Hl|]. split; [exact Hin|].
    split; reflexivity.
Defined.

Lemma run_on_decoded_output_witness :
  ∃ result, _run PyJson.loads (host_printing session_stdout) [] None 600 = Ok result.
Proof.
  destruct (run_on_decoded_output PyJson.loads (host_printing session_stdout)
              [] None 600 0 session_stdout ""
              (VDict [ ("session_id", VStr "a41b"); ("model", VStr "m1");
                       ("result", VStr "All good.") ]))
    as [(d & text & result & _ & _ & Hrun)|[[_ Hrun]|(d & v & _ & _ & _ & Hrun)]].
  - reflexivity.
  - left. reflexivity.
  - vm_compute. reflexivity.
  - exists result. exact Hrun.
  - vm_compute in Hrun. discriminate Hrun.
  - vm_compute in Hrun. discriminate Hrun.
Defined.

Lemma cmd_continue_failure_keeps_record_witness :
  ∃ err w',
    cmd_continue PyJson.loads PyJson.dumps py_str_ex listdir_ex resume_args
      (host_with_record "2026-01-05T10:02:00+00:00") = (Ok 1, w')
    ∧ Py.contains "error" err = true
    ∧ session_files w' = session_files (host_with_record "2026-01-05T10:02:00+00:00").
Proof.
  destruct (cmd_continue_failure_keeps_record PyJson.loads PyJson.dumps py_str_ex
              listdir_ex resume_args (host_with_record "2026-01-05T10:02:00+00:00")
              (with_sessions
                 (Some (session_files (host_with_record "2026-01-05T10:02:00+00:00")))
                 (host_with_record "2026-01-05T10:02:00+00:00"))
              stored_record "7c1e" "." Timeout)
    as (err & w' & Hcmd & Herr & _ & Hfiles).
  - vm_compute. reflexivity.
  - reflexivity.
  - reflexivity.
  - reflexivity.
  - exists err, w'. split; [exact Hcmd|]. split; [exact Herr|exact Hfiles].
Defined.
